(** * Agri-Credit backend: batching, fingerprinting, rollup and registry

    A shallow embedding of the ingestion core of the backend
    ([services/queue/memoryQueue.ts], [services/rollup/merkleTree.ts],
    [services/rollup/rollupEngine.ts], [services/database/timeseries.ts] and
    the fingerprint builder of the webhook route), followed by the properties
    proved about it.

    Conventions of the embedding.
    - A JavaScript string is represented by the bytes of its UTF-8 encoding
      (a Rocq [string]).  [JSON.stringify], [String.prototype.replace] with
      an ASCII pattern and hex decoding act the same way on both views of a
      well-formed string.
    - A [Buffer] is a list of bytes.
    - Integral JavaScript numbers (timestamps, [Date.now()], lengths) are [Z].
      Measurement values are kept abstract: the functions modelled here
      only print them, through [JSON.stringify].
    - [Map] objects are association lists in insertion order.
    - A call that may throw returns a [Js.result]. *)

From Stdlib Require Import ZArith List String Ascii Bool Lia DecimalString.
From Stdlib Require Import Sorted Permutation.
From Stdlib.Strings Require Import Byte.
Import ListNotations.
Open Scope Z_scope.

(** ** JavaScript primitives *)

Module Js.

(** The outcome of a call that may throw. *)
Inductive result (A : Type) : Type :=
| Ret (a : A)
| Throw (msg : string).
Arguments Ret {A} a.
Arguments Throw {A} msg.

Definition bind {A B} (m : result A) (k : A -> result B) : result B :=
  match m with
  | Ret a => k a
  | Throw e => Throw e
  end.

Definition Buffer := list byte.

Definition byte_to_Z (b : byte) : Z := Z.of_N (Byte.to_N b).

Definition byte_of_Z (z : Z) : byte :=
  match Byte.of_N (Z.to_N (z mod 256)) with
  | Some b => b
  | None => x00
  end.

(** [Buffer.compare(a, b)]: unsigned lexicographic order, a proper prefix
    comes first. *)
Fixpoint Buffer_compare (a b : Buffer) : Z :=
  match a, b with
  | [], [] => 0
  | [], _ :: _ => -1
  | _ :: _, [] => 1
  | x :: a', y :: b' =>
      if byte_to_Z x <? byte_to_Z y then -1
      else if byte_to_Z y <? byte_to_Z x then 1
      else Buffer_compare a' b'
  end.

(** [Buffer.from(str)]: the UTF-8 bytes of the string. *)
Definition Buffer_from_utf8 (s : string) : Buffer := list_byte_of_string s.

Definition hexdigit (n : Z) : ascii :=
  nth (Z.to_nat n) (list_ascii_of_string "0123456789abcdef") "0"%char.

(** [buf.toString('hex')]. *)
Fixpoint toHex (b : Buffer) : string :=
  match b with
  | [] => EmptyString
  | x :: t =>
      String (hexdigit (byte_to_Z x / 16))
             (String (hexdigit (byte_to_Z x mod 16)) (toHex t))
  end.

Definition unhex (c : ascii) : option Z :=
  let n := Z.of_nat (nat_of_ascii c) in
  if (48 <=? n) && (n <=? 57) then Some (n - 48)
  else if (97 <=? n) && (n <=? 102) then Some (n - 87)
  else if (65 <=? n) && (n <=? 70) then Some (n - 55)
  else None.

(** [Buffer.from(str, 'hex')]: two digits per byte; decoding stops at the
    first pair that is not hexadecimal, and a trailing single character is
    dropped. *)
Fixpoint fromHex (s : string) : Buffer :=
  match s with
  | String c1 (String c2 t) =>
      match unhex c1, unhex c2 with
      | Some a, Some b => byte_of_Z (16 * a + b) :: fromHex t
      | _, _ => []
      end
  | _ => []
  end.

(** [str.replace('0x', '')]: removes the first occurrence of the two
    characters, wherever it is. *)
Fixpoint replace_0x (s : string) : string :=
  match s with
  | EmptyString => EmptyString
  | String c t =>
      match t with
      | String d t' =>
          if (c =? "0")%char && (d =? "x")%char then t'
          else String c (replace_0x t)
      | EmptyString => s
      end
  end.

(** Truthiness of a string: only the empty string is falsy. *)
Definition truthy (s : string) : bool :=
  match s with
  | EmptyString => false
  | String _ _ => true
  end.

(** [a || b] on strings. *)
Definition or_else (a b : string) : string := if truthy a then a else b.

(** [Array.prototype.slice(start, end)] with integral arguments. *)
Definition relative_index (len k : Z) : Z :=
  if k <? 0 then Z.max (len + k) 0 else Z.min k len.

Definition slice {A} (l : list A) (start stop : Z) : list A :=
  let len := Z.of_nat (List.length l) in
  let k := relative_index len start in
  let final := relative_index len stop in
  firstn (Z.to_nat (final - k)) (skipn (Z.to_nat k) l).

(** [Array.prototype.splice(0, deleteCount)]: the removed prefix and what
    stays in the array. *)
Definition splice0 {A} (l : list A) (deleteCount : Z) : list A * list A :=
  let len := Z.of_nat (List.length l) in
  let n := Z.to_nat (Z.min (Z.max deleteCount 0) len) in
  (firstn n l, skipn n l).

(** [Array.prototype.sort(cmp)].  The sort is stable; for a comparator
    that orders by a numeric key every stable algorithm returns the same
    array, here by insertion from the right. *)
Fixpoint sort_insert {A} (cmp : A -> A -> Z) (x : A) (l : list A) : list A :=
  match l with
  | [] => [x]
  | y :: t => if 0 <? cmp x y then y :: sort_insert cmp x t else x :: l
  end.

Definition sort {A} (cmp : A -> A -> Z) (l : list A) : list A :=
  fold_right (sort_insert cmp) [] l.

(** The text [Number::toString] gives for a number, as [JSON.stringify]
    writes it. *)
Class Number (N : Type) := Number_toString : N -> string.

(** Integers (exact below 2^53) print in decimal. *)
#[global] Instance Number_Z : Number Z :=
  fun z => NilZero.string_of_int (Z.to_int z).

End Js.

(** ** [Map]: keys in insertion order *)

Module JsMap.

Section Ops.
Context {V : Type}.

Definition t := list (string * V).

Definition empty : t := [].

Fixpoint get (m : t) (k : string) : option V :=
  match m with
  | [] => None
  | (k', v) :: m' => if (k' =? k)%string then Some v else get m' k
  end.

(** [m.set(k, v)]: an existing key keeps its place, a new key goes last. *)
Fixpoint set (m : t) (k : string) (v : V) : t :=
  match m with
  | [] => [(k, v)]
  | (k', v') :: m' =>
      if (k' =? k)%string then (k', v) :: m' else (k', v') :: set m' k v
  end.

Definition values (m : t) : list V := map snd m.

Definition size (m : t) : Z := Z.of_nat (List.length m).
End Ops.

Arguments t V : clear implicits.

End JsMap.

(** ** Keccak-256, the hash behind the [keccak256] package *)

Module Keccak.

Definition mask64 : Z := 2 ^ 64 - 1.

Definition rotl64 (x n : Z) : Z :=
  Z.lor (Z.land (Z.shiftl x n) mask64) (Z.shiftr x (64 - n)).

(** Lane (x, y) of a state of 25 lanes of 64 bits. *)
Definition lane (s : list Z) (x y : Z) : Z :=
  nth (Z.to_nat ((x mod 5) + 5 * (y mod 5))) s 0.

Definition coords : list (Z * Z) :=
  map (fun i => (Z.of_nat i mod 5, Z.of_nat i / 5)) (seq 0 25).

Definition theta (s : list Z) : list Z :=
  let C x := fold_left Z.lxor (map (lane s x) [0; 1; 2; 3; 4]) 0 in
  let D x := Z.lxor (C (x + 4)) (rotl64 (C (x + 1)) 1) in
  map (fun '(x, y) => Z.lxor (lane s x y) (D x)) coords.

Definition rotc : list Z :=
  [ 0; 1; 62; 28; 27;
    36; 44; 6; 55; 20;
    3; 10; 43; 25; 39;
    41; 45; 15; 21; 8;
    18; 2; 61; 56; 14 ].

Definition rho_pi (s : list Z) : list Z :=
  map (fun '(X, Y) =>
         let x := (X + 3 * Y) mod 5 in
         rotl64 (lane s x X) (lane rotc x X)) coords.

Definition chi (s : list Z) : list Z :=
  map (fun '(x, y) =>
         Z.lxor (lane s x y)
                (Z.land (Z.lxor (lane s (x + 1) y) mask64) (lane s (x + 2) y)))
      coords.

Definition iota (rc : Z) (s : list Z) : list Z :=
  match s with
  | a :: t => Z.lxor a rc :: t
  | [] => []
  end.

Definition RC : list Z :=
  [ 0x0000000000000001; 0x0000000000008082; 0x800000000000808A;
    0x8000000080008000; 0x000000000000808B; 0x0000000080000001;
    0x8000000080008081; 0x8000000000008009; 0x000000000000008A;
    0x0000000000000088; 0x0000000080008009; 0x000000008000000A;
    0x000000008000808B; 0x800000000000008B; 0x8000000000008089;
    0x8000000000008003; 0x8000000000008002; 0x8000000000000080;
    0x000000000000800A; 0x800000008000000A; 0x8000000080008081;
    0x8000000000008080; 0x0000000080000001; 0x8000000080008008 ].

Definition round (s : list Z) (rc : Z) : list Z :=
  iota rc (chi (rho_pi (theta s))).

Definition keccak_f (s : list Z) : list Z := fold_left round RC s.

(** Rate of Keccak-256 in bytes. *)
Definition rate : nat := 136.

Fixpoint le_lane (bs : list byte) : Z :=
  match bs with
  | [] => 0
  | b :: t => Js.byte_to_Z b + 256 * le_lane t
  end.

Fixpoint lanes_of (n : nat) (bs : list byte) : list Z :=
  match n with
  | O => []
  | S n' => le_lane (firstn 8 bs) :: lanes_of n' (skipn 8 bs)
  end.

Fixpoint xor_into (s blk : list Z) : list Z :=
  match s, blk with
  | a :: s', b :: blk' => Z.lxor a b :: xor_into s' blk'
  | _, _ => s
  end.

(** Keccak padding (domain byte 0x01, not the 0x06 of SHA-3). *)
Definition pad (msg : list byte) : list byte :=
  let q := (rate - (List.length msg mod rate))%nat in
  match q with
  | 1%nat => (msg ++ [x81])%list
  | _ => (msg ++ [x01] ++ repeat x00 (q - 2) ++ [x80])%list
  end.

Fixpoint absorb (blocks : nat) (s : list Z) (bs : list byte) : list Z :=
  match blocks with
  | O => s
  | S blocks' =>
      absorb blocks' (keccak_f (xor_into s (lanes_of 17 (firstn rate bs))))
             (skipn rate bs)
  end.

Fixpoint lane_bytes (n : nat) (z : Z) : list byte :=
  match n with
  | O => []
  | S n' => Js.byte_of_Z z :: lane_bytes n' (z / 256)
  end.

Definition digest (msg : list byte) : list byte :=
  let p := pad msg in
  let s := absorb (List.length p / rate) (repeat 0 25) p in
  flat_map (lane_bytes 8) (firstn 4 s).

End Keccak.

(** [keccak256(value)] of the package, on a [Buffer]. *)
Definition keccak256 (b : Js.Buffer) : Js.Buffer := Keccak.digest b.

(** [keccak256(str)] on a string that is not a 0x-prefixed hex literal (the
    package hashes the UTF-8 bytes of such a string; the JSON texts hashed
    here start with a brace). *)
Definition keccak256_string (s : string) : Js.Buffer :=
  keccak256 (Js.Buffer_from_utf8 s).

(** ** [JSON.stringify] on the values the program serializes *)

Module JSON.

#[warnings="-register-all"]
Inductive value : Type :=
| JString (s : string)
| JNumber (text : string)
| JObject (fields : list (string * value)).

Definition dquote : ascii := "034"%char.
Definition backslash : ascii := "092"%char.

(** QuoteJSONString escapes the quote, the backslash and the control
    characters; every other character is copied. *)
Definition escape (c : ascii) : string :=
  let n := Z.of_nat (nat_of_ascii c) in
  if n =? 8 then String backslash "b"
  else if n =? 9 then String backslash "t"
  else if n =? 10 then String backslash "n"
  else if n =? 12 then String backslash "f"
  else if n =? 13 then String backslash "r"
  else if n =? 34 then String backslash (String dquote EmptyString)
  else if n =? 92 then String backslash (String backslash EmptyString)
  else if n <? 32 then
    String backslash
      (String "u" (String "0" (String "0"
         (String (Js.hexdigit (n / 16))
            (String (Js.hexdigit (n mod 16)) EmptyString)))))
  else String c EmptyString.

Fixpoint escape_all (s : string) : string :=
  match s with
  | EmptyString => EmptyString
  | String c t => (escape c ++ escape_all t)%string
  end.

Definition quote (s : string) : string :=
  String dquote (escape_all s ++ String dquote EmptyString)%string.

Fixpoint join (parts : list string) : string :=
  match parts with
  | [] => EmptyString
  | [p] => p
  | p :: rest => (p ++ "," ++ join rest)%string
  end.

Fixpoint stringify (v : value) : string :=
  match v with
  | JString s => quote s
  | JNumber text => text
  | JObject fields =>
      ("{" ++ join (map (fun kv => quote (fst kv) ++ ":" ++ stringify (snd kv))
                        fields) ++ "}")%string
  end.

(** A property key that is an array index: the canonical decimal text of an
    integer between 0 and 2^32 - 2. *)
Definition digit (c : ascii) : option Z :=
  let n := Z.of_nat (nat_of_ascii c) in
  if (48 <=? n) && (n <=? 57) then Some (n - 48) else None.

Fixpoint decimal (acc : Z) (s : string) : option Z :=
  match s with
  | EmptyString => Some acc
  | String c t =>
      match digit c with
      | Some d => decimal (10 * acc + d) t
      | None => None
      end
  end.

Definition array_index (k : string) : option Z :=
  match k with
  | EmptyString => None
  | String c t =>
      if (c =? "0")%char && Js.truthy t then None
      else match decimal 0 k with
           | Some n => if n <=? 4294967294 then Some n else None
           | None => None
           end
  end.

Definition index_key {N} (kv : string * N) : bool :=
  match array_index (fst kv) with Some _ => true | None => false end.

Definition index_of {N} (kv : string * N) : Z :=
  match array_index (fst kv) with Some n => n | None => 0 end.

(** The own properties of an object in the order [JSON.stringify] visits
    them: array-index keys in increasing numeric order, then the other keys
    in insertion order.  [o] lists the properties in insertion order. *)
Definition ownEntries {N} (o : list (string * N)) : list (string * N) :=
  (Js.sort (fun a b => index_of a - index_of b) (filter index_key o)
   ++ filter (fun kv => negb (index_key kv)) o)%list.

(** A readings object, whose values are numbers. *)
Definition of_readings {N} `{Js.Number N} (o : list (string * N)) : value :=
  JObject (map (fun kv => (fst kv, JNumber (Js.Number_toString (snd kv))))
               (ownEntries o)).

End JSON.

(** ** The records of [types/index.ts] *)

Module SensorDataPayload.
Record t {N : Type} : Type := mk {
  serialNumber : string;
  sensorId : string;
  deviceSignature : string;
  timestamp : Z;
  readings : list (string * N)
}.
Arguments t N : clear implicits.
End SensorDataPayload.

Module ProcessedSensorData.
Record t {N : Type} : Type := mk {
  id : string;
  serialNumber : string;
  sensorId : string;
  timestamp : Z;
  readings : list (string * N);
  receivedAt : Z;
  dataHash : string
}.
Arguments t N : clear implicits.
End ProcessedSensorData.

Module QueueItem.
Record t {N : Type} : Type := mk {
  id : string;
  data : ProcessedSensorData.t N;
  addedAt : Z
}.
Arguments t N : clear implicits.
End QueueItem.

Module DataBatch.
Record t {N : Type} : Type := mk {
  batchId : string;
  data : list (ProcessedSensorData.t N);
  createdAt : Z;
  merkleRoot : option string;
  merkleProofs : option (JsMap.t (list string))
}.
Arguments t N : clear implicits.
End DataBatch.

Module BatchRegistryEntry.
Record t : Type := mk {
  batchId : string;
  merkleRoot : string;
  txHash : string;
  dataCount : Z;
  createdAt : Z;
  submittedAt : Z
}.
End BatchRegistryEntry.

(** ** The fingerprint builder of the webhook route *)

Module Webhook.
Section Fingerprint.
Context {N : Type} `{Js.Number N}.

(** [createDataHash(payload)] of [webhook.routes.ts]. *)
Definition createDataHash (payload : SensorDataPayload.t N) : string :=
  let dataString :=
    JSON.stringify
      (JSON.JObject
         [ ("serialNumber"%string,
            JSON.JString (SensorDataPayload.serialNumber payload));
           ("sensorId"%string,
            JSON.JString (SensorDataPayload.sensorId payload));
           ("timestamp"%string,
            JSON.JNumber
              (Js.Number_toString (SensorDataPayload.timestamp payload)));
           ("readings"%string,
            JSON.of_readings (SensorDataPayload.readings payload)) ]) in
  let hash := keccak256_string dataString in
  ("0x" ++ Js.toHex hash)%string.

(** The record the route enqueues: [id] is a fresh uuid and [receivedAt]
    the current time. *)
Definition processedData (payload : SensorDataPayload.t N)
           (uuid : string) (now : Z) : ProcessedSensorData.t N :=
  ProcessedSensorData.mk N uuid
    (SensorDataPayload.serialNumber payload)
    (SensorDataPayload.sensorId payload)
    (SensorDataPayload.timestamp payload)
    (SensorDataPayload.readings payload)
    now
    (createDataHash payload).
End Fingerprint.
End Webhook.

(** ** The tree of the [merkletreejs] package

    The package is a dependency of the program.  What follows is its
    behaviour for the options the program passes: no Bitcoin mode, no
    duplication of an odd node, no leaf sorting. *)

Module MerkleTreeJs.

Inductive Position : Type := Left | Right.

Record ProofNode : Type := mkNode {
  position : Position;
  data : Js.Buffer
}.

Record Options : Type := mkOptions {
  sortPairs : bool;
  hashLeaves : bool
}.

(** [options = {}]. *)
Definition default_options : Options := mkOptions false false.

Record MerkleTree : Type := mkTree {
  options : Options;
  leaves : list Js.Buffer;
  layers : list (list Js.Buffer)
}.

Section WithHash.
Variable hashFn : Js.Buffer -> Js.Buffer.

(** A parent: the two children, sorted with [Buffer.compare] when
    [sortPairs] is set, concatenated and hashed. *)
Definition parent (opts : Options) (lft rgt : Js.Buffer) : Js.Buffer :=
  if sortPairs opts && (0 <? Js.Buffer_compare lft rgt)
  then hashFn (rgt ++ lft)
  else hashFn (lft ++ rgt).

(** One pass of the loop of [createHashes]: adjacent nodes are paired, a
    last node without a partner moves up unchanged. *)
Fixpoint nextLayer (opts : Options) (nodes : list Js.Buffer)
  : list Js.Buffer :=
  match nodes with
  | lft :: rgt :: rest => parent opts lft rgt :: nextLayer opts rest
  | _ => nodes
  end.

(** [createHashes]: layers are added while the last one has more than one
    node.  [fuel] bounds the number of passes. *)
Fixpoint createHashes (fuel : nat) (opts : Options)
         (nodes : list Js.Buffer) : list (list Js.Buffer) :=
  nodes ::
  match fuel with
  | O => []
  | S fuel' =>
      if (1 <? List.length nodes)%nat
      then createHashes fuel' opts (nextLayer opts nodes)
      else []
  end.

(** [new MerkleTree(leaves, hashFn, options)]. *)
Definition new (lvs : list Js.Buffer) (opts : Options) : MerkleTree :=
  let lvs' := if hashLeaves opts then map hashFn lvs else lvs in
  mkTree opts lvs' (createHashes (List.length lvs') opts lvs').

(** [tree.getRoot()]: the first node of the last layer, or the empty
    buffer when there is none. *)
Definition getRoot (tree : MerkleTree) : Js.Buffer :=
  match last (layers tree) [] with
  | [] => []
  | node :: _ => node
  end.

(** The index [getProof(leaf)] starts from: the last leaf equal to the
    argument. *)
Fixpoint lastIndex (leaf : Js.Buffer) (lvs : list Js.Buffer) (i : nat)
         (found : option nat) : option nat :=
  match lvs with
  | [] => found
  | l :: rest =>
      lastIndex leaf rest (S i)
                (if Js.Buffer_compare leaf l =? 0 then Some i else found)
  end.

Fixpoint proofFrom (lys : list (list Js.Buffer)) (index : nat)
  : list ProofNode :=
  match lys with
  | [] => []
  | layer :: rest =>
      let isRightNode := Nat.odd index in
      let pairIndex := if isRightNode then (index - 1)%nat
                       else (index + 1)%nat in
      match nth_error layer pairIndex with
      | Some d =>
          mkNode (if isRightNode then Left else Right) d
          :: proofFrom rest (index / 2)%nat
      | None => proofFrom rest (index / 2)%nat
      end
  end.

(** [tree.getProof(leaf)]. *)
Definition getProof (tree : MerkleTree) (leaf : Js.Buffer)
  : list ProofNode :=
  match lastIndex leaf (leaves tree) 0 None with
  | None => []
  | Some index => proofFrom (layers tree) index
  end.

(** One step of the loop of [verify]. *)
Definition verify_step (opts : Options) (hash : Js.Buffer)
           (node : ProofNode) : Js.Buffer :=
  if sortPairs opts then
    if Js.Buffer_compare hash (data node) =? -1
    then hashFn (hash ++ data node)
    else hashFn (data node ++ hash)
  else
    match position node with
    | Left => hashFn (data node ++ hash)
    | Right => hashFn (hash ++ data node)
    end.

(** [MerkleTree.verify(proof, targetNode, root, hashFn, options)]. *)
Definition verify (opts : Options) (proof : list ProofNode)
           (targetNode root : Js.Buffer) : bool :=
  Js.Buffer_compare (fold_left (verify_step opts) proof targetNode) root
  =? 0.
End WithHash.

End MerkleTreeJs.

(** ** [MerkleTreeBuilder] of [merkleTree.ts] *)

Module MerkleTreeBuilder.

Record BuildResult : Type := mkResult {
  root : string;
  tree : MerkleTreeJs.MerkleTree;
  leaves : list Js.Buffer;
  proofs : JsMap.t (list string)
}.

(** The options [buildTree] passes to the constructor. *)
Definition build_options : MerkleTreeJs.Options :=
  MerkleTreeJs.mkOptions true false.

Definition hex0x (b : Js.Buffer) : string := ("0x" ++ Js.toHex b)%string.

Definition bufferOf (hex : string) : Js.Buffer :=
  Js.fromHex (Js.replace_0x hex).

Section Builder.
Context {N : Type} `{Js.Number N}.

(** The private [createDataHash]. *)
Definition createDataHash (data : ProcessedSensorData.t N) : string :=
  let dataString :=
    JSON.stringify
      (JSON.JObject
         [ ("serialNumber"%string,
            JSON.JString (ProcessedSensorData.serialNumber data));
           ("sensorId"%string,
            JSON.JString (ProcessedSensorData.sensorId data));
           ("timestamp"%string,
            JSON.JNumber
              (Js.Number_toString (ProcessedSensorData.timestamp data)));
           ("readings"%string,
            JSON.of_readings (ProcessedSensorData.readings data)) ]) in
  let hash := keccak256_string dataString in
  hex0x hash.

Definition leafOf (item : ProcessedSensorData.t N) : Js.Buffer :=
  let hashInput :=
    Js.or_else (ProcessedSensorData.dataHash item) (createDataHash item) in
  bufferOf hashInput.

(** The body of the [forEach] that fills the proof map. *)
Definition addProof (tr : MerkleTreeJs.MerkleTree)
           (acc : JsMap.t (list string))
           (entry : ProcessedSensorData.t N * Js.Buffer)
  : JsMap.t (list string) :=
  let (item, leaf) := entry in
  let proof := map (fun p => hex0x (MerkleTreeJs.data p))
                   (MerkleTreeJs.getProof tr leaf) in
  let dataHash :=
    Js.or_else (ProcessedSensorData.dataHash item) (hex0x leaf) in
  JsMap.set acc dataHash proof.

Definition buildTree (data : list (ProcessedSensorData.t N))
  : Js.result BuildResult :=
  let lvs := map leafOf data in
  let tr := MerkleTreeJs.new keccak256 lvs build_options in
  let rt := hex0x (MerkleTreeJs.getRoot tr) in
  let prfs := fold_left (addProof tr) (combine data lvs) JsMap.empty in
  Js.Ret (mkResult rt tr lvs prfs).
End Builder.

(** The proof objects [verifyProof] rebuilds: the position is chosen from
    the place in the list. *)
Fixpoint proofObjects (i : nat) (proofBuffers : list Js.Buffer)
  : list MerkleTreeJs.ProofNode :=
  match proofBuffers with
  | [] => []
  | d :: rest =>
      MerkleTreeJs.mkNode
        (if Nat.even i then MerkleTreeJs.Right else MerkleTreeJs.Left) d
      :: proofObjects (S i) rest
  end.

(** [verifyProof(leaf, proof, root)]: the static [MerkleTree.verify] is
    called with the hash function only, hence with the default options. *)
Definition verifyProof (leaf : string) (proof : list string) (root : string)
  : bool :=
  let leafBuffer := bufferOf leaf in
  let rootBuffer := bufferOf root in
  let proofBuffers := map bufferOf proof in
  MerkleTreeJs.verify keccak256 MerkleTreeJs.default_options
                      (proofObjects 0 proofBuffers) leafBuffer rootBuffer.

End MerkleTreeBuilder.

(** ** [MemoryQueue] of [memoryQueue.ts]

    A call returns the new queue and the batches emitted as [batch-ready]
    events during the call. *)

Module MemoryQueue.
Section Queue.
Context {N : Type}.

Record t : Type := mk {
  queue : list (QueueItem.t N);
  batchSize : Z;
  flushIntervalMs : Z
}.

Definition with_queue (q : t) (items : list (QueueItem.t N)) : t :=
  mk items (batchSize q) (flushIntervalMs q).

Definition flush (q : t) : t * list (list (ProcessedSensorData.t N)) :=
  match queue q with
  | [] => (q, [])
  | _ :: _ =>
      let (batch, rest) := Js.splice0 (queue q) (batchSize q) in
      let batchData := map QueueItem.data batch in
      (with_queue q rest, [batchData])
  end.

(** [enqueue(data)]; [now] is the value of [Date.now()]. *)
Definition enqueue (q : t) (data : ProcessedSensorData.t N) (now : Z)
  : t * list (list (ProcessedSensorData.t N)) :=
  let queueItem := QueueItem.mk N (ProcessedSensorData.id data) data now in
  let q1 := with_queue q (queue q ++ [queueItem]) in
  if batchSize q1 <=? Z.of_nat (List.length (queue q1))
  then flush q1
  else (q1, []).

Definition size (q : t) : Z := Z.of_nat (List.length (queue q)).

(** The callback of the flush timer. *)
Definition timerTick (q : t) : t * list (list (ProcessedSensorData.t N)) :=
  if 0 <? Z.of_nat (List.length (queue q)) then flush q else (q, []).

Definition clear (q : t) : t := with_queue q [].

(** A run of [enqueue] calls with no timer callback in between; the
    emitted batches are collected in order. *)
Fixpoint enqueueAll (q : t) (calls : list (ProcessedSensorData.t N * Z))
  : t * list (list (ProcessedSensorData.t N)) :=
  match calls with
  | [] => (q, [])
  | (data, now) :: rest =>
      let (q1, out1) := enqueue q data now in
      let (q2, out2) := enqueueAll q1 rest in
      (q2, out1 ++ out2)
  end.
End Queue.
Arguments t N : clear implicits.
End MemoryQueue.

(** ** [TimeSeriesDB] of [timeseries.ts] *)

Module TimeSeriesDB.
Section DB.
Context {N : Type}.

Record t : Type := mk {
  batches : JsMap.t BatchRegistryEntry.t;
  batchData : JsMap.t (list (ProcessedSensorData.t N));
  proofs : JsMap.t (JsMap.t (list string));
  totalDataPoints : Z
}.

Definition init : t := mk JsMap.empty JsMap.empty JsMap.empty 0.

Definition saveBatch (db : t) (entry : BatchRegistryEntry.t)
           (data : list (ProcessedSensorData.t N))
           (merkleProofs : option (JsMap.t (list string))) : t :=
  mk (JsMap.set (batches db) (BatchRegistryEntry.batchId entry) entry)
     (JsMap.set (batchData db) (BatchRegistryEntry.batchId entry) data)
     (match merkleProofs with
      | Some prfs =>
          JsMap.set (proofs db) (BatchRegistryEntry.batchId entry) prfs
      | None => proofs db
      end)
     (totalDataPoints db + Z.of_nat (List.length data)).

(** [updateBatchTx(batchId, txHash)]; [now] is the value of
    [Date.now()]. *)
Definition updateBatchTx (db : t) (batchId txHash : string) (now : Z) : t :=
  match JsMap.get (batches db) batchId with
  | Some entry =>
      let entry' :=
        BatchRegistryEntry.mk
          (BatchRegistryEntry.batchId entry)
          (BatchRegistryEntry.merkleRoot entry)
          txHash
          (BatchRegistryEntry.dataCount entry)
          (BatchRegistryEntry.createdAt entry)
          now in
      mk (JsMap.set (batches db) batchId entry')
         (batchData db) (proofs db) (totalDataPoints db)
  | None => db
  end.

Definition getBatch (db : t) (batchId : string)
  : option BatchRegistryEntry.t :=
  JsMap.get (batches db) batchId.

Definition getBatchData (db : t) (batchId : string)
  : option (list (ProcessedSensorData.t N)) :=
  JsMap.get (batchData db) batchId.

Definition getProof (db : t) (batchId dataHash : string)
  : option (list string) :=
  match JsMap.get (proofs db) batchId with
  | None => None
  | Some batchProofs => JsMap.get batchProofs dataHash
  end.

Definition getBatchCount (db : t) : Z := JsMap.size (batches db).

Definition getTotalDataPoints (db : t) : Z := totalDataPoints db.

Definition getLatestBatch (db : t) : option BatchRegistryEntry.t :=
  fold_left
    (fun latest entry =>
       match latest with
       | None => Some entry
       | Some l =>
           if BatchRegistryEntry.createdAt l
              <? BatchRegistryEntry.createdAt entry
           then Some entry else latest
       end)
    (JsMap.values (batches db)) None.

Definition listBatches (db : t) (limit offset : Z)
  : list BatchRegistryEntry.t :=
  let allBatches := JsMap.values (batches db) in
  let sorted :=
    Js.sort (fun a b => BatchRegistryEntry.createdAt b
                        - BatchRegistryEntry.createdAt a) allBatches in
  Js.slice sorted offset (offset + limit).

(** The readings the two nested loops push, in visiting order. *)
Definition scan (db : t) (keep : ProcessedSensorData.t N -> bool)
  : list (ProcessedSensorData.t N) :=
  flat_map (filter keep) (JsMap.values (batchData db)).

Definition queryBySensor (db : t) (sensorId : string)
  : list (ProcessedSensorData.t N) :=
  let results :=
    scan db (fun item =>
               (ProcessedSensorData.sensorId item =? sensorId)%string) in
  Js.sort (fun a b => ProcessedSensorData.timestamp b
                      - ProcessedSensorData.timestamp a) results.

Definition queryByTimeRange (db : t) (startTime endTime : Z)
  : list (ProcessedSensorData.t N) :=
  let results :=
    scan db (fun item =>
               (startTime <=? ProcessedSensorData.timestamp item)
               && (ProcessedSensorData.timestamp item <=? endTime)) in
  Js.sort (fun a b => ProcessedSensorData.timestamp a
                      - ProcessedSensorData.timestamp b) results.

Definition clear (db : t) : t := init.
End DB.
Arguments t N : clear implicits.
End TimeSeriesDB.

(** ** [RollupEngine] of [rollupEngine.ts]

    The engine is asynchronous: a call of the relayer suspends the caller
    until the promise settles, and other calls run in between.  The state
    therefore holds, next to the fields of the engine and the database, the
    relayer calls that have not settled yet and the callbacks handed to
    [setTimeout].  Code between two suspensions on the relayer runs as one
    step. *)

Module RollupEngine.

(** What runs after [submitToBlockchain] returns. *)
Inductive Continuation : Type :=
| InProcessRollup   (* awaited by [processRollup], which records the hash *)
| InTimerCallback.  (* called from the [setTimeout] callback, result unused *)

Section Engine.
Context {N : Type} `{Js.Number N}.

Record PendingCall : Type := mkCall {
  call_batch : DataBatch.t N;
  call_merkleRoot : string;
  call_then : Continuation
}.

Record t : Type := mk {
  pendingBatches : list (DataBatch.t N);
  isSubmitting : bool;
  db : TimeSeriesDB.t N;
  timers : list (DataBatch.t N);
  relayerCalls : list PendingCall
}.

Definition init : t := mk [] false TimeSeriesDB.init [] [].

Definition storeBatch (w : t) (batch : DataBatch.t N) : t :=
  let entry :=
    BatchRegistryEntry.mk
      (DataBatch.batchId batch)
      (match DataBatch.merkleRoot batch with
       | Some r => Js.or_else r EmptyString
       | None => EmptyString
       end)
      EmptyString
      (Z.of_nat (List.length (DataBatch.data batch)))
      (DataBatch.createdAt batch)
      0 in
  mk (pendingBatches w) (isSubmitting w)
     (TimeSeriesDB.saveBatch (db w) entry (DataBatch.data batch)
                             (DataBatch.merkleProofs batch))
     (timers w) (relayerCalls w).

(** The [finally] block of [submitToBlockchain]. *)
Definition submitFinally (w : t) : t :=
  match pendingBatches w with
  | nextBatch :: rest =>
      mk rest false (db w) (timers w ++ [nextBatch]) (relayerCalls w)
  | [] => mk [] false (db w) (timers w) (relayerCalls w)
  end.

(** [submitToBlockchain(batch)] up to its suspension on the relayer.  When
    the function returns without calling the relayer its result is
    [null], and the caller has nothing more to do. *)
Definition submitToBlockchain (k : Continuation) (w : t)
           (batch : DataBatch.t N) : t :=
  if isSubmitting w then
    mk (pendingBatches w ++ [batch]) (isSubmitting w) (db w) (timers w)
       (relayerCalls w)
  else
    let w1 := mk (pendingBatches w) true (db w) (timers w)
                 (relayerCalls w) in
    match DataBatch.merkleRoot batch with
    | Some (String c r) =>
        mk (pendingBatches w1) (isSubmitting w1) (db w1) (timers w1)
           (relayerCalls w1 ++ [mkCall batch (String c r) k])
    | _ => submitFinally w1
    end.

(** The batch after [batch.merkleRoot = root] and
    [batch.merkleProofs = proofs]. *)
Definition attach (batch : DataBatch.t N)
           (built : MerkleTreeBuilder.BuildResult) : DataBatch.t N :=
  DataBatch.mk N (DataBatch.batchId batch) (DataBatch.data batch)
               (DataBatch.createdAt batch)
               (Some (MerkleTreeBuilder.root built))
               (Some (MerkleTreeBuilder.proofs built)).

(** [processRollup(batch)] up to its first suspension on the relayer. *)
Definition processRollup (w : t) (batch : DataBatch.t N) : t :=
  match MerkleTreeBuilder.buildTree (DataBatch.data batch) with
  | Js.Ret built =>
      let batch' := attach batch built in
      let w1 := storeBatch w batch' in
      submitToBlockchain InProcessRollup w1 batch'
  | Js.Throw _ =>
      mk (pendingBatches w ++ [batch]) (isSubmitting w) (db w) (timers w)
         (relayerCalls w)
  end.

Fixpoint remove_nth {A} (n : nat) (l : list A) : list A :=
  match n, l with
  | _, [] => []
  | O, _ :: t => t
  | S n', x :: t => x :: remove_nth n' t
  end.

(** The relayer call number [n] settles: [sepoliaRelayer.submitMerkleRoot]
    returns a transaction hash or throws.  The rest of
    [submitToBlockchain] runs, then the rest of the caller. *)
Definition relayerSettles (w : t) (n : nat) (outcome : Js.result string)
           (now : Z) : t :=
  match nth_error (relayerCalls w) n with
  | None => w
  | Some call =>
      let w1 := mk (pendingBatches w) (isSubmitting w) (db w) (timers w)
                   (remove_nth n (relayerCalls w)) in
      let w2 := submitFinally w1 in
      match outcome, call_then call with
      | Js.Ret txHash, InProcessRollup =>
          mk (pendingBatches w2) (isSubmitting w2)
             (TimeSeriesDB.updateBatchTx
                (db w2) (DataBatch.batchId (call_batch call)) txHash now)
             (timers w2) (relayerCalls w2)
      | _, _ => w2
      end
  end.

(** The oldest [setTimeout] callback runs. *)
Definition timerFires (w : t) : t :=
  match timers w with
  | [] => w
  | nextBatch :: rest =>
      submitToBlockchain InTimerCallback
        (mk (pendingBatches w) (isSubmitting w) (db w) rest
            (relayerCalls w))
        nextBatch
  end.

Definition getPendingCount (w : t) : Z :=
  Z.of_nat (List.length (pendingBatches w)).

Inductive Event : Type :=
| ProcessRollup (batch : DataBatch.t N)
| RelayerSettles (n : nat) (outcome : Js.result string) (now : Z)
| TimerFires.

Definition step (w : t) (e : Event) : t :=
  match e with
  | ProcessRollup batch => processRollup w batch
  | RelayerSettles n outcome now => relayerSettles w n outcome now
  | TimerFires => timerFires w
  end.

Definition run (w : t) (es : list Event) : t := fold_left step es w.
End Engine.
Arguments t N : clear implicits.
Arguments PendingCall N : clear implicits.
Arguments Event N : clear implicits.
End RollupEngine.

(** ** [_verifyMerkleProof] of [AgriDataRegistry.sol]

    A [bytes32] value is a buffer of 32 bytes; on such buffers [<=] on the
    numeric values is the order of [Buffer_compare], and
    [abi.encodePacked] is concatenation. *)

Module AgriDataRegistry.

(** The body of the loop: the running hash and the proof element are hashed
    with the smaller one first. *)
Definition hashPair (computedHash proofElement : Js.Buffer) : Js.Buffer :=
  if Js.Buffer_compare computedHash proofElement <=? 0
  then keccak256 (computedHash ++ proofElement)
  else keccak256 (proofElement ++ computedHash).

Definition verifyMerkleProof (proof : list Js.Buffer) (root leaf : Js.Buffer)
  : bool :=
  let computedHash := fold_left hashPair proof leaf in
  Js.Buffer_compare computedHash root =? 0.

End AgriDataRegistry.

(** ** The round trip through the builder

    [verifyProof(leaf, buildTree(data).proofs[leaf], buildTree(data).root)],
    and the same proof checked the way the contract checks it.  The result
    is [None] when the proof map has no entry for [leaf]. *)

Module RoundTrip.
Section RoundTrip.
Context {N : Type} `{Js.Number N}.

Definition local (data : list (ProcessedSensorData.t N)) (leaf : string)
  : Js.result (option bool) :=
  Js.bind (MerkleTreeBuilder.buildTree data)
    (fun built =>
       Js.Ret
         (option_map
            (fun proof =>
               MerkleTreeBuilder.verifyProof
                 leaf proof (MerkleTreeBuilder.root built))
            (JsMap.get (MerkleTreeBuilder.proofs built) leaf))).

Definition onChain (data : list (ProcessedSensorData.t N)) (leaf : string)
  : Js.result (option bool) :=
  Js.bind (MerkleTreeBuilder.buildTree data)
    (fun built =>
       Js.Ret
         (option_map
            (fun proof =>
               AgriDataRegistry.verifyMerkleProof
                 (map MerkleTreeBuilder.bufferOf proof)
                 (MerkleTreeBuilder.bufferOf (MerkleTreeBuilder.root built))
                 (MerkleTreeBuilder.bufferOf leaf))
            (JsMap.get (MerkleTreeBuilder.proofs built) leaf))).
End RoundTrip.
End RoundTrip.

(** ** Sample inputs *)

Module Samples.

(** Two payloads of one sensor at one time, with the same two custom
    measurements written in opposite orders. *)
Definition payload1 : SensorDataPayload.t Z :=
  SensorDataPayload.mk Z "SN001" "SENSOR001" "sig-1234567890" 1706489614
    [("nitrogen"%string, 25); ("potassium"%string, 60)].

Definition payload2 : SensorDataPayload.t Z :=
  SensorDataPayload.mk Z "SN001" "SENSOR001" "sig-1234567890" 1706489614
    [("potassium"%string, 60); ("nitrogen"%string, 25)].

(** Two payloads whose measurement keys are array indices, inserted in
    opposite orders, and signed differently. *)
Definition payload3 : SensorDataPayload.t Z :=
  SensorDataPayload.mk Z "SN002" "SENSOR002" "sig-abcdefgh" 1706489700
    [("1"%string, 7); ("0"%string, 9)].

Definition payload4 : SensorDataPayload.t Z :=
  SensorDataPayload.mk Z "SN002" "SENSOR002" "sig-ijklmnop" 1706489700
    [("0"%string, 9); ("1"%string, 7)].

(** The readings the webhook route enqueues for the first two payloads. *)
Definition reading1 : ProcessedSensorData.t Z :=
  Webhook.processedData payload1 "7d8f1c1e-0001" 1706489615000.

Definition reading2 : ProcessedSensorData.t Z :=
  Webhook.processedData payload2 "7d8f1c1e-0002" 1706489616000.

Definition batchA : DataBatch.t Z :=
  DataBatch.mk Z "batch-a" [reading1] 1706489620000 None None.

Definition batchB : DataBatch.t Z :=
  DataBatch.mk Z "batch-b" [reading2] 1706489630000 None None.

(** A registry holding one entry without a transaction reference. *)
Definition entryA : BatchRegistryEntry.t :=
  BatchRegistryEntry.mk "batch-a" "0xabcd" EmptyString 1 1706489620000 0.

Definition registryA : TimeSeriesDB.t Z :=
  TimeSeriesDB.saveBatch TimeSeriesDB.init entryA [reading1] None.

(** An empty queue of capacity two. *)
Definition queue2 : MemoryQueue.t Z := MemoryQueue.mk [] 2 60000.

End Samples.

(** * Further parts of the backend *)

(** ** The hash format of [validation.ts]

    [verifyParamsSchema] accepts a data hash that matches
    [/^0x[a-fA-F0-9]{64}$/]. *)

Module Validation.

Definition isHexDigit (c : ascii) : bool :=
  match Js.unhex c with
  | Some _ => true
  | None => false
  end.

(** Exactly [n] hexadecimal digits. *)
Fixpoint hexDigits (n : nat) (s : string) : bool :=
  match n, s with
  | O, EmptyString => true
  | S n', String c t => isHexDigit c && hexDigits n' t
  | _, _ => false
  end.

Definition dataHashFormat (s : string) : bool :=
  match s with
  | String c (String d t) =>
      (c =? "0")%char && (d =? "x")%char && hexDigits 64 t
  | _ => false
  end.

End Validation.

(** ** The contract [AgriDataRegistry.sol]

    A [bytes32] value is a buffer of 32 bytes and an address an integer;
    a mapping is a total function, zero where nothing was written.  A call
    that reverts throws the message of its [require] and leaves the state
    as it was. *)

Module AgriDataRegistryContract.

Definition zero32 : Js.Buffer := repeat x00 32.

(** [==] on [bytes32]. *)
Definition eq32 (a b : Js.Buffer) : bool := Js.Buffer_compare a b =? 0.

Inductive Event : Type :=
| BatchRegistered (batchId merkleRoot : Js.Buffer) (timestamp : Z)
                  (relayer : Z)
| RelayerAuthorized (relayer : Z)
| RelayerRevoked (relayer : Z).

Record t : Type := mk {
  batchRoots : Js.Buffer -> Js.Buffer;
  batchTimestamps : Js.Buffer -> Z;
  owner : Z;
  authorizedRelayers : Z -> bool;
  events : list Event
}.

(** The constructor, called by [sender]. *)
Definition constructor (sender : Z) : t :=
  mk (fun _ => zero32) (fun _ => 0) sender
     (fun a => if a =? sender then true else false)
     [RelayerAuthorized sender].

Definition onlyOwner (c : t) (sender : Z) : bool := sender =? owner c.

Definition onlyAuthorized (c : t) (sender : Z) : bool :=
  (sender =? owner c) || authorizedRelayers c sender.

(** [registerDataBatch(batchId, merkleRoot)] called by [sender] in a block
    of time [timestamp]. *)
Definition registerDataBatch (c : t) (sender timestamp : Z)
           (batchId merkleRoot : Js.Buffer) : Js.result t :=
  if negb (onlyAuthorized c sender)
  then Js.Throw "Not authorized to submit data"
  else if negb (eq32 (batchRoots c batchId) zero32)
  then Js.Throw "Batch already registered"
  else if eq32 merkleRoot zero32
  then Js.Throw "Invalid Merkle root"
  else
    Js.Ret
      (mk (fun b => if eq32 b batchId then merkleRoot else batchRoots c b)
          (fun b => if eq32 b batchId then timestamp
                    else batchTimestamps c b)
          (owner c) (authorizedRelayers c)
          (events c
           ++ [BatchRegistered batchId merkleRoot timestamp sender])).

Definition verifyDataInclusion (c : t) (batchId leaf : Js.Buffer)
           (proof : list Js.Buffer) : Js.result bool :=
  let storedRoot := batchRoots c batchId in
  if eq32 storedRoot zero32
  then Js.Throw "Batch not found"
  else Js.Ret (AgriDataRegistry.verifyMerkleProof proof storedRoot leaf).

Definition getBatchRoot (c : t) (batchId : Js.Buffer) : Js.Buffer :=
  batchRoots c batchId.

Definition getBatchTimestamp (c : t) (batchId : Js.Buffer) : Z :=
  batchTimestamps c batchId.

Definition authorizeRelayer (c : t) (sender relayer : Z) : Js.result t :=
  if negb (onlyOwner c sender)
  then Js.Throw "Only owner can call this function"
  else if relayer =? 0
  then Js.Throw "Invalid address"
  else
    Js.Ret
      (mk (batchRoots c) (batchTimestamps c) (owner c)
          (fun a => if a =? relayer then true else authorizedRelayers c a)
          (events c ++ [RelayerAuthorized relayer])).

Definition revokeRelayer (c : t) (sender relayer : Z) : Js.result t :=
  if negb (onlyOwner c sender)
  then Js.Throw "Only owner can call this function"
  else
    Js.Ret
      (mk (batchRoots c) (batchTimestamps c) (owner c)
          (fun a => if a =? relayer then false else authorizedRelayers c a)
          (events c ++ [RelayerRevoked relayer])).

Definition transferOwnership (c : t) (sender newOwner : Z) : Js.result t :=
  if negb (onlyOwner c sender)
  then Js.Throw "Only owner can call this function"
  else if newOwner =? 0
  then Js.Throw "Invalid address"
  else
    Js.Ret
      (mk (batchRoots c) (batchTimestamps c) newOwner
          (authorizedRelayers c) (events c)).

(** The calls that change the state, and a transaction: a call with its
    sender and the time of its block. *)
Inductive Call : Type :=
| RegisterDataBatch (batchId merkleRoot : Js.Buffer)
| AuthorizeRelayer (relayer : Z)
| RevokeRelayer (relayer : Z)
| TransferOwnership (newOwner : Z).

Record Tx : Type := mkTx {
  tx_sender : Z;
  tx_timestamp : Z;
  tx_call : Call
}.

Definition call (c : t) (tx : Tx) : Js.result t :=
  match tx_call tx with
  | RegisterDataBatch batchId merkleRoot =>
      registerDataBatch c (tx_sender tx) (tx_timestamp tx) batchId merkleRoot
  | AuthorizeRelayer relayer => authorizeRelayer c (tx_sender tx) relayer
  | RevokeRelayer relayer => revokeRelayer c (tx_sender tx) relayer
  | TransferOwnership newOwner => transferOwnership c (tx_sender tx) newOwner
  end.

(** A transaction that reverts changes nothing. *)
Definition exec (c : t) (tx : Tx) : t :=
  match call c tx with
  | Js.Ret c' => c'
  | Js.Throw _ => c
  end.

Definition run (c : t) (txs : list Tx) : t := fold_left exec txs c.

End AgriDataRegistryContract.

(** ** [retryPendingBatches] of [rollupEngine.ts]

    The loop runs [processRollup] on the batches of the backlog one after
    the other.  Like [processRollup] it is modelled up to its first
    suspension on the relayer: the result holds the batches the loop still
    has to handle when the relayer call settles, and the loop goes on with
    [retryLoop] on them. *)

Module RollupRetry.
Section Retry.
Context {N : Type} `{Js.Number N}.

Fixpoint retryLoop (w : RollupEngine.t N) (batches : list (DataBatch.t N))
  : RollupEngine.t N * list (DataBatch.t N) :=
  match batches with
  | [] => (w, [])
  | batch :: rest =>
      let w' := RollupEngine.processRollup w batch in
      if (List.length (RollupEngine.relayerCalls w)
          <? List.length (RollupEngine.relayerCalls w'))%nat
      then (w', rest)
      else retryLoop w' rest
  end.

Definition retryPendingBatches (w : RollupEngine.t N)
  : RollupEngine.t N * list (DataBatch.t N) :=
  let batches := RollupEngine.pendingBatches w in
  retryLoop
    (RollupEngine.mk [] (RollupEngine.isSubmitting w) (RollupEngine.db w)
                     (RollupEngine.timers w) (RollupEngine.relayerCalls w))
    batches.
End Retry.
End RollupRetry.

(** The agreement of the log with the two mappings of batches: every batch
    with a root has a [BatchRegistered] event that carries the root and
    the time stored for it, and every such event carries what is stored. *)

Module ContractLog.
Import AgriDataRegistryContract.

Definition logged (c : t) : Prop :=
  (forall b, batchRoots c b <> zero32 ->
             exists relayer,
               In (BatchRegistered b (batchRoots c b) (batchTimestamps c b)
                                   relayer)
                  (events c))
  /\ (forall b r ts relayer,
        In (BatchRegistered b r ts relayer) (events c) ->
        batchRoots c b = r /\ batchTimestamps c b = ts /\ r <> zero32).

End ContractLog.

(** Sample transactions: a deployer, an address nobody authorized, and a
    contract on which the deployer registered one batch. *)

Module ContractSamples.
Import AgriDataRegistryContract.

Definition deployer : Z := 1001.
Definition outsider : Z := 1003.

Definition batch1 : Js.Buffer := repeat x01 32.
Definition root1 : Js.Buffer := repeat xaa 32.
Definition root2 : Js.Buffer := repeat xbb 32.

Definition registered : t :=
  exec (constructor deployer)
       (mkTx deployer 1706489700 (RegisterDataBatch batch1 root1)).

Definition overwrites : list Tx :=
  [ mkTx deployer 1706489800 (RegisterDataBatch batch1 root2);
    mkTx outsider 1706489900 (RegisterDataBatch batch1 root2) ].

Definition intrusions : list Tx :=
  [ mkTx outsider 1706489800 (RegisterDataBatch batch1 root2);
    mkTx outsider 1706489810 (AuthorizeRelayer outsider);
    mkTx outsider 1706489820 (RevokeRelayer deployer);
    mkTx outsider 1706489830 (TransferOwnership outsider) ].

End ContractSamples.

(** Sample engines: one with a submission in flight and a batch in the
    backlog, and one left idle with a batch in the backlog after a failed
    submission. *)

Module EngineSamples.

Definition submitting : RollupEngine.t Z :=
  RollupEngine.run RollupEngine.init
    [ RollupEngine.ProcessRollup Samples.batchA;
      RollupEngine.ProcessRollup Samples.batchB ].

Definition idle : RollupEngine.t Z :=
  RollupEngine.run RollupEngine.init
    [ RollupEngine.ProcessRollup Samples.batchA;
      RollupEngine.ProcessRollup Samples.batchB;
      RollupEngine.ProcessRollup Samples.batchA;
      RollupEngine.RelayerSettles 0 (Js.Throw "timeout") 1706489640000 ].

End EngineSamples.

(** ** [DataProcessor] of [dataProcessor.ts]

    [Math.max(lo, Math.min(hi, x))] on a measurement value is the method
    [clamp] of the class below; on integral values it is [Z.max] of
    [Z.min]. *)

Module DataProcessor.

Class Clamp (N : Type) : Type := clamp : Z -> Z -> N -> N.

#[global] Instance Clamp_Z : Clamp Z := fun lo hi x => Z.max lo (Z.min hi x).

Section Processor.
Context {N : Type} `{Js.Number N} `{Clamp N}.

(** What the three assignments of [normalizeData] do to one measurement of
    the readings object: a key that is present keeps its place. *)
Definition normalizeReading (entry : string * N) : string * N :=
  let (key, value) := entry in
  if (key =? "humidity")%string then (key, clamp 0 100 value)
  else if (key =? "soilMoisture")%string then (key, clamp 0 100 value)
  else if (key =? "soilPH")%string then (key, clamp 0 14 value)
  else (key, value).

(** [normalizeData(data)].  The copy [{ ...item }] is shallow: the clamped
    values are also written to the readings object of the item given. *)
Definition normalizeData (data : list (ProcessedSensorData.t N))
  : list (ProcessedSensorData.t N) :=
  map (fun item =>
         ProcessedSensorData.mk N
           (ProcessedSensorData.id item)
           (ProcessedSensorData.serialNumber item)
           (ProcessedSensorData.sensorId item)
           (ProcessedSensorData.timestamp item)
           (map normalizeReading (ProcessedSensorData.readings item))
           (ProcessedSensorData.receivedAt item)
           (ProcessedSensorData.dataHash item))
      data.

Definition enrichData (data : list (ProcessedSensorData.t N))
  : list (ProcessedSensorData.t N) :=
  map (fun item =>
         ProcessedSensorData.mk N
           (ProcessedSensorData.id item)
           (ProcessedSensorData.serialNumber item)
           (ProcessedSensorData.sensorId item)
           (ProcessedSensorData.timestamp item)
           (ProcessedSensorData.readings item)
           (ProcessedSensorData.receivedAt item)
           (ProcessedSensorData.dataHash item))
      data.

(** The processor and the rollup engine it calls. *)
Record t : Type := mk {
  isProcessing : bool;
  engine : RollupEngine.t N
}.

Definition init : t := mk false RollupEngine.init.

(** [processBatch(data)] up to the suspension of [processRollup] on the
    relayer; [uuid] is the value of [uuidv4()] and [now] of [Date.now()].
    When [processRollup] returns without waiting for the relayer, the
    [finally] block has run. *)
Definition processBatch (p : t) (data : list (ProcessedSensorData.t N))
           (uuid : string) (now : Z) : t :=
  if isProcessing p then p
  else
    let normalizedData := normalizeData data in
    let enrichedData := enrichData normalizedData in
    let batch := DataBatch.mk N uuid enrichedData now None None in
    let e := RollupEngine.processRollup (engine p) batch in
    mk (List.length (RollupEngine.relayerCalls (engine p))
        <? List.length (RollupEngine.relayerCalls e))%nat
       e.

(** The relayer call number [n] settles.  A call made for [processRollup]
    was awaited by [processBatch], whose [finally] block then runs. *)
Definition relayerSettles (p : t) (n : nat) (outcome : Js.result string)
           (now : Z) : t :=
  match nth_error (RollupEngine.relayerCalls (engine p)) n with
  | None => p
  | Some call =>
      let e := RollupEngine.relayerSettles (engine p) n outcome now in
      match RollupEngine.call_then call with
      | RollupEngine.InProcessRollup => mk false e
      | RollupEngine.InTimerCallback => mk (isProcessing p) e
      end
  end.

Definition timerFires (p : t) : t :=
  mk (isProcessing p) (RollupEngine.timerFires (engine p)).
End Processor.
Arguments t N : clear implicits.
End DataProcessor.

(** ** The queue, the processor and the engine together

    [DataProcessor.initialize] subscribes [processBatch] to the
    [batch-ready] events of the queue, so a batch the queue releases is
    handed to [processBatch] within the call that released it. *)

Module Pipeline.
Section Pipeline.
Context {N : Type} `{Js.Number N} `{DataProcessor.Clamp N}.

Record t : Type := mk {
  queue : MemoryQueue.t N;
  processor : DataProcessor.t N
}.

Definition init (batchSize flushIntervalMs : Z) : t :=
  mk (MemoryQueue.mk [] batchSize flushIntervalMs) DataProcessor.init.

(** The listener of [batch-ready], for the batches released by one call. *)
Definition deliver (p : DataProcessor.t N)
           (released : list (list (ProcessedSensorData.t N)))
           (uuid : string) (now : Z) : DataProcessor.t N :=
  fold_left (fun p batchData => DataProcessor.processBatch p batchData uuid now)
            released p.

Inductive Event : Type :=
| Enqueue (data : ProcessedSensorData.t N) (now : Z) (uuid : string)
| FlushTimer (now : Z) (uuid : string)
| RelayerSettles (n : nat) (outcome : Js.result string) (now : Z)
| SubmitTimer.

Definition step (s : t) (e : Event) : t :=
  match e with
  | Enqueue data now uuid =>
      let (q, released) := MemoryQueue.enqueue (queue s) data now in
      mk q (deliver (processor s) released uuid now)
  | FlushTimer now uuid =>
      let (q, released) := MemoryQueue.timerTick (queue s) in
      mk q (deliver (processor s) released uuid now)
  | RelayerSettles n outcome now =>
      mk (queue s) (DataProcessor.relayerSettles (processor s) n outcome now)
  | SubmitTimer =>
      mk (queue s) (DataProcessor.timerFires (processor s))
  end.

Definition run (s : t) (events : list Event) : t := fold_left step events s.
End Pipeline.
Arguments t N : clear implicits.
End Pipeline.

(** What holds of the processor and its engine between two events: the
    backlog and the timers of the engine are empty, and the processor is
    either at rest with an idle engine, or awaits the one relayer call,
    which was made for [processRollup]. *)

Module ProcessorState.
Section State.
Context {N : Type} `{Js.Number N}.

Definition consistent (p : DataProcessor.t N) : Prop :=
  RollupEngine.pendingBatches (DataProcessor.engine p) = []
  /\ RollupEngine.timers (DataProcessor.engine p) = []
  /\ ((DataProcessor.isProcessing p = false
       /\ RollupEngine.isSubmitting (DataProcessor.engine p) = false
       /\ RollupEngine.relayerCalls (DataProcessor.engine p) = [])
      \/ (DataProcessor.isProcessing p = true
          /\ RollupEngine.isSubmitting (DataProcessor.engine p) = true
          /\ exists call,
               RollupEngine.relayerCalls (DataProcessor.engine p) = [call]
               /\ RollupEngine.call_then call
                  = RollupEngine.InProcessRollup)).
End State.
End ProcessorState.

(** Sample pipelines with a queue of capacity one: after the first reading
    the processor awaits the relayer. *)

Module PipelineSamples.

Definition processing : Pipeline.t Z :=
  Pipeline.run (Pipeline.init 1 60000)
    [ Pipeline.Enqueue Samples.reading1 1706489615000 "batch-1" ].

Definition arrivals : list (@Pipeline.Event Z) :=
  [ Pipeline.Enqueue Samples.reading2 1706489616000 "batch-2";
    Pipeline.FlushTimer 1706489675000 "batch-3" ].

End PipelineSamples.

(** A reading with measurements inside the bounds of the payload schema. *)

Module ReadingSamples.

Definition payload5 : SensorDataPayload.t Z :=
  SensorDataPayload.mk Z "SN003" "SENSOR003" "sig-qrstuvwx" 1706489800
    [("temperature"%string, 21); ("humidity"%string, 55);
     ("soilPH"%string, 7)].

Definition reading5 : ProcessedSensorData.t Z :=
  Webhook.processedData payload5 "7d8f1c1e-0005" 1706489801000.

End ReadingSamples.

(** ** The relayer

    [this.contract] is set by [initialize] only when a private key and a
    contract address are configured and the network answers.  What the
    calls on the contract return or throw is given from outside. *)

Module SepoliaRelayer.

(** [ethers.id(text)]: the Keccak-256 hash of the UTF-8 bytes of [text],
    as [0x] and lowercase hexadecimal digits. *)
Definition ethers_id (text : string) : string :=
  MerkleTreeBuilder.hex0x (keccak256 (Js.Buffer_from_utf8 text)).

(** [now] is the value of [Date.now()]. *)
Definition simulateTransaction (merkleRoot batchId : string) (now : Z)
  : string :=
  ethers_id (batchId ++ "-" ++ merkleRoot ++ "-" ++ Js.Number_toString now).

(** [submitMerkleRoot(merkleRoot, batchId)] once [initialize] has run;
    [contract] is the outcome of the transaction when there is a
    contract. *)
Definition submitMerkleRoot (contract : option (Js.result string))
           (merkleRoot batchId : string) (now : Z) : Js.result string :=
  match contract with
  | None => Js.Ret (simulateTransaction merkleRoot batchId now)
  | Some outcome => outcome
  end.

(** [verifyData(batchId, dataHash, proof)] once [initialize] has run;
    [contract] is the outcome of the two calls on the contract, the
    verdict with the stored root, when there is a contract. *)
Definition verifyData (contract : option (Js.result (bool * string)))
           (batchId dataHash : string) (proof : list string)
  : Js.result (bool * string) :=
  match contract with
  | None => Js.Ret (false, EmptyString)
  | Some outcome => outcome
  end.

End SepoliaRelayer.

(** ** The route [GET /verify/:batchId/:dataHash] *)

Module QueryRoutes.

Record VerificationResult : Type := mkResult {
  isValid : bool;
  batchId : string;
  dataHash : string;
  onChainMerkleRoot : string;
  proofValid : bool
}.

(** The body of a response; [timestamp] is the value of [Date.now()]. *)
Inductive ApiResponse : Type :=
| Success (data : VerificationResult) (timestamp : Z)
| Failure (error : string) (timestamp : Z).

Section Routes.
Context {N : Type}.

(** The handler, as the status and the body it sends.  [relayer] is
    [sepoliaRelayer.verifyData]; nothing outside the inner [try] throws,
    so the status 500 is never sent. *)
Definition verify (db : TimeSeriesDB.t N)
           (relayer : string -> string -> list string
                      -> Js.result (bool * string))
           (batchId dataHash : string) (now : Z) : Z * ApiResponse :=
  if negb (Js.truthy batchId) || negb (Js.truthy dataHash)
  then (400, Failure "Batch ID and data hash are required" now)
  else
    match TimeSeriesDB.getBatch db batchId with
    | None => (404, Failure "Batch not found" now)
    | Some batchEntry =>
        match TimeSeriesDB.getProof db batchId dataHash with
        | None => (404, Failure "Proof not found for this data hash" now)
        | Some proof =>
            let (isOnChainValid, onChainMerkleRoot) :=
              match relayer batchId dataHash proof with
              | Js.Ret verificationResult => verificationResult
              | Js.Throw _ =>
                  (Js.truthy (BatchRegistryEntry.merkleRoot batchEntry),
                   Js.or_else (BatchRegistryEntry.merkleRoot batchEntry)
                              EmptyString)
              end in
            (200,
             Success (mkResult isOnChainValid batchId dataHash
                               onChainMerkleRoot isOnChainValid) now)
        end
    end.
End Routes.

End QueryRoutes.

(** A registry of two entries, the older one saved first. *)

Module RegistrySamples.

Definition entryB : BatchRegistryEntry.t :=
  BatchRegistryEntry.mk "batch-b" "0xbcde" EmptyString 1 1706489630000 0.

Definition registryAB : TimeSeriesDB.t Z :=
  TimeSeriesDB.saveBatch Samples.registryA entryB [Samples.reading2] None.

End RegistrySamples.

(** * Properties *)

(** ** Test vectors and basic facts *)

(** Keccak-256 of the empty input. *)
Example keccak256_empty :
  Js.toHex (keccak256 []) =
  "c5d2460186f7233c927e7db2dcc703c0e500b653ca82273b7bfad8045d85a470"%string.
Proof. vm_compute. reflexivity. Qed.

(** Keccak-256 of the three characters abc. *)
Example keccak256_abc :
  Js.toHex (keccak256_string "abc") =
  "4e03657aea45a94fc7d47ba826c8d667c0d1e6e33a64a036ec44f58fa12d6c45"%string.
Proof. vm_compute. reflexivity. Qed.

Module BufferFacts.

Lemma byte_to_Z_inj : forall x y, Js.byte_to_Z x = Js.byte_to_Z y -> x = y.
Proof.
  unfold Js.byte_to_Z. intros x y Hxy.
  apply N2Z.inj in Hxy.
  assert (Hx := Byte.of_to_N x). rewrite Hxy, Byte.of_to_N in Hx.
  congruence.
Qed.

Lemma compare_refl : forall a, Js.Buffer_compare a a = 0.
Proof.
  induction a as [|x a IH]; simpl; [reflexivity|].
  rewrite Z.ltb_irrefl. exact IH.
Qed.

Lemma compare_eq : forall a b, Js.Buffer_compare a b = 0 -> a = b.
Proof.
  induction a as [|x a IH]; destruct b as [|y b]; simpl; try discriminate;
    [reflexivity|].
  destruct (Js.byte_to_Z x <? Js.byte_to_Z y) eqn:Hlt; [discriminate|].
  destruct (Js.byte_to_Z y <? Js.byte_to_Z x) eqn:Hgt; [discriminate|].
  intros Hc. apply Z.ltb_ge in Hlt, Hgt.
  f_equal; [apply byte_to_Z_inj; lia | apply IH; exact Hc].
Qed.

Lemma compare_eqb : forall a b, (Js.Buffer_compare a b =? 0) = true <-> a = b.
Proof.
  intros a b. rewrite Z.eqb_eq. split.
  - apply compare_eq.
  - intros ->. apply compare_refl.
Qed.

Lemma compare_antisym :
  forall a b, Js.Buffer_compare b a = - Js.Buffer_compare a b.
Proof.
  induction a as [|x a IH]; destruct b as [|y b]; simpl; try reflexivity.
  destruct (Js.byte_to_Z x <? Js.byte_to_Z y) eqn:Hlt;
    destruct (Js.byte_to_Z y <? Js.byte_to_Z x) eqn:Hgt;
    try reflexivity.
  - apply Z.ltb_lt in Hlt, Hgt. lia.
  - apply IH.
Qed.

End BufferFacts.

Module JsMapFacts.
Section Facts.
Context {V : Type}.

Lemma get_set : forall (m : JsMap.t V) k v k',
  JsMap.get (JsMap.set m k v) k' =
  if (k =? k')%string then Some v else JsMap.get m k'.
Proof.
  induction m as [|[k0 v0] m IH]; intros k v k'; simpl.
  - reflexivity.
  - destruct (String.eqb_spec k0 k) as [->|Hne]; simpl.
    + destruct (String.eqb_spec k k'); reflexivity.
    + rewrite IH.
      destruct (String.eqb_spec k0 k') as [->|Hne'].
      * destruct (String.eqb_spec k k'); [congruence | reflexivity].
      * reflexivity.
Qed.

Lemma get_set_same : forall (m : JsMap.t V) k v,
  JsMap.get (JsMap.set m k v) k = Some v.
Proof. intros. rewrite get_set, String.eqb_refl. reflexivity. Qed.
End Facts.
End JsMapFacts.

(** ** Verification with an empty proof *)

(** C10: with an empty proof list [verifyProof] answers true exactly when
    the leaf and the root decode to the same bytes; in particular every
    root verifies itself as a leaf with no proof element. *)
Theorem verifyProof_empty_proof :
  (forall leaf root : string,
      MerkleTreeBuilder.verifyProof leaf [] root = true <->
      MerkleTreeBuilder.bufferOf leaf = MerkleTreeBuilder.bufferOf root)
  /\ (forall root : string,
         MerkleTreeBuilder.verifyProof root [] root = true).
Proof.
  assert (Hiff : forall leaf root : string,
             MerkleTreeBuilder.verifyProof leaf [] root = true <->
             MerkleTreeBuilder.bufferOf leaf = MerkleTreeBuilder.bufferOf root).
  { intros leaf root.
    unfold MerkleTreeBuilder.verifyProof, MerkleTreeJs.verify. simpl.
    apply BufferFacts.compare_eqb. }
  split; [exact Hiff|].
  intros root. apply Hiff. reflexivity.
Qed.

(** ** The tree of an empty batch *)

(** C4, as the program behaves: [buildTree] does not fail on an empty
    sequence; it returns the root [0x], the hex text of zero bytes, with no
    leaf and no proof. *)
Theorem buildTree_empty :
  forall (N : Type) (num : Js.Number N),
    @MerkleTreeBuilder.buildTree N num [] =
    Js.Ret (MerkleTreeBuilder.mkResult
              "0x"
              (MerkleTreeJs.mkTree MerkleTreeBuilder.build_options [] [[]])
              [] JsMap.empty).
Proof. intros N num. reflexivity. Qed.

(** C4, as stated, fails: the empty sequence is not rejected. *)
Lemma buildTree_empty_not_rejected :
  ~ (exists msg : string,
        @MerkleTreeBuilder.buildTree Z Js.Number_Z [] = Js.Throw msg).
Proof. intros [msg Hmsg]. discriminate Hmsg. Qed.

(** ** The transaction reference of a registry entry *)

Module RegistryFacts.
Section Facts.
Context {N : Type}.

Lemma getBatch_saveBatch :
  forall (db : TimeSeriesDB.t N) entry data prfs batchId,
    TimeSeriesDB.getBatch (TimeSeriesDB.saveBatch db entry data prfs)
                          batchId =
    if (BatchRegistryEntry.batchId entry =? batchId)%string
    then Some entry else TimeSeriesDB.getBatch db batchId.
Proof.
  intros. unfold TimeSeriesDB.getBatch, TimeSeriesDB.saveBatch. simpl.
  apply JsMapFacts.get_set.
Qed.

Lemma getBatch_updateBatchTx :
  forall (db : TimeSeriesDB.t N) batchId txHash now batchId',
    TimeSeriesDB.getBatch (TimeSeriesDB.updateBatchTx db batchId txHash now)
                          batchId' =
    if (batchId =? batchId')%string
    then option_map
           (fun entry =>
              BatchRegistryEntry.mk
                (BatchRegistryEntry.batchId entry)
                (BatchRegistryEntry.merkleRoot entry)
                txHash
                (BatchRegistryEntry.dataCount entry)
                (BatchRegistryEntry.createdAt entry)
                now)
           (TimeSeriesDB.getBatch db batchId)
    else TimeSeriesDB.getBatch db batchId'.
Proof.
  intros db batchId txHash now batchId'.
  unfold TimeSeriesDB.getBatch, TimeSeriesDB.updateBatchTx.
  destruct (JsMap.get (TimeSeriesDB.batches db) batchId) as [entry|] eqn:Hg;
    simpl.
  - rewrite JsMapFacts.get_set. reflexivity.
  - destruct (String.eqb_spec batchId batchId') as [<-|Hne];
      [exact Hg | reflexivity].
Qed.
End Facts.
End RegistryFacts.

(** C7, as the program behaves: [updateBatchTx(batchId, txHash)] stores
    [txHash] (and the current time) in the entry of [batchId] whatever its
    transaction reference was, does nothing when [batchId] is unknown, and
    leaves the entry of every other batch as it was. *)
Theorem updateBatchTx_last_write_wins :
  forall (N : Type) (db : TimeSeriesDB.t N) (batchId txHash : string)
         (now : Z) (batchId' : string),
    TimeSeriesDB.getBatch (TimeSeriesDB.updateBatchTx db batchId txHash now)
                          batchId' =
    if (batchId =? batchId')%string
    then option_map
           (fun entry =>
              BatchRegistryEntry.mk
                (BatchRegistryEntry.batchId entry)
                (BatchRegistryEntry.merkleRoot entry)
                txHash
                (BatchRegistryEntry.dataCount entry)
                (BatchRegistryEntry.createdAt entry)
                now)
           (TimeSeriesDB.getBatch db batchId)
    else TimeSeriesDB.getBatch db batchId'.
Proof.
  intros N db batchId txHash now batchId'.
  apply RegistryFacts.getBatch_updateBatchTx.
Qed.

(** C7, as stated, fails: a transaction reference that has been set is
    overwritten by the next [updateBatchTx] for the same batch. *)
Lemma txHash_overwritten :
  let db1 := TimeSeriesDB.updateBatchTx Samples.registryA "batch-a"
                                        "0xaaaa" 1706489640000 in
  let db2 := TimeSeriesDB.updateBatchTx db1 "batch-a" "0xbbbb"
                                        1706489650000 in
  option_map BatchRegistryEntry.txHash (TimeSeriesDB.getBatch db1 "batch-a")
  = Some "0xaaaa"%string
  /\ option_map BatchRegistryEntry.txHash (TimeSeriesDB.getBatch db2 "batch-a")
     = Some "0xbbbb"%string.
Proof. split; reflexivity. Qed.

(** ** The size trigger of the queue *)

Module QueueFacts.
Section Facts.
Context {N : Type}.

Lemma with_queue_same : forall q : MemoryQueue.t N,
  MemoryQueue.with_queue q (MemoryQueue.queue q) = q.
Proof. intros [items size interval]. reflexivity. Qed.

Lemma splice0_all : forall (A : Type) (l : list A),
  Js.splice0 l (Z.of_nat (List.length l)) = (l, []).
Proof.
  intros A l. unfold Js.splice0.
  replace (Z.to_nat (Z.min (Z.max (Z.of_nat (List.length l)) 0)
                           (Z.of_nat (List.length l))))
    with (List.length l) by lia.
  rewrite firstn_all, skipn_all. reflexivity.
Qed.

(** Below the capacity [enqueue] only appends. *)
Lemma enqueue_below : forall (q : MemoryQueue.t N) data now,
  Z.of_nat (List.length (MemoryQueue.queue q)) + 1 < MemoryQueue.batchSize q ->
  MemoryQueue.enqueue q data now =
  (MemoryQueue.with_queue q
     (MemoryQueue.queue q
      ++ [QueueItem.mk N (ProcessedSensorData.id data) data now]), []).
Proof.
  intros q data now Hlt. unfold MemoryQueue.enqueue. simpl.
  rewrite length_app. simpl.
  destruct (Z.leb_spec (MemoryQueue.batchSize q)
                       (Z.of_nat (List.length (MemoryQueue.queue q) + 1)));
    [lia | reflexivity].
Qed.

(** A flush of a queue that holds exactly a batch. *)
Lemma flush_full : forall q : MemoryQueue.t N,
  MemoryQueue.queue q <> [] ->
  MemoryQueue.batchSize q = Z.of_nat (List.length (MemoryQueue.queue q)) ->
  MemoryQueue.flush q =
  (MemoryQueue.with_queue q [], [map QueueItem.data (MemoryQueue.queue q)]).
Proof.
  intros q Hne Hsize. unfold MemoryQueue.flush.
  destruct (MemoryQueue.queue q) as [|item items] eqn:Hq;
    [contradiction|].
  rewrite Hsize, splice0_all. reflexivity.
Qed.

(** The call that fills the queue releases all of it. *)
Lemma enqueue_reaches : forall (q : MemoryQueue.t N) data now,
  Z.of_nat (List.length (MemoryQueue.queue q)) + 1 = MemoryQueue.batchSize q ->
  MemoryQueue.enqueue q data now =
  (MemoryQueue.with_queue q [],
   [map QueueItem.data (MemoryQueue.queue q) ++ [data]]).
Proof.
  intros q data now Heq. unfold MemoryQueue.enqueue. simpl.
  rewrite length_app. simpl.
  destruct (Z.leb_spec (MemoryQueue.batchSize q)
                       (Z.of_nat (List.length (MemoryQueue.queue q) + 1)));
    [|lia].
  rewrite flush_full; simpl.
  - rewrite map_app. reflexivity.
  - destruct (MemoryQueue.queue q); discriminate.
  - rewrite length_app. simpl. lia.
Qed.
End Facts.
End QueueFacts.

(** C9: in a queue of capacity [batchSize], calls of [enqueue] with no timer
    callback in between release nothing while the length stays below the
    capacity, and the call that brings the length to the capacity releases
    one batch, made of all the queued readings in the order they were
    enqueued, as many as the capacity, and leaves the queue empty. *)
Theorem enqueue_size_trigger :
  forall (N : Type) (calls : list (ProcessedSensorData.t N * Z))
         (q : MemoryQueue.t N) (data : ProcessedSensorData.t N) (now : Z),
    Z.of_nat (List.length (MemoryQueue.queue q))
    + Z.of_nat (List.length calls) + 1 = MemoryQueue.batchSize q ->
    MemoryQueue.enqueueAll q calls =
    (MemoryQueue.with_queue q
       (MemoryQueue.queue q
        ++ map (fun c => QueueItem.mk N (ProcessedSensorData.id (fst c))
                                      (fst c) (snd c)) calls), [])
    /\ MemoryQueue.enqueueAll q (calls ++ [(data, now)]) =
       (MemoryQueue.with_queue q [],
        [map QueueItem.data (MemoryQueue.queue q)
         ++ map fst calls ++ [data]])
    /\ Z.of_nat (List.length (map QueueItem.data (MemoryQueue.queue q)
                              ++ map fst calls ++ [data]))
       = MemoryQueue.batchSize q.
Proof.
  intros N calls.
  induction calls as [|[d t] calls IH]; intros q data now Hsize.
  - simpl in *. split; [|split].
    + rewrite app_nil_r, QueueFacts.with_queue_same. reflexivity.
    + rewrite QueueFacts.enqueue_reaches by lia. reflexivity.
    + rewrite length_app, length_map. simpl. lia.
  - simpl List.length in Hsize.
    simpl. rewrite QueueFacts.enqueue_below by lia.
    specialize (IH (MemoryQueue.with_queue q
                      (MemoryQueue.queue q
                       ++ [QueueItem.mk N (ProcessedSensorData.id d) d t]))
                   data now).
    simpl in IH. rewrite length_app in IH. simpl in IH.
    destruct IH as [IH1 [IH2 _]]; [lia|].
    rewrite IH1, IH2. simpl. split; [|split].
    + rewrite <- app_assoc. reflexivity.
    + rewrite map_app, <- app_assoc. reflexivity.
    + rewrite length_app, length_map. simpl.
      rewrite length_app, length_map. simpl. lia.
Qed.

(** The size trigger on a queue of capacity two: the first reading stays
    in the queue, the second releases both. *)
Lemma enqueue_size_trigger_witness :
  Z.of_nat (List.length (MemoryQueue.queue Samples.queue2))
  + Z.of_nat (List.length [(Samples.reading1, 1706489615001)]) + 1
  = MemoryQueue.batchSize Samples.queue2
  /\ (MemoryQueue.enqueueAll Samples.queue2
        [(Samples.reading1, 1706489615001)] =
      (MemoryQueue.with_queue Samples.queue2
         [QueueItem.mk Z (ProcessedSensorData.id Samples.reading1)
                       Samples.reading1 1706489615001], [])
      /\ MemoryQueue.enqueueAll Samples.queue2
           [(Samples.reading1, 1706489615001);
            (Samples.reading2, 1706489616001)]
         = (MemoryQueue.with_queue Samples.queue2 [],
            [[Samples.reading1; Samples.reading2]])
      /\ Z.of_nat (List.length [Samples.reading1; Samples.reading2])
         = MemoryQueue.batchSize Samples.queue2).
Proof.
  split; [reflexivity|].
  apply (enqueue_size_trigger Z [(Samples.reading1, 1706489615001)]
           Samples.queue2 Samples.reading2 1706489616001).
  reflexivity.
Defined.

(** ** The order of the query results *)

Module SortFacts.
Section Facts.
Context {A : Type} (cmp : A -> A -> Z).

Lemma sort_insert_perm : forall x l,
  Permutation (Js.sort_insert cmp x l) (x :: l).
Proof.
  intros x l. induction l as [|y t IH]; simpl.
  - apply Permutation_refl.
  - destruct (0 <? cmp x y).
    + apply perm_trans with (y :: x :: t).
      * apply perm_skip. exact IH.
      * apply perm_swap.
    + apply Permutation_refl.
Qed.

Lemma sort_perm : forall l, Permutation (Js.sort cmp l) l.
Proof.
  induction l as [|x l IH]; simpl.
  - apply perm_nil.
  - apply perm_trans with (x :: Js.sort cmp l).
    + apply sort_insert_perm.
    + apply perm_skip. exact IH.
Qed.

(** The comparator orders by a key: it is total and transitive. *)
Hypothesis cmp_total : forall x y, 0 < cmp x y -> cmp y x <= 0.
Hypothesis cmp_trans :
  forall x y z, cmp x y <= 0 -> cmp y z <= 0 -> cmp x z <= 0.

Lemma sort_insert_sorted : forall x l,
  StronglySorted (fun a b => cmp a b <= 0) l ->
  StronglySorted (fun a b => cmp a b <= 0) (Js.sort_insert cmp x l).
Proof.
  intros x l Hs. induction Hs as [|y t Hst IH Hall]; simpl.
  - constructor; constructor.
  - destruct (Z.ltb_spec 0 (cmp x y)) as [Hgt|Hle].
    + constructor; [exact IH|].
      apply Permutation_Forall with (x :: t).
      * apply Permutation_sym, sort_insert_perm.
      * constructor; [apply cmp_total; exact Hgt | exact Hall].
    + constructor.
      * constructor; assumption.
      * constructor; [exact Hle|].
        apply Forall_impl with (P := fun b => cmp y b <= 0); [|exact Hall].
        intros z Hyz. apply cmp_trans with y; assumption.
Qed.

Lemma sort_sorted : forall l,
  StronglySorted (fun a b => cmp a b <= 0) (Js.sort cmp l).
Proof.
  induction l as [|x l IH]; simpl.
  - constructor.
  - apply sort_insert_sorted. exact IH.
Qed.
End Facts.

Section Sublists.
Context {A : Type} (R : A -> A -> Prop).

Lemma in_firstn : forall n (l : list A) x, In x (firstn n l) -> In x l.
Proof.
  intros n l x Hx. rewrite <- (firstn_skipn n l).
  apply in_or_app. left. exact Hx.
Qed.

Lemma in_skipn : forall n (l : list A) x, In x (skipn n l) -> In x l.
Proof.
  intros n l x Hx. rewrite <- (firstn_skipn n l).
  apply in_or_app. right. exact Hx.
Qed.

Lemma skipn_sorted : forall n l,
  StronglySorted R l -> StronglySorted R (skipn n l).
Proof.
  induction n as [|n IH]; intros l Hs; simpl; [exact Hs|].
  destruct l as [|x l]; [constructor|].
  apply IH. inversion Hs; assumption.
Qed.

Lemma firstn_sorted : forall n l,
  StronglySorted R l -> StronglySorted R (firstn n l).
Proof.
  induction n as [|n IH]; intros l Hs; simpl; [constructor|].
  destruct l as [|x l]; [constructor|].
  inversion Hs as [|? ? Hs' Hall]; subst.
  constructor; [apply IH; exact Hs'|].
  rewrite Forall_forall in *. intros y Hy.
  apply Hall. apply (in_firstn _ _ _ Hy).
Qed.

Lemma slice_sorted : forall l start stop,
  StronglySorted R l -> StronglySorted R (Js.slice l start stop).
Proof.
  intros l start stop Hs. unfold Js.slice.
  apply firstn_sorted, skipn_sorted, Hs.
Qed.

Lemma slice_incl : forall (l : list A) start stop, incl (Js.slice l start stop) l.
Proof.
  intros l start stop x Hx. unfold Js.slice in Hx.
  apply in_firstn in Hx. apply in_skipn in Hx. exact Hx.
Qed.

Lemma sorted_weaken : forall (R' : A -> A -> Prop) l,
  (forall a b, R a b -> R' a b) -> StronglySorted R l -> StronglySorted R' l.
Proof.
  intros R' l Himp Hs. induction Hs as [|x l Hs IH Hall]; constructor.
  - exact IH.
  - apply Forall_impl with (P := R x); [apply Himp | exact Hall].
Qed.
End Sublists.

Lemma flat_map_filter : forall (A : Type) (f : A -> bool) (ls : list (list A)),
  flat_map (filter f) ls = filter f (List.concat ls).
Proof.
  intros A f ls. induction ls as [|l ls IH]; simpl.
  - reflexivity.
  - rewrite filter_app, IH. reflexivity.
Qed.

End SortFacts.

Module SliceFacts.
Section Facts.
Context {A : Type}.

(** A slice between two non-negative bounds. *)
Lemma slice_nonneg : forall (l : list A) (a n : Z),
  0 <= a -> 0 <= n ->
  Js.slice l a (a + n) = firstn (Z.to_nat n) (skipn (Z.to_nat a) l).
Proof.
  intros l a n Ha Hn. unfold Js.slice, Js.relative_index.
  destruct (Z.ltb_spec a 0) as [|_]; [lia|].
  destruct (Z.ltb_spec (a + n) 0) as [|_]; [lia|].
  destruct (Z_le_gt_dec (Z.of_nat (List.length l)) a) as [Hout|Hin].
  - rewrite !skipn_all2 by lia. rewrite !firstn_nil. reflexivity.
  - replace (Z.to_nat (Z.min a (Z.of_nat (List.length l))))
      with (Z.to_nat a) by lia.
    destruct (Z_le_gt_dec (a + n) (Z.of_nat (List.length l))) as [Hfit|Hover].
    + f_equal. lia.
    + rewrite !firstn_all2; [reflexivity | |];
        rewrite length_skipn; lia.
Qed.

Lemma firstn_add : forall (n m : nat) (l : list A),
  (firstn n l ++ firstn m (skipn n l))%list = firstn (n + m) l.
Proof.
  induction n as [|n IH]; intros m l; [reflexivity|].
  destruct l as [|x l]; simpl.
  - rewrite firstn_nil. reflexivity.
  - f_equal. apply IH.
Qed.
End Facts.
End SliceFacts.

(** A comparator that swaps only elements of different keys leaves the
    elements of each key in the order they had: the sort is stable. *)
Module StableFacts.
Section Facts.
Context {A : Type} (cmp : A -> A -> Z) (key : A -> Z).
Hypothesis cmp_key : forall x y, 0 < cmp x y -> key x <> key y.

Lemma filter_sort_insert : forall k x l,
  filter (fun e => key e =? k) (Js.sort_insert cmp x l)
  = filter (fun e => key e =? k) (x :: l).
Proof.
  intros k x l. induction l as [|y t IH]; [reflexivity|].
  cbn [Js.sort_insert].
  destruct (Z.ltb_spec 0 (cmp x y)) as [Hgt|Hle]; [|reflexivity].
  pose proof (cmp_key x y Hgt) as Hne.
  cbn [filter] in IH |- *. rewrite IH.
  destruct (Z.eqb_spec (key x) k) as [Hx|Hx];
    destruct (Z.eqb_spec (key y) k) as [Hy|Hy];
    try reflexivity.
  exfalso. apply Hne. congruence.
Qed.

Lemma filter_sort : forall k l,
  filter (fun e => key e =? k) (Js.sort cmp l)
  = filter (fun e => key e =? k) l.
Proof.
  intros k l. induction l as [|x l IH]; [reflexivity|].
  cbn [Js.sort fold_right].
  change (fold_right (Js.sort_insert cmp) [] l) with (Js.sort cmp l).
  rewrite filter_sort_insert. cbn [filter]. rewrite IH. reflexivity.
Qed.
End Facts.
End StableFacts.

(** C8: [listBatches] returns stored entries from the newest creation time
    to the oldest: there is one list of all the stored entries, ordered
    from the newest creation time to the oldest with entries of one
    creation time in the order of the registry, of which every call
    returns the page from [offset] to [offset + limit].  [queryBySensor]
    returns the stored readings of the sensor, from the latest timestamp to
    the earliest; [queryByTimeRange] returns the stored readings whose
    timestamp lies in the range, from the earliest timestamp to the
    latest. *)
Theorem registry_query_orders :
  forall (N : Type) (db : TimeSeriesDB.t N) (limit offset : Z)
         (sensorId : string) (startTime endTime : Z),
    (StronglySorted
       (fun a b => BatchRegistryEntry.createdAt b
                   <= BatchRegistryEntry.createdAt a)
       (TimeSeriesDB.listBatches db limit offset)
     /\ incl (TimeSeriesDB.listBatches db limit offset)
             (JsMap.values (TimeSeriesDB.batches db))
     /\ exists newestFirst : list BatchRegistryEntry.t,
          Permutation newestFirst (JsMap.values (TimeSeriesDB.batches db))
          /\ StronglySorted
               (fun a b => BatchRegistryEntry.createdAt b
                           <= BatchRegistryEntry.createdAt a)
               newestFirst
          /\ (forall createdAt : Z,
                filter (fun entry =>
                          BatchRegistryEntry.createdAt entry =? createdAt)
                       newestFirst
                = filter (fun entry =>
                            BatchRegistryEntry.createdAt entry =? createdAt)
                         (JsMap.values (TimeSeriesDB.batches db)))
          /\ (forall limit' offset' : Z,
                TimeSeriesDB.listBatches db limit' offset'
                = Js.slice newestFirst offset' (offset' + limit'))
          /\ (forall limit' offset' : Z,
                0 <= offset' -> 0 <= limit' ->
                TimeSeriesDB.listBatches db limit' offset'
                = firstn (Z.to_nat limit')
                         (skipn (Z.to_nat offset') newestFirst)))
    /\ (StronglySorted
          (fun a b => ProcessedSensorData.timestamp b
                      <= ProcessedSensorData.timestamp a)
          (TimeSeriesDB.queryBySensor db sensorId)
        /\ Permutation
             (TimeSeriesDB.queryBySensor db sensorId)
             (filter (fun item =>
                        (ProcessedSensorData.sensorId item =? sensorId)%string)
                     (List.concat (JsMap.values (TimeSeriesDB.batchData db)))))
    /\ (StronglySorted
          (fun a b => ProcessedSensorData.timestamp a
                      <= ProcessedSensorData.timestamp b)
          (TimeSeriesDB.queryByTimeRange db startTime endTime)
        /\ Permutation
             (TimeSeriesDB.queryByTimeRange db startTime endTime)
             (filter (fun item =>
                        (startTime <=? ProcessedSensorData.timestamp item)
                        && (ProcessedSensorData.timestamp item <=? endTime))
                     (List.concat (JsMap.values (TimeSeriesDB.batchData db))))).
Proof.
  intros N db limit offset sensorId startTime endTime.
  assert (Hsorted :
            StronglySorted
              (fun a b => BatchRegistryEntry.createdAt b
                          <= BatchRegistryEntry.createdAt a)
              (Js.sort (fun a b => BatchRegistryEntry.createdAt b
                                   - BatchRegistryEntry.createdAt a)
                       (JsMap.values (TimeSeriesDB.batches db)))).
  { eapply SortFacts.sorted_weaken;
      [|apply SortFacts.sort_sorted; intros; lia].
    simpl. intros a b Hab. lia. }
  split; [|split].
  - split; [|split].
    + unfold TimeSeriesDB.listBatches.
      apply SortFacts.slice_sorted. exact Hsorted.
    + unfold TimeSeriesDB.listBatches. intros e He.
      apply SortFacts.slice_incl in He.
      apply (Permutation_in _ (SortFacts.sort_perm _ _) He).
    + exists (Js.sort (fun a b => BatchRegistryEntry.createdAt b
                                  - BatchRegistryEntry.createdAt a)
                      (JsMap.values (TimeSeriesDB.batches db))).
      split; [apply SortFacts.sort_perm|].
      split; [exact Hsorted|].
      split.
      { intros createdAt.
        apply (StableFacts.filter_sort
                 (fun a b => BatchRegistryEntry.createdAt b
                             - BatchRegistryEntry.createdAt a)
                 BatchRegistryEntry.createdAt).
        intros x y Hxy. lia. }
      split.
      { intros limit' offset'. reflexivity. }
      intros limit' offset' Ho Hl. unfold TimeSeriesDB.listBatches.
      apply SliceFacts.slice_nonneg; assumption.
  - split.
    + unfold TimeSeriesDB.queryBySensor.
      eapply SortFacts.sorted_weaken;
        [|apply SortFacts.sort_sorted; intros; lia].
      simpl. intros a b Hab. lia.
    + unfold TimeSeriesDB.queryBySensor, TimeSeriesDB.scan.
      rewrite SortFacts.flat_map_filter. apply SortFacts.sort_perm.
  - split.
    + unfold TimeSeriesDB.queryByTimeRange.
      eapply SortFacts.sorted_weaken;
        [|apply SortFacts.sort_sorted; intros; lia].
      simpl. intros a b Hab. lia.
    + unfold TimeSeriesDB.queryByTimeRange, TimeSeriesDB.scan.
      rewrite SortFacts.flat_map_filter. apply SortFacts.sort_perm.
Qed.

(** On a registry of two entries saved oldest first, the first page of one
    entry is the entry saved last. *)
Lemma registry_query_orders_witness :
  TimeSeriesDB.listBatches RegistrySamples.registryAB 1 0
  = [RegistrySamples.entryB].
Proof.
  destruct (registry_query_orders
              Z RegistrySamples.registryAB 1 0 "SENSOR001"%string 0 0)
    as ((_ & _ & newestFirst & Hperm & Hsorted & _ & _ & Hpage) & _).
  rewrite (Hpage 1 0) by lia.
  change (JsMap.values (TimeSeriesDB.batches RegistrySamples.registryAB))
    with [Samples.entryA; RegistrySamples.entryB] in Hperm.
  apply Permutation_sym, Permutation_length_2_inv in Hperm.
  destruct Hperm as [->| ->].
  - exfalso. inversion Hsorted as [|? ? _ Hall]; subst.
    inversion Hall as [|? ? Hle _]; subst.
    cbn [BatchRegistryEntry.createdAt Samples.entryA RegistrySamples.entryB]
      in Hle.
    lia.
  - reflexivity.
Defined.

(** ** The rollup engine and the registry *)

Module EngineFacts.
Section Facts.
Context {N : Type} `{Js.Number N}.

Lemma db_submitFinally : forall w : RollupEngine.t N,
  RollupEngine.db (RollupEngine.submitFinally w) = RollupEngine.db w.
Proof.
  intros w. unfold RollupEngine.submitFinally.
  destruct (RollupEngine.pendingBatches w); reflexivity.
Qed.

Lemma db_submitToBlockchain : forall k (w : RollupEngine.t N) batch,
  RollupEngine.db (RollupEngine.submitToBlockchain k w batch)
  = RollupEngine.db w.
Proof.
  intros k w batch. unfold RollupEngine.submitToBlockchain.
  destruct (RollupEngine.isSubmitting w); [reflexivity|].
  destruct (DataBatch.merkleRoot batch) as [[|c r]|];
    try reflexivity; rewrite db_submitFinally; reflexivity.
Qed.

(** A failure of the relayer leaves the registry as it was. *)
Lemma db_relayer_failure : forall (w : RollupEngine.t N) n msg now,
  RollupEngine.db (RollupEngine.relayerSettles w n (Js.Throw msg) now)
  = RollupEngine.db w.
Proof.
  intros w n msg now. unfold RollupEngine.relayerSettles.
  destruct (nth_error (RollupEngine.relayerCalls w) n); [|reflexivity].
  rewrite db_submitFinally. reflexivity.
Qed.

(** The result of a successful call made from the timer callback is
    dropped as well. *)
Lemma db_timer_call_settles : forall (w : RollupEngine.t N) n call outcome now,
  nth_error (RollupEngine.relayerCalls w) n = Some call ->
  RollupEngine.call_then call = RollupEngine.InTimerCallback ->
  RollupEngine.db (RollupEngine.relayerSettles w n outcome now)
  = RollupEngine.db w.
Proof.
  intros w n call outcome now Hnth Hk. unfold RollupEngine.relayerSettles.
  rewrite Hnth, Hk.
  destruct outcome; rewrite db_submitFinally; reflexivity.
Qed.
(** The root [buildTree] returns is never the empty string. *)
Lemma buildTree_root : forall (data : list (ProcessedSensorData.t N)) built,
  MerkleTreeBuilder.buildTree data = Js.Ret built ->
  exists r, MerkleTreeBuilder.root built = String "0" (String "x" r).
Proof.
  intros data built Hb. unfold MerkleTreeBuilder.buildTree in Hb.
  injection Hb as <-. eexists. reflexivity.
Qed.

(** [processRollup] on an idle engine: the batch is stored and the relayer
    is called. *)
Lemma processRollup_idle : forall (w : RollupEngine.t N) batch built,
  MerkleTreeBuilder.buildTree (DataBatch.data batch) = Js.Ret built ->
  RollupEngine.isSubmitting w = false ->
  RollupEngine.processRollup w batch =
  RollupEngine.mk
    (RollupEngine.pendingBatches w) true
    (RollupEngine.db
       (RollupEngine.storeBatch w (RollupEngine.attach batch built)))
    (RollupEngine.timers w)
    (RollupEngine.relayerCalls w
     ++ [RollupEngine.mkCall (RollupEngine.attach batch built)
           (MerkleTreeBuilder.root built) RollupEngine.InProcessRollup]).
Proof.
  intros w batch built Hb Hidle.
  destruct (buildTree_root _ _ Hb) as [r Hr].
  unfold RollupEngine.processRollup. rewrite Hb.
  unfold RollupEngine.submitToBlockchain.
  cbn [RollupEngine.storeBatch RollupEngine.isSubmitting
       RollupEngine.pendingBatches RollupEngine.db RollupEngine.timers
       RollupEngine.relayerCalls RollupEngine.attach DataBatch.merkleRoot].
  rewrite Hidle, Hr. reflexivity.
Qed.

(** [processRollup] while a submission is in flight: the batch is stored
    and goes to the backlog. *)
Lemma processRollup_busy : forall (w : RollupEngine.t N) batch built,
  MerkleTreeBuilder.buildTree (DataBatch.data batch) = Js.Ret built ->
  RollupEngine.isSubmitting w = true ->
  RollupEngine.processRollup w batch =
  RollupEngine.mk
    (RollupEngine.pendingBatches w ++ [RollupEngine.attach batch built]) true
    (RollupEngine.db
       (RollupEngine.storeBatch w (RollupEngine.attach batch built)))
    (RollupEngine.timers w)
    (RollupEngine.relayerCalls w).
Proof.
  intros w batch built Hb Hbusy.
  unfold RollupEngine.processRollup. rewrite Hb.
  unfold RollupEngine.submitToBlockchain.
  cbn [RollupEngine.storeBatch RollupEngine.isSubmitting
       RollupEngine.pendingBatches RollupEngine.db RollupEngine.timers
       RollupEngine.relayerCalls].
  rewrite Hbusy. reflexivity.
Qed.

(** The entry [storeBatch] writes can be read back, with an empty
    transaction reference. *)
Lemma txHash_storeBatch : forall (w : RollupEngine.t N) batch,
  option_map BatchRegistryEntry.txHash
    (TimeSeriesDB.getBatch (RollupEngine.db (RollupEngine.storeBatch w batch))
                           (DataBatch.batchId batch))
  = Some EmptyString.
Proof.
  intros w batch. unfold RollupEngine.storeBatch.
  cbn [RollupEngine.db]. rewrite RegistryFacts.getBatch_saveBatch.
  cbn [BatchRegistryEntry.batchId]. rewrite String.eqb_refl. reflexivity.
Qed.
(** One submission is in flight for [processRollup] and one batch waits in
    the backlog: the submission succeeds, the timer callback submits the
    waiting batch and that submission succeeds too.  Only the first hash
    reaches the registry. *)
Lemma drain_after_settle :
  forall (d : TimeSeriesDB.t N) (first next : DataBatch.t N)
         (rootA : string) (c : ascii) (r : string) (txA txB : string)
         (t1 t2 : Z),
    DataBatch.merkleRoot next = Some (String c r) ->
    RollupEngine.run
      (RollupEngine.mk [next] true d []
         [RollupEngine.mkCall first rootA RollupEngine.InProcessRollup])
      [RollupEngine.RelayerSettles 0 (Js.Ret txA) t1;
       RollupEngine.TimerFires;
       RollupEngine.RelayerSettles 0 (Js.Ret txB) t2]
    = RollupEngine.mk [] false
        (TimeSeriesDB.updateBatchTx d (DataBatch.batchId first) txA t1)
        [] [].
Proof.
  intros d first next rootA c r txA txB t1 t2 Hroot.
  unfold RollupEngine.run.
  cbn [fold_left RollupEngine.step RollupEngine.relayerSettles
       RollupEngine.relayerCalls RollupEngine.pendingBatches
       RollupEngine.timers RollupEngine.isSubmitting RollupEngine.db
       app nth_error RollupEngine.remove_nth RollupEngine.submitFinally
       RollupEngine.call_then RollupEngine.call_batch
       RollupEngine.timerFires].
  unfold RollupEngine.submitToBlockchain.
  cbn [RollupEngine.isSubmitting]. rewrite Hroot.
  reflexivity.
Qed.
End Facts.
End EngineFacts.

(** C5: [processRollup] stores the batch (its entry with an empty
    transaction reference, its readings and its proofs) and only then
    enters [submitToBlockchain]; the batch can be read back by its id in the
    state the relayer is called in, when [processRollup] is suspended or
    returns, and after any failure of the relayer. *)
Theorem processRollup_persists_before_submission :
  forall (N : Type) (num : Js.Number N) (w : RollupEngine.t N)
         (batch : DataBatch.t N),
  exists built : MerkleTreeBuilder.BuildResult,
    MerkleTreeBuilder.buildTree (DataBatch.data batch) = Js.Ret built
    /\ let batch' := RollupEngine.attach batch built in
       let entry :=
         BatchRegistryEntry.mk
           (DataBatch.batchId batch) (MerkleTreeBuilder.root built)
           EmptyString (Z.of_nat (List.length (DataBatch.data batch)))
           (DataBatch.createdAt batch) 0 in
       let queryable (d : TimeSeriesDB.t N) :=
         TimeSeriesDB.getBatch d (DataBatch.batchId batch) = Some entry
         /\ TimeSeriesDB.getBatchData d (DataBatch.batchId batch)
            = Some (DataBatch.data batch)
         /\ (forall dataHash : string,
                TimeSeriesDB.getProof d (DataBatch.batchId batch) dataHash
                = JsMap.get (MerkleTreeBuilder.proofs built) dataHash) in
       RollupEngine.processRollup w batch
       = RollupEngine.submitToBlockchain RollupEngine.InProcessRollup
           (RollupEngine.storeBatch w batch') batch'
       /\ queryable (RollupEngine.db (RollupEngine.storeBatch w batch'))
       /\ queryable (RollupEngine.db (RollupEngine.processRollup w batch))
       /\ (forall (n : nat) (msg : string) (now : Z),
              queryable
                (RollupEngine.db
                   (RollupEngine.relayerSettles
                      (RollupEngine.processRollup w batch) n
                      (Js.Throw msg) now))).
Proof.
  intros N num w batch.
  eexists. split; [reflexivity|].
  cbv zeta.
  match goal with
  | |- _ /\ ?Q /\ _ => assert (Hstored : Q)
  end.
  { unfold RollupEngine.storeBatch, TimeSeriesDB.getBatch,
      TimeSeriesDB.getBatchData, TimeSeriesDB.getProof,
      TimeSeriesDB.saveBatch.
    cbn [RollupEngine.attach
         RollupEngine.db TimeSeriesDB.batches TimeSeriesDB.batchData
         TimeSeriesDB.proofs DataBatch.batchId DataBatch.data
         DataBatch.createdAt DataBatch.merkleRoot DataBatch.merkleProofs
         BatchRegistryEntry.batchId MerkleTreeBuilder.root
         MerkleTreeBuilder.proofs].
    rewrite !JsMapFacts.get_set_same.
    repeat split. }
  assert (Hrun : RollupEngine.processRollup w batch
                 = RollupEngine.submitToBlockchain RollupEngine.InProcessRollup
                     (RollupEngine.storeBatch w (RollupEngine.attach batch _))
                     (RollupEngine.attach batch _)) by reflexivity.
  split; [exact Hrun|].
  split; [exact Hstored|].
  split.
  - rewrite Hrun, EngineFacts.db_submitToBlockchain. exact Hstored.
  - intros n msg now.
    rewrite EngineFacts.db_relayer_failure, Hrun,
      EngineFacts.db_submitToBlockchain.
    exact Hstored.
Qed.

(** C3, the failing run: the engine is idle, [processRollup] handles a
    batch and the relayer call fails.  The entry keeps its empty transaction
    reference, but the batch is in no backlog: [pendingBatches] is empty, no
    timer callback is scheduled and no relayer call is left, so nothing will
    submit it again. *)
Theorem relayer_failure_drops_batch :
  forall (N : Type) (num : Js.Number N) (batch : DataBatch.t N)
         (msg : string) (now : Z),
    let w := RollupEngine.run RollupEngine.init
               [RollupEngine.ProcessRollup batch;
                RollupEngine.RelayerSettles 0 (Js.Throw msg) now] in
    option_map BatchRegistryEntry.txHash
               (TimeSeriesDB.getBatch (RollupEngine.db w)
                                      (DataBatch.batchId batch))
    = Some EmptyString
    /\ RollupEngine.pendingBatches w = []
    /\ RollupEngine.timers w = []
    /\ RollupEngine.relayerCalls w = []
    /\ RollupEngine.isSubmitting w = false.
Proof.
  intros N num batch msg now. cbv zeta.
  unfold RollupEngine.run. cbn [fold_left RollupEngine.step].
  rewrite (EngineFacts.processRollup_idle RollupEngine.init batch _ eq_refl)
    by reflexivity.
  unfold RollupEngine.relayerSettles.
  cbn [RollupEngine.init RollupEngine.relayerCalls RollupEngine.pendingBatches
       RollupEngine.timers RollupEngine.isSubmitting RollupEngine.db
       app nth_error RollupEngine.remove_nth RollupEngine.submitFinally].
  split; [|repeat split].
  apply (EngineFacts.txHash_storeBatch
           (RollupEngine.mk [] false TimeSeriesDB.init [] [])
           (RollupEngine.attach batch _)).
Qed.

(** C6, the failing run: batch B is handled while the submission of batch A
    is in flight.  B goes to the backlog with an empty transaction
    reference; A settles, B is taken from the backlog, the timer callback
    submits it and the relayer returns its transaction hash.  The callback
    drops that hash: the transaction reference of B is still empty when
    nothing is left to run. *)
Theorem deferred_batch_reference_stays_empty :
  forall (N : Type) (num : Js.Number N) (batchA batchB : DataBatch.t N)
         (txA txB : string) (t1 t2 : Z),
    DataBatch.batchId batchA <> DataBatch.batchId batchB ->
    let w2 := RollupEngine.run RollupEngine.init
                [RollupEngine.ProcessRollup batchA;
                 RollupEngine.ProcessRollup batchB] in
    let w5 := RollupEngine.run w2
                [RollupEngine.RelayerSettles 0 (Js.Ret txA) t1;
                 RollupEngine.TimerFires;
                 RollupEngine.RelayerSettles 0 (Js.Ret txB) t2] in
    (map DataBatch.batchId (RollupEngine.pendingBatches w2)
     = [DataBatch.batchId batchB]
     /\ option_map BatchRegistryEntry.txHash
          (TimeSeriesDB.getBatch (RollupEngine.db w2)
                                 (DataBatch.batchId batchB))
        = Some EmptyString)
    /\ (option_map BatchRegistryEntry.txHash
          (TimeSeriesDB.getBatch (RollupEngine.db w5)
                                 (DataBatch.batchId batchA))
        = Some txA
        /\ option_map BatchRegistryEntry.txHash
             (TimeSeriesDB.getBatch (RollupEngine.db w5)
                                    (DataBatch.batchId batchB))
           = Some EmptyString
        /\ RollupEngine.pendingBatches w5 = []
        /\ RollupEngine.timers w5 = []
        /\ RollupEngine.relayerCalls w5 = []
        /\ RollupEngine.isSubmitting w5 = false).
Proof.
  intros N num batchA batchB txA txB t1 t2 Hids. cbv zeta.
  assert (HidAB : (DataBatch.batchId batchA =? DataBatch.batchId batchB)%string
                  = false) by (apply String.eqb_neq; exact Hids).
  assert (HidBA : (DataBatch.batchId batchB =? DataBatch.batchId batchA)%string
                  = false)
    by (apply String.eqb_neq; intros Heq; apply Hids; symmetry; exact Heq).
  remember (RollupEngine.run RollupEngine.init
              [RollupEngine.ProcessRollup batchA;
               RollupEngine.ProcessRollup batchB]) as w2 eqn:Hw2.
  unfold RollupEngine.run in Hw2. cbn [fold_left RollupEngine.step] in Hw2.
  rewrite (EngineFacts.processRollup_idle RollupEngine.init batchA _ eq_refl)
    in Hw2 by reflexivity.
  rewrite (EngineFacts.processRollup_busy _ batchB _ eq_refl) in Hw2
    by reflexivity.
  cbn [RollupEngine.init RollupEngine.relayerCalls RollupEngine.pendingBatches
       RollupEngine.timers RollupEngine.isSubmitting RollupEngine.db app]
    in Hw2.
  subst w2. split.
  - split; [reflexivity|].
    apply (EngineFacts.txHash_storeBatch _ (RollupEngine.attach batchB _)).
  - erewrite EngineFacts.drain_after_settle by reflexivity.
    cbn [RollupEngine.db RollupEngine.pendingBatches RollupEngine.timers
         RollupEngine.relayerCalls RollupEngine.isSubmitting].
    rewrite !RegistryFacts.getBatch_updateBatchTx.
    cbn [RollupEngine.attach DataBatch.batchId].
    rewrite String.eqb_refl, HidAB.
    unfold RollupEngine.storeBatch. cbn [RollupEngine.db].
    rewrite !RegistryFacts.getBatch_saveBatch.
    cbn [BatchRegistryEntry.batchId DataBatch.batchId RollupEngine.attach].
    rewrite HidBA, !String.eqb_refl.
    repeat split.
Qed.

(** The run of C6 on the two sample batches. *)
Lemma deferred_batch_reference_stays_empty_witness :
  DataBatch.batchId Samples.batchA <> DataBatch.batchId Samples.batchB
  /\ option_map BatchRegistryEntry.txHash
       (TimeSeriesDB.getBatch
          (RollupEngine.db
             (RollupEngine.run RollupEngine.init
                [RollupEngine.ProcessRollup Samples.batchA;
                 RollupEngine.ProcessRollup Samples.batchB;
                 RollupEngine.RelayerSettles 0 (Js.Ret "0xaaaa"%string) 1706489640000;
                 RollupEngine.TimerFires;
                 RollupEngine.RelayerSettles 0 (Js.Ret "0xbbbb"%string)
                                             1706489650000]))
          "batch-b")
     = Some EmptyString.
Proof.
  assert (Hids : DataBatch.batchId Samples.batchA
                 <> DataBatch.batchId Samples.batchB) by discriminate.
  split; [exact Hids|].
  apply (deferred_batch_reference_stays_empty
           Z Js.Number_Z Samples.batchA Samples.batchB
           "0xaaaa"%string "0xbbbb"%string 1706489640000 1706489650000
           Hids).
Defined.

(** ** Fingerprints and the order of the measurement keys *)

(** C2, as the program behaves: two payloads with the same serial number,
    sensor id and timestamp whose readings objects list the same properties
    in the same order (array-index keys by increasing index, then the other
    keys in insertion order) get the same fingerprint, from the webhook
    route and from the tree builder alike, whatever their signature, id or
    receipt time. *)
Theorem fingerprint_same_key_order :
  forall (N : Type) (num : Js.Number N) (p q : SensorDataPayload.t N)
         (uuid1 uuid2 : string) (now1 now2 : Z),
    SensorDataPayload.serialNumber p = SensorDataPayload.serialNumber q ->
    SensorDataPayload.sensorId p = SensorDataPayload.sensorId q ->
    SensorDataPayload.timestamp p = SensorDataPayload.timestamp q ->
    JSON.ownEntries (SensorDataPayload.readings p)
    = JSON.ownEntries (SensorDataPayload.readings q) ->
    Webhook.createDataHash p = Webhook.createDataHash q
    /\ MerkleTreeBuilder.createDataHash (Webhook.processedData p uuid1 now1)
       = Webhook.createDataHash p
    /\ MerkleTreeBuilder.createDataHash (Webhook.processedData p uuid1 now1)
       = MerkleTreeBuilder.createDataHash (Webhook.processedData q uuid2 now2).
Proof.
  intros N num p q uuid1 uuid2 now1 now2 Hsn Hid Hts Hkeys.
  assert (Hweb : Webhook.createDataHash p = Webhook.createDataHash q).
  { unfold Webhook.createDataHash, JSON.of_readings.
    rewrite Hsn, Hid, Hts, Hkeys. reflexivity. }
  assert (Hsame : forall (r : SensorDataPayload.t N) uuid now,
             MerkleTreeBuilder.createDataHash (Webhook.processedData r uuid now)
             = Webhook.createDataHash r) by reflexivity.
  split; [exact Hweb|]. split; [apply Hsame|].
  rewrite !Hsame. exact Hweb.
Qed.

(** Two payloads whose measurement keys are array indices written in
    opposite orders, with different signatures. *)
Lemma fingerprint_same_key_order_witness :
  (SensorDataPayload.serialNumber Samples.payload3
   = SensorDataPayload.serialNumber Samples.payload4
   /\ SensorDataPayload.sensorId Samples.payload3
      = SensorDataPayload.sensorId Samples.payload4
   /\ SensorDataPayload.timestamp Samples.payload3
      = SensorDataPayload.timestamp Samples.payload4
   /\ JSON.ownEntries (SensorDataPayload.readings Samples.payload3)
      = JSON.ownEntries (SensorDataPayload.readings Samples.payload4))
  /\ Webhook.createDataHash Samples.payload3
     = Webhook.createDataHash Samples.payload4.
Proof.
  split; [repeat split|].
  apply (fingerprint_same_key_order Z Js.Number_Z
           Samples.payload3 Samples.payload4
           "7d8f1c1e-0003" "7d8f1c1e-0004" 1706489701000 1706489702000);
    reflexivity.
Defined.

(** C2, as stated, fails: the two sample payloads agree on serial number,
    sensor id and timestamp and hold the same measurements, inserted in
    opposite orders, and their fingerprints differ. *)
Lemma fingerprint_depends_on_key_order :
  SensorDataPayload.serialNumber Samples.payload1
  = SensorDataPayload.serialNumber Samples.payload2
  /\ SensorDataPayload.sensorId Samples.payload1
     = SensorDataPayload.sensorId Samples.payload2
  /\ SensorDataPayload.timestamp Samples.payload1
     = SensorDataPayload.timestamp Samples.payload2
  /\ NoDup (map fst (SensorDataPayload.readings Samples.payload1))
  /\ Permutation (SensorDataPayload.readings Samples.payload1)
                 (SensorDataPayload.readings Samples.payload2)
  /\ Webhook.createDataHash Samples.payload1
     <> Webhook.createDataHash Samples.payload2
  /\ MerkleTreeBuilder.createDataHash Samples.reading1
     <> MerkleTreeBuilder.createDataHash Samples.reading2.
Proof.
  split; [reflexivity|]. split; [reflexivity|]. split; [reflexivity|].
  split.
  { repeat constructor; simpl; intuition discriminate. }
  split; [apply perm_swap|].
  split; intros Heq; vm_compute in Heq; discriminate Heq.
Qed.

(** ** The round trip through [buildTree] and [verifyProof] *)

(** C1, the failing input: a batch of the two sample readings.  The proof
    [buildTree] stores for the second reading is refused by [verifyProof]
    against the root of the same tree, although the first reading verifies
    and the contract accepts both proofs. *)
Theorem verifyProof_rejects_built_proof :
  RoundTrip.local [Samples.reading1; Samples.reading2]
                  (ProcessedSensorData.dataHash Samples.reading1)
  = Js.Ret (Some true)
  /\ RoundTrip.local [Samples.reading1; Samples.reading2]
                     (ProcessedSensorData.dataHash Samples.reading2)
     = Js.Ret (Some false)
  /\ RoundTrip.onChain [Samples.reading1; Samples.reading2]
                       (ProcessedSensorData.dataHash Samples.reading1)
     = Js.Ret (Some true)
  /\ RoundTrip.onChain [Samples.reading1; Samples.reading2]
                       (ProcessedSensorData.dataHash Samples.reading2)
     = Js.Ret (Some true).
Proof. repeat split; vm_compute; reflexivity. Qed.

(** ** The layer loop stops on a single node *)

Module LayerFacts.

(** Induction on a list two elements at a time. *)
Lemma pair_induction : forall (A : Type) (P : list A -> Prop),
  P [] -> (forall a, P [a]) -> (forall a b l, P l -> P (a :: b :: l)) ->
  forall l, P l.
Proof.
  intros A P Hnil Hone Hstep.
  assert (Hboth : forall l, P l /\ forall a, P (a :: l)).
  { induction l as [|x l [IH1 IH2]].
    - split; [exact Hnil | exact Hone].
    - split; [apply IH2|]. intros a. apply Hstep. exact IH1. }
  intros l. apply Hboth.
Qed.

Lemma last_cons : forall (A : Type) (x : A) (l : list A) (d : A),
  l <> [] -> last (x :: l) d = last l d.
Proof. intros A x [|y l] d Hne; [contradiction | reflexivity]. Qed.

Section Facts.
Variable hashFn : Js.Buffer -> Js.Buffer.
Variable opts : MerkleTreeJs.Options.

Lemma createHashes_cons : forall fuel nodes,
  exists rest,
    MerkleTreeJs.createHashes hashFn fuel opts nodes = nodes :: rest.
Proof. intros [|fuel] nodes; eexists; reflexivity. Qed.

Lemma nextLayer_length : forall nodes,
  (2 * List.length (MerkleTreeJs.nextLayer hashFn opts nodes)
   <= List.length nodes + 1)%nat.
Proof.
  intros nodes.
  induction nodes as [| a | a b rest IH] using pair_induction;
    simpl in *; lia.
Qed.

Lemma nextLayer_nonempty : forall nodes,
  nodes <> [] -> MerkleTreeJs.nextLayer hashFn opts nodes <> [].
Proof. intros [|a [|b rest]] Hne; [contradiction | | ]; discriminate. Qed.

(** As many passes as nodes are enough for the loop of [createHashes] to
    end by itself: the last layer of a tree with leaves is one node. *)
Lemma createHashes_complete : forall fuel nodes,
  (List.length nodes <= fuel)%nat -> nodes <> [] ->
  exists top, last (MerkleTreeJs.createHashes hashFn fuel opts nodes) []
              = [top].
Proof.
  induction fuel as [|fuel IH]; intros nodes Hlen Hne.
  - destruct nodes; [contradiction | simpl in Hlen; lia].
  - cbn [MerkleTreeJs.createHashes].
    destruct (Nat.ltb_spec 1 (List.length nodes)) as [Hmany|Hone].
    + destruct (createHashes_cons fuel
                  (MerkleTreeJs.nextLayer hashFn opts nodes)) as [rest Hrest].
      assert (Hrest' :
                MerkleTreeJs.createHashes hashFn fuel opts
                  (MerkleTreeJs.nextLayer hashFn opts nodes)
                <> []).
      { destruct fuel; discriminate. }
      rewrite last_cons by exact Hrest'.
      apply IH.
      * pose proof (nextLayer_length nodes). lia.
      * apply nextLayer_nonempty. exact Hne.
    + destruct nodes as [|x [|y nodes]]; simpl in Hone; try lia.
      * contradiction.
      * exists x. reflexivity.
Qed.
End Facts.
End LayerFacts.

(** ** The contract accepts the proofs of [buildTree]

    The tree is built with sorted pairs and the contract verifies with
    sorted pairs: every proof stored by [buildTree] leads the contract from
    the leaf to the root. *)

Module MerkleFacts.

Lemma fromHex_toHex_byte : forall (x : byte) (t : string),
  Js.fromHex (String (Js.hexdigit (Js.byte_to_Z x / 16))
                (String (Js.hexdigit (Js.byte_to_Z x mod 16)) t))
  = x :: Js.fromHex t.
Proof. intros x t. destruct x; reflexivity. Qed.

Lemma fromHex_toHex : forall b, Js.fromHex (Js.toHex b) = b.
Proof.
  induction b as [|x b IH]; [reflexivity|].
  cbn [Js.toHex]. rewrite fromHex_toHex_byte, IH. reflexivity.
Qed.

Lemma bufferOf_hex0x : forall b,
  MerkleTreeBuilder.bufferOf (MerkleTreeBuilder.hex0x b) = b.
Proof.
  intros b. unfold MerkleTreeBuilder.bufferOf.
  replace (Js.replace_0x (MerkleTreeBuilder.hex0x b)) with (Js.toHex b)
    by reflexivity.
  apply fromHex_toHex.
Qed.

Lemma parent_hashPair_right : forall a b,
  MerkleTreeJs.parent keccak256 MerkleTreeBuilder.build_options a b
  = AgriDataRegistry.hashPair a b.
Proof.
  intros a b. unfold MerkleTreeJs.parent, AgriDataRegistry.hashPair. simpl.
  destruct (Z.ltb_spec 0 (Js.Buffer_compare a b));
    destruct (Z.leb_spec (Js.Buffer_compare a b) 0); try lia; reflexivity.
Qed.

Lemma parent_hashPair_left : forall a b,
  MerkleTreeJs.parent keccak256 MerkleTreeBuilder.build_options a b
  = AgriDataRegistry.hashPair b a.
Proof.
  intros a b. unfold MerkleTreeJs.parent, AgriDataRegistry.hashPair. simpl.
  rewrite (BufferFacts.compare_antisym a b).
  destruct (Z.ltb_spec 0 (Js.Buffer_compare a b));
    destruct (Z.leb_spec (- Js.Buffer_compare a b) 0); try lia;
    try reflexivity.
  assert (Heq : a = b) by (apply BufferFacts.compare_eq; lia).
  subst b. reflexivity.
Qed.

(** Above [nodes[index]] sits its hash with its sibling, or the node itself
    when it has no sibling. *)
Lemma nextLayer_above : forall nodes index h,
  nth_error nodes index = Some h ->
  nth_error (MerkleTreeJs.nextLayer keccak256 MerkleTreeBuilder.build_options
                                    nodes) (index / 2)%nat
  = Some match nth_error nodes (if Nat.odd index then index - 1
                                else index + 1)%nat with
         | Some e => AgriDataRegistry.hashPair h e
         | None => h
         end.
Proof.
  intros nodes. induction nodes as [| a | a b rest IH] using LayerFacts.pair_induction;
    intros index h Hnth.
  - destruct index; discriminate Hnth.
  - destruct index as [|index]; [|destruct index; discriminate Hnth].
    simpl in Hnth. injection Hnth as <-. reflexivity.
  - destruct index as [|[|index]].
    + simpl in Hnth. injection Hnth as <-.
      cbn [MerkleTreeJs.nextLayer]. simpl.
      rewrite parent_hashPair_right. reflexivity.
    + simpl in Hnth. injection Hnth as <-.
      cbn [MerkleTreeJs.nextLayer]. simpl.
      rewrite parent_hashPair_left. reflexivity.
    + cbn [MerkleTreeJs.nextLayer].
      replace (S (S index) / 2)%nat with (S (index / 2))%nat.
      2:{ change (S (S index)) with (2 + index)%nat.
          rewrite (Nat.add_comm 2 index).
          replace (index + 2)%nat with (index + 1 * 2)%nat by lia.
          rewrite Nat.div_add by lia. lia. }
      simpl in Hnth.
      change (nth_error
                (MerkleTreeJs.parent keccak256
                   MerkleTreeBuilder.build_options a b
                 :: MerkleTreeJs.nextLayer keccak256
                      MerkleTreeBuilder.build_options rest)
                (S (index / 2)))
        with (nth_error
                (MerkleTreeJs.nextLayer keccak256
                   MerkleTreeBuilder.build_options rest) (index / 2)%nat).
      rewrite (IH index h Hnth).
      replace (Nat.odd (S (S index))) with (Nat.odd index)
        by (rewrite Nat.odd_succ_succ; reflexivity).
      destruct (Nat.odd index) eqn:Hodd.
      * destruct index as [|index]; [discriminate Hodd|].
        replace (S (S (S index)) - 1)%nat with (S (S (S index - 1)))%nat by lia.
        reflexivity.
      * replace (S (S index) + 1)%nat with (S (S (index + 1)))%nat by lia.
        reflexivity.
Qed.

(** With as many passes as leaves, folding the contract step over the
    proof of a node ends on the single node of the last layer. *)
Lemma climb_to_root : forall fuel nodes index h,
  (List.length nodes <= fuel)%nat ->
  nth_error nodes index = Some h ->
  fold_left AgriDataRegistry.hashPair
    (map MerkleTreeJs.data
       (MerkleTreeJs.proofFrom
          (MerkleTreeJs.createHashes keccak256 fuel
             MerkleTreeBuilder.build_options nodes) index)) h
  = match last (MerkleTreeJs.createHashes keccak256 fuel
                  MerkleTreeBuilder.build_options nodes) [] with
    | [] => []
    | node :: _ => node
    end.
Proof.
  induction fuel as [|fuel IH]; intros nodes index h Hlen Hnth.
  - destruct nodes; [destruct index; discriminate Hnth | simpl in Hlen; lia].
  - cbn [MerkleTreeJs.createHashes MerkleTreeJs.proofFrom].
    assert (Habove := nextLayer_above nodes index h Hnth).
    destruct (Nat.ltb_spec 1 (List.length nodes)) as [Hmany|Hone].
    + destruct (LayerFacts.createHashes_cons
                  keccak256 MerkleTreeBuilder.build_options fuel
                  (MerkleTreeJs.nextLayer
                     keccak256 MerkleTreeBuilder.build_options nodes))
        as [rest Hrest].
      rewrite LayerFacts.last_cons by (rewrite Hrest; discriminate).
      assert (Hlen' : (List.length
                         (MerkleTreeJs.nextLayer
                            keccak256 MerkleTreeBuilder.build_options nodes)
                       <= fuel)%nat).
      { pose proof (LayerFacts.nextLayer_length
                      keccak256 MerkleTreeBuilder.build_options nodes).
        lia. }
      rewrite <- (IH _ _ _ Hlen' Habove).
      destruct (nth_error nodes
                  (if Nat.odd index then (index - 1)%nat
                   else (index + 1)%nat)) as [e|]; reflexivity.
    + destruct nodes as [|x [|y nodes]]; simpl in Hone; try lia.
      * destruct index; discriminate Hnth.
      * destruct index as [|index]; [|destruct index; discriminate Hnth].
        simpl in Hnth. injection Hnth as <-. reflexivity.
Qed.

Lemma lastIndex_found : forall leaf lvs i found j,
  found = Some j ->
  exists j', MerkleTreeJs.lastIndex leaf lvs i found = Some j'.
Proof.
  intros leaf lvs. induction lvs as [|l lvs IH]; intros i found j Hf; simpl.
  - exists j. exact Hf.
  - destruct (Js.Buffer_compare leaf l =? 0).
    + apply (IH (S i) (Some i) i eq_refl).
    + apply (IH (S i) found j Hf).
Qed.

Lemma lastIndex_in : forall leaf lvs i found,
  In leaf lvs ->
  exists j, MerkleTreeJs.lastIndex leaf lvs i found = Some j.
Proof.
  intros leaf lvs. induction lvs as [|l lvs IH]; intros i found Hin;
    [contradiction|].
  simpl. destruct Hin as [->|Hin].
  - rewrite BufferFacts.compare_refl. simpl.
    apply (lastIndex_found leaf lvs (S i) (Some i) i eq_refl).
  - apply IH. exact Hin.
Qed.

Lemma lastIndex_nth : forall leaf lvs i found j,
  MerkleTreeJs.lastIndex leaf lvs i found = Some j ->
  found = Some j
  \/ ((i <= j)%nat /\ nth_error lvs (j - i) = Some leaf).
Proof.
  intros leaf lvs. induction lvs as [|l lvs IH]; intros i found j Hj;
    simpl in Hj.
  - left. exact Hj.
  - destruct (IH _ _ _ Hj) as [Hf|[Hle Hnth]].
    + destruct (Js.Buffer_compare leaf l =? 0) eqn:Hc.
      * injection Hf as <-. right. split; [lia|].
        rewrite Nat.sub_diag. simpl.
        apply BufferFacts.compare_eqb in Hc. subst l. reflexivity.
      * left. exact Hf.
    + right. split; [lia|].
      replace (j - i)%nat with (S (j - S i))%nat by lia. exact Hnth.
Qed.

Section ProofMap.
Context {N : Type} `{Js.Number N}.

(** The decoded key of the proof map is the leaf. *)
Lemma bufferOf_key : forall item : ProcessedSensorData.t N,
  MerkleTreeBuilder.bufferOf
    (Js.or_else (ProcessedSensorData.dataHash item)
                (MerkleTreeBuilder.hex0x (MerkleTreeBuilder.leafOf item)))
  = MerkleTreeBuilder.leafOf item.
Proof.
  intros item. unfold MerkleTreeBuilder.leafOf, Js.or_else.
  destruct (Js.truthy (ProcessedSensorData.dataHash item)); [reflexivity|].
  apply bufferOf_hex0x.
Qed.

Lemma proofs_get :
  forall tr (data : list (ProcessedSensorData.t N)) acc (k : string),
    In k (map (fun item =>
                 Js.or_else (ProcessedSensorData.dataHash item)
                   (MerkleTreeBuilder.hex0x (MerkleTreeBuilder.leafOf item)))
              data)
    \/ JsMap.get acc k
       = Some (map (fun p => MerkleTreeBuilder.hex0x (MerkleTreeJs.data p))
                   (MerkleTreeJs.getProof
                      tr (MerkleTreeBuilder.bufferOf k))) ->
    JsMap.get (fold_left (MerkleTreeBuilder.addProof tr)
                         (combine data (map MerkleTreeBuilder.leafOf data))
                         acc) k
    = Some (map (fun p => MerkleTreeBuilder.hex0x (MerkleTreeJs.data p))
                (MerkleTreeJs.getProof tr (MerkleTreeBuilder.bufferOf k))).
Proof.
  intros tr data. induction data as [|item data IH]; intros acc k Hk.
  - destruct Hk as [[]|Hk]. exact Hk.
  - cbn [map combine fold_left]. apply IH.
    destruct Hk as [[Hhere|Hlater]|Hacc].
    + right. subst k. unfold MerkleTreeBuilder.addProof.
      rewrite JsMapFacts.get_set_same, bufferOf_key. reflexivity.
    + left. exact Hlater.
    + right. unfold MerkleTreeBuilder.addProof.
      rewrite JsMapFacts.get_set.
      destruct (String.eqb_spec
                  (Js.or_else (ProcessedSensorData.dataHash item)
                     (MerkleTreeBuilder.hex0x
                        (MerkleTreeBuilder.leafOf item))) k) as [Heq|Hne];
        [|exact Hacc].
      subst k. rewrite bufferOf_key. reflexivity.
Qed.
End ProofMap.

End MerkleFacts.

(** X1: for every reading of a batch, the proof that [buildTree] stores
    under the fingerprint of the reading is accepted by
    [_verifyMerkleProof] of the contract against the root of the tree. *)
Theorem contract_accepts_built_proofs :
  forall (N : Type) (num : Js.Number N)
         (data : list (ProcessedSensorData.t N))
         (item : ProcessedSensorData.t N),
    In item data ->
    RoundTrip.onChain data
      (Js.or_else (ProcessedSensorData.dataHash item)
                  (MerkleTreeBuilder.hex0x (MerkleTreeBuilder.leafOf item)))
    = Js.Ret (Some true).
Proof.
  intros N num data item Hin.
  unfold RoundTrip.onChain, MerkleTreeBuilder.buildTree.
  cbn [Js.bind MerkleTreeBuilder.proofs MerkleTreeBuilder.root].
  rewrite MerkleFacts.proofs_get
    by (left; apply (in_map (fun it =>
                               Js.or_else (ProcessedSensorData.dataHash it)
                                 (MerkleTreeBuilder.hex0x
                                    (MerkleTreeBuilder.leafOf it)))
                            data item Hin)).
  cbn [option_map]. do 2 f_equal.
  rewrite MerkleFacts.bufferOf_key, MerkleFacts.bufferOf_hex0x.
  rewrite map_map.
  rewrite (map_ext _ MerkleTreeJs.data)
    by (intros p; apply MerkleFacts.bufferOf_hex0x).
  unfold AgriDataRegistry.verifyMerkleProof. apply BufferFacts.compare_eqb.
  unfold MerkleTreeJs.getProof, MerkleTreeJs.getRoot, MerkleTreeJs.new.
  cbn [MerkleTreeBuilder.build_options MerkleTreeJs.hashLeaves
       MerkleTreeJs.leaves MerkleTreeJs.layers].
  assert (Hleaf : In (MerkleTreeBuilder.leafOf item)
                     (map MerkleTreeBuilder.leafOf data))
    by (apply in_map; exact Hin).
  destruct (MerkleFacts.lastIndex_in _ _ 0%nat None Hleaf) as [j Hj].
  rewrite Hj.
  destruct (MerkleFacts.lastIndex_nth _ _ _ _ _ Hj) as [Hnone|[_ Hnth]];
    [discriminate Hnone|].
  rewrite Nat.sub_0_r in Hnth.
  apply (MerkleFacts.climb_to_root _ _ _ _ (Nat.le_refl _) Hnth).
Qed.

(** ** One submission at a time *)

Module InFlightFacts.
Section Facts.
Context {N : Type} `{Js.Number N}.

(** Every step keeps the lock and the pending relayer calls in step: the
    lock is free and no call is pending, or the lock is taken and one call
    is pending. *)
Lemma step_keeps_lock : forall (w : RollupEngine.t N) (e : RollupEngine.Event N),
  (RollupEngine.isSubmitting w = false /\ RollupEngine.relayerCalls w = [])
  \/ (RollupEngine.isSubmitting w = true
      /\ exists call, RollupEngine.relayerCalls w = [call]) ->
  (RollupEngine.isSubmitting (RollupEngine.step w e) = false
   /\ RollupEngine.relayerCalls (RollupEngine.step w e) = [])
  \/ (RollupEngine.isSubmitting (RollupEngine.step w e) = true
      /\ exists call, RollupEngine.relayerCalls (RollupEngine.step w e)
                      = [call]).
Proof.
  intros w e Hinv. destruct e as [batch | n outcome now | ]; simpl.
  - destruct Hinv as [[Hidle Hcalls] | [Hbusy [call Hcalls]]].
    + rewrite (EngineFacts.processRollup_idle w batch _ eq_refl Hidle).
      right. simpl. rewrite Hcalls. split; [reflexivity|].
      eexists. reflexivity.
    + rewrite (EngineFacts.processRollup_busy w batch _ eq_refl Hbusy).
      right. simpl. split; [reflexivity|]. exists call. exact Hcalls.
  - unfold RollupEngine.relayerSettles.
    destruct Hinv as [[Hidle Hcalls] | [Hbusy [call Hcalls]]].
    + rewrite Hcalls. destruct n; simpl; left; split; assumption.
    + rewrite Hcalls. destruct n as [|n].
      * left. cbn [nth_error RollupEngine.remove_nth].
        unfold RollupEngine.submitFinally. simpl.
        destruct (RollupEngine.pendingBatches w);
          destruct outcome; destruct (RollupEngine.call_then call);
          split; reflexivity.
      * right. destruct n; simpl; (split; [exact Hbusy|]);
          exists call; exact Hcalls.
  - unfold RollupEngine.timerFires.
    destruct (RollupEngine.timers w) as [|nextBatch rest]; [exact Hinv|].
    unfold RollupEngine.submitToBlockchain. simpl.
    destruct Hinv as [[Hidle Hcalls] | [Hbusy [call Hcalls]]].
    + rewrite Hidle, Hcalls.
      destruct (DataBatch.merkleRoot nextBatch) as [[|c r]|].
      * left. unfold RollupEngine.submitFinally. simpl.
        destruct (RollupEngine.pendingBatches w); split; reflexivity.
      * right. simpl. split; [reflexivity|]. eexists. reflexivity.
      * left. unfold RollupEngine.submitFinally. simpl.
        destruct (RollupEngine.pendingBatches w); split; reflexivity.
    + rewrite Hbusy. right. simpl. split; [reflexivity|].
      exists call. exact Hcalls.
Qed.
End Facts.
End InFlightFacts.

(** X2: at most one ledger submission is in flight: after any sequence of
    calls of [processRollup], settlements of the relayer and timer
    callbacks on a new engine, at most one relayer call is pending. *)
Theorem single_submission_in_flight :
  forall (N : Type) (num : Js.Number N) (events : list (RollupEngine.Event N)),
    (List.length
       (RollupEngine.relayerCalls (RollupEngine.run RollupEngine.init events))
     <= 1)%nat.
Proof.
  intros N num events.
  assert (Hinv : forall (es : list (RollupEngine.Event N)) (w : RollupEngine.t N),
             (RollupEngine.isSubmitting w = false
              /\ RollupEngine.relayerCalls w = [])
             \/ (RollupEngine.isSubmitting w = true
                 /\ exists call, RollupEngine.relayerCalls w = [call]) ->
             (List.length (RollupEngine.relayerCalls (RollupEngine.run w es))
              <= 1)%nat).
  { induction es as [|e es IH]; intros w Hw.
    - simpl. destruct Hw as [[_ ->] | [_ [call ->]]]; simpl; lia.
    - simpl. apply IH. apply InFlightFacts.step_keeps_lock. exact Hw. }
  apply Hinv. left. split; reflexivity.
Qed.

(** * Further properties *)

(** ** The shape of fingerprints and roots *)

Module DigestFacts.

Lemma length_coords : List.length Keccak.coords = 25%nat.
Proof. reflexivity. Qed.

Lemma length_round : forall s rc, List.length (Keccak.round s rc) = 25%nat.
Proof.
  intros s rc. unfold Keccak.round, Keccak.iota, Keccak.chi.
  destruct (map _ Keccak.coords) as [|a t] eqn:Hm.
  - apply (f_equal (@List.length Z)) in Hm.
    rewrite length_map, length_coords in Hm. discriminate Hm.
  - apply (f_equal (@List.length Z)) in Hm.
    rewrite length_map, length_coords in Hm. simpl in *. exact (eq_sym Hm).
Qed.

(** What every step establishes holds after a non-empty fold. *)
Lemma fold_left_last : forall (A B : Type) (f : A -> B -> A) (P : A -> Prop),
  (forall a b, P (f a b)) ->
  forall (l : list B) (a : A) (b : B), P (fold_left f (b :: l) a).
Proof.
  intros A B f P Hf l. induction l as [|b' l IH]; intros a b.
  - apply Hf.
  - apply (IH (f a b) b').
Qed.

Lemma length_keccak_f : forall s, List.length (Keccak.keccak_f s) = 25%nat.
Proof.
  intros s.
  apply (fold_left_last _ _ Keccak.round
           (fun st => List.length st = 25%nat) length_round).
Qed.

Lemma length_absorb : forall blocks s bs,
  List.length s = 25%nat ->
  List.length (Keccak.absorb blocks s bs) = 25%nat.
Proof.
  induction blocks as [|blocks IH]; intros s bs Hs; simpl.
  - exact Hs.
  - apply IH. apply length_keccak_f.
Qed.

Lemma length_lane_bytes : forall n z,
  List.length (Keccak.lane_bytes n z) = n.
Proof.
  induction n as [|n IH]; intros z; simpl; [reflexivity|].
  rewrite IH. reflexivity.
Qed.

(** A digest is 32 bytes long. *)
Lemma length_keccak256 : forall b, List.length (keccak256 b) = 32%nat.
Proof.
  intros b. unfold keccak256, Keccak.digest.
  pose proof (length_absorb
                (List.length (Keccak.pad b) / Keccak.rate)
                (repeat 0 25) (Keccak.pad b) eq_refl) as Hlen.
  destruct (Keccak.absorb _ _ _) as [|a [|b0 [|c [|d rest]]]];
    simpl in Hlen; try discriminate Hlen.
  cbn [firstn flat_map]. rewrite !length_app, !length_lane_bytes.
  reflexivity.
Qed.

Lemma hexdigit_high : forall x : byte,
  Validation.isHexDigit (Js.hexdigit (Js.byte_to_Z x / 16)) = true.
Proof. intros x. destruct x; reflexivity. Qed.

Lemma hexdigit_low : forall x : byte,
  Validation.isHexDigit (Js.hexdigit (Js.byte_to_Z x mod 16)) = true.
Proof. intros x. destruct x; reflexivity. Qed.

Lemma hexDigits_toHex : forall b,
  Validation.hexDigits (2 * List.length b) (Js.toHex b) = true.
Proof.
  induction b as [|x b IH]; [reflexivity|].
  replace (2 * List.length (x :: b))%nat
    with (S (S (2 * List.length b)))%nat by (simpl; lia).
  cbn [Js.toHex Validation.hexDigits].
  rewrite hexdigit_high, hexdigit_low, IH. reflexivity.
Qed.

(** The text written for 32 bytes has the format of a data hash. *)
Lemma format_hex0x : forall b,
  List.length b = 32%nat ->
  Validation.dataHashFormat (MerkleTreeBuilder.hex0x b) = true.
Proof.
  intros b Hb. unfold MerkleTreeBuilder.hex0x.
  change ("0x" ++ Js.toHex b)%string
    with (String "0" (String "x" (Js.toHex b))).
  cbn [Validation.dataHashFormat].
  pose proof (hexDigits_toHex b) as Hhex. rewrite Hb in Hhex.
  change (2 * 32)%nat with 64%nat in Hhex. rewrite Hhex. reflexivity.
Qed.

(** A text in the format of a data hash decodes to 32 bytes. *)
Lemma length_fromHex : forall n s,
  Validation.hexDigits (2 * n) s = true -> List.length (Js.fromHex s) = n.
Proof.
  induction n as [|n IH]; intros s Hs.
  - destruct s; [reflexivity | discriminate Hs].
  - replace (2 * S n)%nat with (S (S (2 * n)))%nat in Hs by lia.
    destruct s as [|c [|d t]]; try discriminate Hs.
    + simpl in Hs. rewrite andb_false_r in Hs. discriminate Hs.
    + cbn [Validation.hexDigits] in Hs.
      apply andb_prop in Hs. destruct Hs as [Hc Hs].
      apply andb_prop in Hs. destruct Hs as [Hd Hs].
      unfold Validation.isHexDigit in Hc, Hd.
      cbn [Js.fromHex].
      destruct (Js.unhex c); [|discriminate Hc].
      destruct (Js.unhex d); [|discriminate Hd].
      simpl. rewrite (IH t Hs). reflexivity.
Qed.

Lemma length_bufferOf : forall s,
  Validation.dataHashFormat s = true ->
  List.length (MerkleTreeBuilder.bufferOf s) = 32%nat.
Proof.
  intros s Hs. destruct s as [|c [|d t]]; try discriminate Hs.
  cbn [Validation.dataHashFormat] in Hs.
  apply andb_prop in Hs. destruct Hs as [Hcd Ht].
  apply andb_prop in Hcd. destruct Hcd as [Hc Hd].
  apply Ascii.eqb_eq in Hc. apply Ascii.eqb_eq in Hd. subst c d.
  unfold MerkleTreeBuilder.bufferOf.
  replace (Js.replace_0x (String "0" (String "x" t))) with t by reflexivity.
  apply (length_fromHex 32 t Ht).
Qed.

End DigestFacts.

(** X3: every fingerprint, from the webhook route or from the tree builder,
    is [0x] followed by 64 hexadecimal digits, the format the verify
    parameters ask for. *)
Theorem fingerprint_has_hash_format :
  forall (N : Type) (num : Js.Number N) (payload : SensorDataPayload.t N)
         (data : ProcessedSensorData.t N),
    Validation.dataHashFormat (Webhook.createDataHash payload) = true
    /\ Validation.dataHashFormat (MerkleTreeBuilder.createDataHash data)
       = true.
Proof.
  intros N num payload data. split.
  - apply (DigestFacts.format_hex0x (keccak256_string _)).
    apply DigestFacts.length_keccak256.
  - apply DigestFacts.format_hex0x. apply DigestFacts.length_keccak256.
Qed.

(** ** More on the tree of a batch *)

Module TreeFacts.

Lemma length_parent : forall opts a b,
  List.length (MerkleTreeJs.parent keccak256 opts a b) = 32%nat.
Proof.
  intros opts a b. unfold MerkleTreeJs.parent.
  destruct (MerkleTreeJs.sortPairs opts && (0 <? Js.Buffer_compare a b));
    apply DigestFacts.length_keccak256.
Qed.

(** The last layer of a tree with two leaves or more, or with one leaf of
    32 bytes, is one node of 32 bytes. *)
Lemma top_is_digest : forall opts fuel (nodes : list Js.Buffer),
  (List.length nodes <= fuel)%nat ->
  (2 <= List.length nodes)%nat
  \/ (exists x : Js.Buffer, nodes = [x] /\ List.length x = 32%nat) ->
  exists top,
    last (MerkleTreeJs.createHashes keccak256 fuel opts nodes) [] = [top]
    /\ List.length top = 32%nat.
Proof.
  intros opts fuel. induction fuel as [|fuel IH]; intros nodes Hlen Hshape.
  - destruct Hshape as [Hmany | [x [-> _]]]; simpl in *; lia.
  - cbn [MerkleTreeJs.createHashes].
    destruct Hshape as [Hmany | [x [-> Hx]]].
    + destruct (Nat.ltb_spec 1 (List.length nodes)) as [Hmany'|Hone]; [|lia].
      destruct (LayerFacts.createHashes_cons keccak256 opts fuel
                  (MerkleTreeJs.nextLayer keccak256 opts nodes))
        as [rest Hrest].
      rewrite LayerFacts.last_cons
        by (rewrite Hrest; intros Hnil; discriminate Hnil).
      apply IH.
      * pose proof (LayerFacts.nextLayer_length keccak256 opts nodes). lia.
      * destruct nodes as [|a [|b [|c nodes]]]; simpl in Hmany; try lia.
        -- right. exists (MerkleTreeJs.parent keccak256 opts a b).
           split; [reflexivity | apply length_parent].
        -- left. destruct nodes as [|d nodes]; simpl; lia.
    + simpl. exists x. split; [reflexivity | exact Hx].
Qed.

(** The proof of a node in a layer of at most [2^k] nodes has at most [k]
    elements. *)
Lemma proof_length : forall opts k fuel (nodes : list Js.Buffer) index,
  (List.length nodes <= fuel)%nat ->
  (List.length nodes <= 2 ^ k)%nat ->
  (index < List.length nodes)%nat ->
  (List.length (MerkleTreeJs.proofFrom
                  (MerkleTreeJs.createHashes keccak256 fuel opts nodes)
                  index) <= k)%nat.
Proof.
  intros opts k. induction k as [|k IH]; intros fuel nodes index Hfuel Hk Hi.
  - simpl in Hk. destruct nodes as [|x [|y nodes]]; simpl in *; try lia.
    destruct index as [|index]; [|lia].
    destruct fuel; simpl; lia.
  - destruct fuel as [|fuel]; [lia|].
    cbn [MerkleTreeJs.createHashes MerkleTreeJs.proofFrom].
    destruct (Nat.ltb_spec 1 (List.length nodes)) as [Hmany|Hone].
    + assert (Hrest :
                (List.length
                   (MerkleTreeJs.proofFrom
                      (MerkleTreeJs.createHashes keccak256 fuel opts
                         (MerkleTreeJs.nextLayer keccak256 opts nodes))
                      (index / 2)) <= k)%nat).
      { pose proof (LayerFacts.nextLayer_length keccak256 opts nodes) as Hl.
        assert (Hnth : exists h, nth_error nodes index = Some h).
        { destruct (nth_error nodes index) eqn:Hn; [eexists; reflexivity|].
          apply nth_error_None in Hn. lia. }
        apply IH.
        - lia.
        - rewrite Nat.pow_succ_r' in Hk. lia.
        - assert (Hdiv : (2 * (index / 2) <= index)%nat)
            by (apply Nat.Div0.mul_div_le).
          assert (Hlen2 : (List.length nodes
                           <= 2 * List.length
                                  (MerkleTreeJs.nextLayer keccak256 opts nodes))%nat).
          { clear. induction nodes as [| a | a b rest IHn]
              using LayerFacts.pair_induction; simpl in *; lia. }
          lia. }
      destruct (nth_error nodes
                  (if Nat.odd index then (index - 1)%nat else (index + 1)%nat));
        cbn [List.length]; lia.
    + destruct nodes as [|x [|y nodes]]; simpl in *; try lia.
      destruct index as [|index]; [|lia]. simpl. lia.
Qed.

End TreeFacts.

(** X4: the root of a batch of two readings or more is [0x] followed by 64
    hexadecimal digits, whatever the fingerprints of the readings look
    like: it has the format of a data hash and decodes to 32 bytes. *)
Theorem root_has_hash_format :
  forall (N : Type) (num : Js.Number N)
         (data : list (ProcessedSensorData.t N)),
    (2 <= List.length data)%nat ->
    exists built : MerkleTreeBuilder.BuildResult,
      MerkleTreeBuilder.buildTree data = Js.Ret built
      /\ Validation.dataHashFormat (MerkleTreeBuilder.root built) = true
      /\ List.length (MerkleTreeBuilder.bufferOf
                        (MerkleTreeBuilder.root built)) = 32%nat.
Proof.
  intros N num data Hlen. eexists. split; [reflexivity|].
  cbn [MerkleTreeBuilder.root].
  assert (Hroot : List.length
                    (MerkleTreeJs.getRoot
                       (MerkleTreeJs.new keccak256
                          (map MerkleTreeBuilder.leafOf data)
                          MerkleTreeBuilder.build_options)) = 32%nat).
  { unfold MerkleTreeJs.getRoot, MerkleTreeJs.new.
    change (MerkleTreeJs.hashLeaves MerkleTreeBuilder.build_options)
      with false.
    cbn [MerkleTreeJs.layers].
    destruct (TreeFacts.top_is_digest
                MerkleTreeBuilder.build_options
                (List.length (map MerkleTreeBuilder.leafOf data))
                (map MerkleTreeBuilder.leafOf data) (Nat.le_refl _))
      as [top [Htop Hlen32]].
    - left. rewrite length_map. exact Hlen.
    - rewrite Htop. exact Hlen32. }
  split.
  - apply DigestFacts.format_hex0x. exact Hroot.
  - rewrite MerkleFacts.bufferOf_hex0x. exact Hroot.
Qed.

(** A batch of the two sample readings. *)
Lemma root_has_hash_format_witness :
  (2 <= List.length [Samples.reading1; Samples.reading2])%nat
  /\ exists built : MerkleTreeBuilder.BuildResult,
       MerkleTreeBuilder.buildTree [Samples.reading1; Samples.reading2]
       = Js.Ret built
       /\ Validation.dataHashFormat (MerkleTreeBuilder.root built) = true
       /\ List.length (MerkleTreeBuilder.bufferOf
                         (MerkleTreeBuilder.root built)) = 32%nat.
Proof.
  assert (Hlen : (2 <= List.length [Samples.reading1; Samples.reading2])%nat)
    by (simpl; lia).
  split; [exact Hlen|].
  apply (root_has_hash_format Z Js.Number_Z
           [Samples.reading1; Samples.reading2] Hlen).
Defined.

(** X5: a batch of one reading: the root is the fingerprint of the reading
    written back as text, the proof of the reading is empty, and
    [verifyProof] accepts it. *)
Theorem single_reading_batch :
  forall (N : Type) (num : Js.Number N) (item : ProcessedSensorData.t N),
    MerkleTreeBuilder.buildTree [item]
    = Js.Ret
        (MerkleTreeBuilder.mkResult
           (MerkleTreeBuilder.hex0x (MerkleTreeBuilder.leafOf item))
           (MerkleTreeJs.mkTree MerkleTreeBuilder.build_options
              [MerkleTreeBuilder.leafOf item]
              [[MerkleTreeBuilder.leafOf item]])
           [MerkleTreeBuilder.leafOf item]
           [(Js.or_else (ProcessedSensorData.dataHash item)
               (MerkleTreeBuilder.hex0x (MerkleTreeBuilder.leafOf item)),
             [])])
    /\ RoundTrip.local [item]
         (Js.or_else (ProcessedSensorData.dataHash item)
            (MerkleTreeBuilder.hex0x (MerkleTreeBuilder.leafOf item)))
       = Js.Ret (Some true).
Proof.
  intros N num item.
  assert (Hbuild :
            MerkleTreeBuilder.buildTree [item]
            = Js.Ret
                (MerkleTreeBuilder.mkResult
                   (MerkleTreeBuilder.hex0x (MerkleTreeBuilder.leafOf item))
                   (MerkleTreeJs.mkTree MerkleTreeBuilder.build_options
                      [MerkleTreeBuilder.leafOf item]
                      [[MerkleTreeBuilder.leafOf item]])
                   [MerkleTreeBuilder.leafOf item]
                   [(Js.or_else (ProcessedSensorData.dataHash item)
                       (MerkleTreeBuilder.hex0x
                          (MerkleTreeBuilder.leafOf item)),
                     [])])).
  { unfold MerkleTreeBuilder.buildTree.
    cbn [map combine fold_left MerkleTreeBuilder.addProof].
    unfold MerkleTreeJs.getProof, MerkleTreeJs.new.
    cbn [MerkleTreeBuilder.build_options MerkleTreeJs.hashLeaves
         MerkleTreeJs.leaves MerkleTreeJs.layers List.length
         MerkleTreeJs.createHashes Nat.ltb Nat.leb MerkleTreeJs.lastIndex].
    rewrite BufferFacts.compare_refl. reflexivity. }
  split; [exact Hbuild|].
  unfold RoundTrip.local. rewrite Hbuild.
  cbn [Js.bind MerkleTreeBuilder.proofs MerkleTreeBuilder.root JsMap.get].
  rewrite String.eqb_refl. cbn [option_map]. do 2 f_equal.
  unfold MerkleTreeBuilder.verifyProof, MerkleTreeJs.verify.
  cbn [map MerkleTreeBuilder.proofObjects fold_left].
  apply BufferFacts.compare_eqb.
  rewrite MerkleFacts.bufferOf_key, MerkleFacts.bufferOf_hex0x. reflexivity.
Qed.

(** X6: a batch of at most [2^k] readings stores, for each of its
    readings, a proof of at most [k] elements. *)
Theorem proof_length_bound :
  forall (N : Type) (num : Js.Number N)
         (data : list (ProcessedSensorData.t N))
         (item : ProcessedSensorData.t N) (k : nat),
    In item data ->
    (List.length data <= 2 ^ k)%nat ->
    exists (built : MerkleTreeBuilder.BuildResult) (proof : list string),
      MerkleTreeBuilder.buildTree data = Js.Ret built
      /\ JsMap.get (MerkleTreeBuilder.proofs built)
           (Js.or_else (ProcessedSensorData.dataHash item)
              (MerkleTreeBuilder.hex0x (MerkleTreeBuilder.leafOf item)))
         = Some proof
      /\ (List.length proof <= k)%nat.
Proof.
  intros N num data item k Hin Hk.
  eexists. eexists. split; [reflexivity|].
  cbn [MerkleTreeBuilder.proofs].
  split.
  - apply MerkleFacts.proofs_get. left.
    apply (in_map (fun it =>
                     Js.or_else (ProcessedSensorData.dataHash it)
                       (MerkleTreeBuilder.hex0x (MerkleTreeBuilder.leafOf it)))
                  data item Hin).
  - rewrite length_map, MerkleFacts.bufferOf_key.
    unfold MerkleTreeJs.getProof, MerkleTreeJs.new.
    cbn [MerkleTreeBuilder.build_options MerkleTreeJs.hashLeaves
         MerkleTreeJs.leaves MerkleTreeJs.layers].
    destruct (MerkleTreeJs.lastIndex (MerkleTreeBuilder.leafOf item)
                (map MerkleTreeBuilder.leafOf data) 0 None) as [j|] eqn:Hj;
      [|simpl; lia].
    destruct (MerkleFacts.lastIndex_nth _ _ _ _ _ Hj) as [Hnone|[_ Hnth]];
      [discriminate Hnone|].
    rewrite Nat.sub_0_r in Hnth.
    apply TreeFacts.proof_length.
    + apply Nat.le_refl.
    + rewrite length_map. exact Hk.
    + apply nth_error_Some. rewrite Hnth. discriminate.
Qed.

(** A batch of the two sample readings: each proof has one element. *)
Lemma proof_length_bound_witness :
  (In Samples.reading2 [Samples.reading1; Samples.reading2]
   /\ (List.length [Samples.reading1; Samples.reading2] <= 2 ^ 1)%nat)
  /\ exists (built : MerkleTreeBuilder.BuildResult) (proof : list string),
       MerkleTreeBuilder.buildTree [Samples.reading1; Samples.reading2]
       = Js.Ret built
       /\ JsMap.get (MerkleTreeBuilder.proofs built)
            (Js.or_else (ProcessedSensorData.dataHash Samples.reading2)
               (MerkleTreeBuilder.hex0x
                  (MerkleTreeBuilder.leafOf Samples.reading2)))
          = Some proof
       /\ (List.length proof <= 1)%nat.
Proof.
  assert (Hin : In Samples.reading2 [Samples.reading1; Samples.reading2])
    by (right; left; reflexivity).
  assert (Hlen : (List.length [Samples.reading1; Samples.reading2]
                  <= 2 ^ 1)%nat) by (simpl; lia).
  split; [split; [exact Hin | exact Hlen]|].
  apply (proof_length_bound Z Js.Number_Z
           [Samples.reading1; Samples.reading2] Samples.reading2 1 Hin Hlen).
Defined.

(** The contract accepts the stored proof of the second sample reading. *)
Lemma contract_accepts_built_proofs_witness :
  In Samples.reading2 [Samples.reading1; Samples.reading2]
  /\ RoundTrip.onChain [Samples.reading1; Samples.reading2]
       (Js.or_else (ProcessedSensorData.dataHash Samples.reading2)
          (MerkleTreeBuilder.hex0x
             (MerkleTreeBuilder.leafOf Samples.reading2)))
     = Js.Ret (Some true).
Proof.
  assert (Hin : In Samples.reading2 [Samples.reading1; Samples.reading2])
    by (right; left; reflexivity).
  split; [exact Hin|].
  apply (contract_accepts_built_proofs Z Js.Number_Z
           [Samples.reading1; Samples.reading2] Samples.reading2 Hin).
Defined.

Module HexFacts.

Lemma hexDigits_no_prefix : forall n s,
  Validation.hexDigits n s = true -> Js.replace_0x s = s.
Proof.
  induction n as [|n IH]; intros s Hs.
  - destruct s; [reflexivity | discriminate Hs].
  - destruct s as [|c t]; [discriminate Hs|].
    cbn [Validation.hexDigits] in Hs.
    apply andb_prop in Hs. destruct Hs as [Hc Ht].
    destruct t as [|d t']; [reflexivity|].
    assert (Hd : Validation.isHexDigit d = true).
    { destruct n; [discriminate Ht|].
      cbn [Validation.hexDigits] in Ht. apply andb_prop in Ht. apply Ht. }
    change (Js.replace_0x (String c (String d t')))
      with (if (c =? "0")%char && (d =? "x")%char then t'
            else String c (Js.replace_0x (String d t'))).
    destruct ((c =? "0")%char && (d =? "x")%char) eqn:Hcd.
    + apply andb_prop in Hcd. destruct Hcd as [_ Hx].
      apply Ascii.eqb_eq in Hx. subst d. discriminate Hd.
    + rewrite (IH _ Ht). reflexivity.
Qed.

End HexFacts.

(** X7: the text the builder writes for a buffer, [0x] and two lowercase
    hexadecimal digits per byte, is decoded back to the buffer by the
    decoding of [buildTree] and [verifyProof]; so is the text without the
    prefix. *)
Theorem hex_text_round_trip :
  forall b : Js.Buffer,
    MerkleTreeBuilder.bufferOf (MerkleTreeBuilder.hex0x b) = b
    /\ MerkleTreeBuilder.bufferOf (Js.toHex b) = b.
Proof.
  intros b. split.
  - apply MerkleFacts.bufferOf_hex0x.
  - unfold MerkleTreeBuilder.bufferOf.
    rewrite (HexFacts.hexDigits_no_prefix _ _ (DigestFacts.hexDigits_toHex b)).
    apply MerkleFacts.fromHex_toHex.
Qed.

(** ** More on the registry *)

Module LatestFacts.
Section Facts.
Context {A : Type} (key : A -> Z).

(** The head of an array sorted from the largest key to the smallest. *)
Lemma hd_sort_cons : forall (x : A) (l : list A),
  hd_error (Js.sort (fun a b => key b - key a) (x :: l))
  = Some match hd_error (Js.sort (fun a b => key b - key a) l) with
         | None => x
         | Some y => if key x <? key y then y else x
         end.
Proof.
  intros x l. cbn [Js.sort fold_right].
  fold (Js.sort (fun a b => key b - key a) l).
  destruct (Js.sort (fun a b => key b - key a) l) as [|y s]; [reflexivity|].
  cbn [Js.sort_insert hd_error].
  destruct (Z.ltb_spec 0 (key y - key x));
    destruct (Z.ltb_spec (key x) (key y)); try lia; reflexivity.
Qed.

(** The loop that keeps the entry with the largest key, the first one among
    equals, ends on the head of the sorted array. *)
Lemma fold_latest : forall (l : list A) (a : A),
  fold_left
    (fun latest entry =>
       match latest with
       | None => Some entry
       | Some cur => if key cur <? key entry then Some entry else latest
       end) l (Some a)
  = Some match hd_error (Js.sort (fun a b => key b - key a) l) with
         | None => a
         | Some y => if key a <? key y then y else a
         end.
Proof.
  induction l as [|x l IH]; intros a; [reflexivity|].
  cbn [fold_left]. rewrite hd_sort_cons.
  destruct (Z.ltb_spec (key a) (key x)) as [Hax|Hax]; rewrite IH;
    destruct (hd_error (Js.sort (fun a b => key b - key a) l)) as [y|];
    repeat match goal with
           | |- context [?u <? ?v] =>
               lazymatch u with
               | context [if _ then _ else _] => fail
               | _ =>
                   lazymatch v with
                   | context [if _ then _ else _] => fail
                   | _ => destruct (Z.ltb_spec u v)
                   end
               end
           end; try lia; reflexivity.
Qed.
End Facts.
End LatestFacts.

(** X8: [getLatestBatch] returns nothing exactly when the registry is
    empty; otherwise it returns a stored entry whose creation time no entry
    exceeds, the one [listBatches] puts first. *)
Theorem latest_batch_is_newest :
  forall (N : Type) (db : TimeSeriesDB.t N),
    TimeSeriesDB.getLatestBatch db
    = hd_error (TimeSeriesDB.listBatches db 1 0)
    /\ match TimeSeriesDB.getLatestBatch db with
       | None => JsMap.values (TimeSeriesDB.batches db) = []
       | Some latest =>
           In latest (JsMap.values (TimeSeriesDB.batches db))
           /\ Forall (fun entry =>
                        BatchRegistryEntry.createdAt entry
                        <= BatchRegistryEntry.createdAt latest)
                     (JsMap.values (TimeSeriesDB.batches db))
       end.
Proof.
  intros N db.
  assert (Hhead : TimeSeriesDB.getLatestBatch db
                  = hd_error
                      (Js.sort (fun a b => BatchRegistryEntry.createdAt b
                                           - BatchRegistryEntry.createdAt a)
                               (JsMap.values (TimeSeriesDB.batches db)))).
  { unfold TimeSeriesDB.getLatestBatch.
    destruct (JsMap.values (TimeSeriesDB.batches db)) as [|a l];
      [reflexivity|].
    cbn [fold_left].
    rewrite (LatestFacts.fold_latest BatchRegistryEntry.createdAt l a).
    rewrite (LatestFacts.hd_sort_cons BatchRegistryEntry.createdAt a l).
    reflexivity. }
  assert (Hlist : hd_error (TimeSeriesDB.listBatches db 1 0)
                  = hd_error
                      (Js.sort (fun a b => BatchRegistryEntry.createdAt b
                                           - BatchRegistryEntry.createdAt a)
                               (JsMap.values (TimeSeriesDB.batches db)))).
  { unfold TimeSeriesDB.listBatches.
    rewrite (SliceFacts.slice_nonneg _ 0 1) by lia.
    destruct (Js.sort _ _); reflexivity. }
  split; [rewrite Hhead, Hlist; reflexivity|].
  rewrite Hhead.
  pose proof (SortFacts.sort_perm
                (fun a b => BatchRegistryEntry.createdAt b
                            - BatchRegistryEntry.createdAt a)
                (JsMap.values (TimeSeriesDB.batches db))) as Hperm.
  pose proof (SortFacts.sort_sorted
                (fun a b : BatchRegistryEntry.t =>
                   BatchRegistryEntry.createdAt b
                   - BatchRegistryEntry.createdAt a)
                ltac:(intros; lia) ltac:(intros; lia)
                (JsMap.values (TimeSeriesDB.batches db))) as Hsorted.
  destruct (Js.sort _ (JsMap.values (TimeSeriesDB.batches db)))
    as [|latest rest] eqn:Hs; cbn [hd_error].
  - apply Permutation_nil. exact Hperm.
  - split.
    + apply (Permutation_in _ Hperm). left. reflexivity.
    + apply (Permutation_Forall Hperm).
      inversion Hsorted as [|? ? _ Hall]; subst.
      constructor; [lia|].
      apply Forall_impl with (2 := Hall). intros e He. lia.
Qed.

(** X9: with a non-negative offset and non-negative limits, a page of
    [listBatches] has at most [limit] entries, and a page followed by the
    next page is the page of both limits together. *)
Theorem listBatches_pages :
  forall (N : Type) (db : TimeSeriesDB.t N) (limit limit' offset : Z),
    0 <= offset -> 0 <= limit -> 0 <= limit' ->
    (TimeSeriesDB.listBatches db limit offset
     ++ TimeSeriesDB.listBatches db limit' (offset + limit))%list
    = TimeSeriesDB.listBatches db (limit + limit') offset
    /\ Z.of_nat (List.length (TimeSeriesDB.listBatches db limit offset))
       <= limit.
Proof.
  intros N db limit limit' offset Ho Hl Hl'.
  unfold TimeSeriesDB.listBatches.
  rewrite !SliceFacts.slice_nonneg by lia.
  split.
  - replace (Z.to_nat (offset + limit))
      with (Z.to_nat limit + Z.to_nat offset)%nat by lia.
    rewrite <- skipn_skipn, SliceFacts.firstn_add.
    f_equal. lia.
  - pose proof (firstn_le_length (Z.to_nat limit)
                  (skipn (Z.to_nat offset)
                     (Js.sort (fun a b => BatchRegistryEntry.createdAt b
                                          - BatchRegistryEntry.createdAt a)
                        (JsMap.values (TimeSeriesDB.batches db))))).
    lia.
Qed.

(** Two pages of one entry each over the sample registry. *)
Lemma listBatches_pages_witness :
  (0 <= 0 /\ 0 <= 1 /\ 0 <= 1)
  /\ (TimeSeriesDB.listBatches Samples.registryA 1 0
      ++ TimeSeriesDB.listBatches Samples.registryA 1 (0 + 1))%list
     = TimeSeriesDB.listBatches Samples.registryA (1 + 1) 0.
Proof.
  split; [lia|].
  apply (listBatches_pages Z Samples.registryA 1 1 0); lia.
Defined.

Module MapOrderFacts.
Section Facts.
Context {V : Type}.

(** A new key goes last. *)
Lemma set_fresh : forall (m : JsMap.t V) k v,
  ~ In k (map fst m) -> JsMap.set m k v = (m ++ [(k, v)])%list.
Proof.
  induction m as [|[k0 v0] m IH]; intros k v Hk; [reflexivity|].
  cbn [JsMap.set].
  destruct (String.eqb_spec k0 k) as [->|Hne].
  - exfalso. apply Hk. left. reflexivity.
  - cbn [app]. f_equal. apply IH. intros Hin. apply Hk. right. exact Hin.
Qed.

(** Writing a value twice is writing it once. *)
Lemma set_twice : forall (m : JsMap.t V) k v,
  JsMap.set (JsMap.set m k v) k v = JsMap.set m k v.
Proof.
  induction m as [|[k0 v0] m IH]; intros k v; cbn [JsMap.set].
  - rewrite String.eqb_refl. reflexivity.
  - destruct (String.eqb_spec k0 k) as [->|Hne]; cbn [JsMap.set].
    + rewrite String.eqb_refl. reflexivity.
    + destruct (String.eqb_spec k0 k); [contradiction|].
      f_equal. apply IH.
Qed.

(** [set] keeps the keys of the map and their order, or adds one key. *)
Lemma keys_set : forall (m : JsMap.t V) k v,
  map fst (JsMap.set m k v)
  = if existsb (fun k' => (k' =? k)%string) (map fst m)
    then map fst m else (map fst m ++ [k])%list.
Proof.
  induction m as [|[k0 v0] m IH]; intros k v; [reflexivity|].
  cbn [JsMap.set map fst existsb].
  destruct (String.eqb_spec k0 k) as [->|Hne]; [reflexivity|].
  cbn [map fst orb]. rewrite IH.
  destruct (existsb _ (map fst m)); reflexivity.
Qed.
End Facts.
End MapOrderFacts.

Module CountFacts.
Section Facts.
Context {N : Type}.

(** The counter agrees with what is stored and the three maps hold the keys
    of the entries. *)
Lemma saves_count :
  forall (saves : list (BatchRegistryEntry.t * list (ProcessedSensorData.t N)
                        * option (JsMap.t (list string))))
         (db : TimeSeriesDB.t N),
    NoDup (map fst (TimeSeriesDB.batches db)
           ++ map (fun s => BatchRegistryEntry.batchId (fst (fst s))) saves) ->
    map fst (TimeSeriesDB.batchData db) = map fst (TimeSeriesDB.batches db) ->
    TimeSeriesDB.getTotalDataPoints db
    = Z.of_nat (List.length
                  (List.concat (JsMap.values (TimeSeriesDB.batchData db)))) ->
    let db' := fold_left
                 (fun d s => TimeSeriesDB.saveBatch d (fst (fst s))
                                                    (snd (fst s)) (snd s))
                 saves db in
    TimeSeriesDB.getTotalDataPoints db'
    = Z.of_nat (List.length
                  (List.concat (JsMap.values (TimeSeriesDB.batchData db'))))
    /\ TimeSeriesDB.getBatchCount db'
       = TimeSeriesDB.getBatchCount db + Z.of_nat (List.length saves).
Proof.
  induction saves as [|[[entry data] prfs] saves IH];
    intros db Hnodup Hkeys Htotal; cbv zeta.
  - cbn [fold_left List.length]. split; [exact Htotal | lia].
  - cbn [fold_left fst snd].
    assert (Hfresh : ~ In (BatchRegistryEntry.batchId entry)
                          (map fst (TimeSeriesDB.batches db))).
    { intros Hin. cbn [map fst] in Hnodup.
      apply NoDup_remove_2 in Hnodup. apply Hnodup.
      apply in_or_app. left. exact Hin. }
    assert (Hfresh' : ~ In (BatchRegistryEntry.batchId entry)
                           (map fst (TimeSeriesDB.batchData db)))
      by (rewrite Hkeys; exact Hfresh).
    assert (Hb : TimeSeriesDB.batches
                   (TimeSeriesDB.saveBatch db entry data prfs)
                 = (TimeSeriesDB.batches db
                    ++ [(BatchRegistryEntry.batchId entry, entry)])%list)
      by (apply MapOrderFacts.set_fresh; exact Hfresh).
    assert (Hd : TimeSeriesDB.batchData
                   (TimeSeriesDB.saveBatch db entry data prfs)
                 = (TimeSeriesDB.batchData db
                    ++ [(BatchRegistryEntry.batchId entry, data)])%list)
      by (apply MapOrderFacts.set_fresh; exact Hfresh').
    assert (Ht : TimeSeriesDB.getTotalDataPoints
                   (TimeSeriesDB.saveBatch db entry data prfs)
                 = TimeSeriesDB.getTotalDataPoints db
                   + Z.of_nat (List.length data)) by reflexivity.
    assert (Hc : TimeSeriesDB.getBatchCount
                   (TimeSeriesDB.saveBatch db entry data prfs)
                 = TimeSeriesDB.getBatchCount db + 1).
    { unfold TimeSeriesDB.getBatchCount, JsMap.size.
      rewrite Hb, length_app. cbn [List.length]. lia. }
    destruct (IH (TimeSeriesDB.saveBatch db entry data prfs)) as [IH1 IH2].
    + rewrite Hb, map_app. cbn [map fst]. rewrite <- app_assoc.
      exact Hnodup.
    + rewrite Hb, Hd, !map_app. cbn [map fst]. rewrite Hkeys. reflexivity.
    + rewrite Ht, Hd, Htotal. unfold JsMap.values.
      rewrite map_app, concat_app, !length_app.
      cbn [map snd List.concat]. rewrite app_nil_r. lia.
    + split; [exact IH1|]. rewrite IH2, Hc. cbn [List.length]. lia.
Qed.
End Facts.
End CountFacts.

(** X10: as long as every batch id is saved once, the counter of data
    points is the number of readings stored and the number of batches is
    the number of saves; saving a batch a second time leaves the stored
    readings as they are and counts them once more. *)
Theorem totalDataPoints_counts_saves :
  forall (N : Type)
         (saves : list (BatchRegistryEntry.t * list (ProcessedSensorData.t N)
                        * option (JsMap.t (list string)))),
    NoDup (map (fun s => BatchRegistryEntry.batchId (fst (fst s))) saves) ->
    let db := fold_left
                (fun d s => TimeSeriesDB.saveBatch d (fst (fst s))
                                                   (snd (fst s)) (snd s))
                saves TimeSeriesDB.init in
    (TimeSeriesDB.getTotalDataPoints db
     = Z.of_nat (List.length
                   (List.concat (JsMap.values (TimeSeriesDB.batchData db))))
     /\ TimeSeriesDB.getBatchCount db = Z.of_nat (List.length saves))
    /\ forall entry data prfs,
         let db1 := TimeSeriesDB.saveBatch db entry data prfs in
         let db2 := TimeSeriesDB.saveBatch db1 entry data prfs in
         JsMap.values (TimeSeriesDB.batchData db2)
         = JsMap.values (TimeSeriesDB.batchData db1)
         /\ TimeSeriesDB.getBatchCount db2 = TimeSeriesDB.getBatchCount db1
         /\ TimeSeriesDB.getTotalDataPoints db2
            = TimeSeriesDB.getTotalDataPoints db1
              + Z.of_nat (List.length data).
Proof.
  intros N saves Hnodup. cbv zeta. split.
  - apply (CountFacts.saves_count saves TimeSeriesDB.init).
    + exact Hnodup.
    + reflexivity.
    + reflexivity.
  - intros entry data prfs.
    unfold TimeSeriesDB.saveBatch, TimeSeriesDB.getBatchCount,
      TimeSeriesDB.getTotalDataPoints.
    cbn [TimeSeriesDB.batches TimeSeriesDB.batchData
         TimeSeriesDB.totalDataPoints BatchRegistryEntry.batchId].
    rewrite !MapOrderFacts.set_twice. repeat split.
Qed.

(** Two saves of different batches on an empty registry. *)
Lemma totalDataPoints_counts_saves_witness :
  NoDup (map (fun s : BatchRegistryEntry.t * list (ProcessedSensorData.t Z)
                      * option (JsMap.t (list string)) =>
                BatchRegistryEntry.batchId (fst (fst s)))
             [(Samples.entryA, [Samples.reading1], None);
              (RegistrySamples.entryB, [Samples.reading2], None)])
  /\ TimeSeriesDB.getTotalDataPoints RegistrySamples.registryAB = 2
  /\ TimeSeriesDB.getBatchCount RegistrySamples.registryAB = 2.
Proof.
  assert (Hnodup :
            NoDup (map (fun s : BatchRegistryEntry.t
                                * list (ProcessedSensorData.t Z)
                                * option (JsMap.t (list string)) =>
                          BatchRegistryEntry.batchId (fst (fst s)))
                       [(Samples.entryA, [Samples.reading1], None);
                        (RegistrySamples.entryB, [Samples.reading2],
                         None)])).
  { constructor;
      [intros [Heq|[]]; discriminate Heq
      | constructor; [intros [] | constructor]]. }
  split; [exact Hnodup|].
  destruct (totalDataPoints_counts_saves
              Z [(Samples.entryA, [Samples.reading1], None);
                 (RegistrySamples.entryB, [Samples.reading2], None)]
              Hnodup)
    as [[Htotal Hcount] _].
  split; [exact Htotal | exact Hcount].
Defined.

(** X11: what [saveBatch] stores under a batch id is what [getBatch],
    [getBatchData] and [getProof] return for that id, and other ids are
    answered as before; a save without proofs keeps the proofs stored
    earlier; an id never saved has no entry, no readings and no proof. *)
Theorem saveBatch_lookup :
  forall (N : Type) (db : TimeSeriesDB.t N) (entry : BatchRegistryEntry.t)
         (data : list (ProcessedSensorData.t N))
         (prfs : option (JsMap.t (list string)))
         (batchId dataHash : string),
    let db' := TimeSeriesDB.saveBatch db entry data prfs in
    TimeSeriesDB.getBatch db' batchId
    = (if (BatchRegistryEntry.batchId entry =? batchId)%string
       then Some entry else TimeSeriesDB.getBatch db batchId)
    /\ TimeSeriesDB.getBatchData db' batchId
       = (if (BatchRegistryEntry.batchId entry =? batchId)%string
          then Some data else TimeSeriesDB.getBatchData db batchId)
    /\ TimeSeriesDB.getProof db' batchId dataHash
       = match prfs with
         | Some stored =>
             if (BatchRegistryEntry.batchId entry =? batchId)%string
             then JsMap.get stored dataHash
             else TimeSeriesDB.getProof db batchId dataHash
         | None => TimeSeriesDB.getProof db batchId dataHash
         end
    /\ TimeSeriesDB.getBatch (@TimeSeriesDB.init N) batchId = None
    /\ TimeSeriesDB.getBatchData (@TimeSeriesDB.init N) batchId = None
    /\ TimeSeriesDB.getProof (@TimeSeriesDB.init N) batchId dataHash = None.
Proof.
  intros N db entry data prfs batchId dataHash. cbv zeta.
  unfold TimeSeriesDB.getBatch, TimeSeriesDB.getBatchData,
    TimeSeriesDB.getProof, TimeSeriesDB.saveBatch.
  cbn [TimeSeriesDB.batches TimeSeriesDB.batchData TimeSeriesDB.proofs].
  rewrite !JsMapFacts.get_set.
  repeat split.
  destruct prfs as [stored|]; [|reflexivity].
  rewrite JsMapFacts.get_set.
  destruct (BatchRegistryEntry.batchId entry =? batchId)%string; reflexivity.
Qed.

Module FrameFacts.
Section Facts.
Context {A : Type} (key : A -> Z) (R : A -> A -> Prop).
Hypothesis R_key : forall a b, R a b -> key a = key b.

Lemma sort_insert_related : forall x x' l l',
  R x x' -> Forall2 R l l' ->
  Forall2 R (Js.sort_insert (fun a b => key b - key a) x l)
            (Js.sort_insert (fun a b => key b - key a) x' l').
Proof.
  intros x x' l l' Hx Hl. induction Hl as [|y y' l l' Hy Hl IH].
  - constructor; [exact Hx | constructor].
  - cbn [Js.sort_insert].
    rewrite (R_key _ _ Hx), (R_key _ _ Hy).
    destruct (0 <? key y' - key x').
    + constructor; [exact Hy | exact IH].
    + constructor; [exact Hx|]. constructor; [exact Hy | exact Hl].
Qed.

Lemma sort_related : forall l l',
  Forall2 R l l' ->
  Forall2 R (Js.sort (fun a b => key b - key a) l)
            (Js.sort (fun a b => key b - key a) l').
Proof.
  intros l l' Hl. induction Hl as [|x x' l l' Hx Hl IH].
  - constructor.
  - cbn [Js.sort fold_right]. apply sort_insert_related; assumption.
Qed.

Lemma skipn_related : forall n l l',
  Forall2 R l l' -> Forall2 R (skipn n l) (skipn n l').
Proof.
  induction n as [|n IH]; intros l l' Hl; [exact Hl|].
  destruct Hl; [constructor|]. simpl. apply IH. assumption.
Qed.

Lemma firstn_related : forall n l l',
  Forall2 R l l' -> Forall2 R (firstn n l) (firstn n l').
Proof.
  induction n as [|n IH]; intros l l' Hl; [constructor|].
  destruct Hl; [constructor|]. simpl. constructor; [assumption|].
  apply IH. assumption.
Qed.

Lemma slice_related : forall l l' a b,
  Forall2 R l l' -> Forall2 R (Js.slice l a b) (Js.slice l' a b).
Proof.
  intros l l' a b Hl. unfold Js.slice.
  rewrite (Forall2_length Hl).
  apply firstn_related, skipn_related, Hl.
Qed.
End Facts.

(** Replacing the value of a key relates the values pointwise. *)
Lemma values_set_related :
  forall (V : Type) (R : V -> V -> Prop) (m : JsMap.t V) k v v',
    (forall x, R x x) ->
    JsMap.get m k = Some v -> R v v' ->
    Forall2 R (JsMap.values m) (JsMap.values (JsMap.set m k v')).
Proof.
  intros V R m k v v' Hrefl.
  assert (Hself : forall l : list V, Forall2 R l l)
    by (induction l; constructor; auto).
  induction m as [|[k0 v0] m IH]; intros Hget Hv.
  - discriminate Hget.
  - cbn [JsMap.get] in Hget. cbn [JsMap.set].
    destruct (k0 =? k)%string.
    + injection Hget as ->. unfold JsMap.values. cbn [map snd].
      constructor; [exact Hv | apply Hself].
    + unfold JsMap.values. cbn [map snd].
      constructor; [apply Hrefl | apply IH; assumption].
Qed.
End FrameFacts.

(** X12: [updateBatchTx] touches nothing but the transaction reference and
    the submission time of one entry: readings, proofs and counters are as
    before, and [listBatches] lists the same batch ids with the same
    creation times, roots and sizes in the same order. *)
Theorem updateBatchTx_frame :
  forall (N : Type) (db : TimeSeriesDB.t N) (batchId txHash : string)
         (now : Z) (batchId' dataHash : string) (limit offset : Z),
    let db' := TimeSeriesDB.updateBatchTx db batchId txHash now in
    TimeSeriesDB.getBatchData db' batchId'
    = TimeSeriesDB.getBatchData db batchId'
    /\ TimeSeriesDB.getProof db' batchId' dataHash
       = TimeSeriesDB.getProof db batchId' dataHash
    /\ TimeSeriesDB.getTotalDataPoints db' = TimeSeriesDB.getTotalDataPoints db
    /\ TimeSeriesDB.getBatchCount db' = TimeSeriesDB.getBatchCount db
    /\ Forall2
         (fun before after =>
            BatchRegistryEntry.batchId before = BatchRegistryEntry.batchId after
            /\ BatchRegistryEntry.merkleRoot before
               = BatchRegistryEntry.merkleRoot after
            /\ BatchRegistryEntry.dataCount before
               = BatchRegistryEntry.dataCount after
            /\ BatchRegistryEntry.createdAt before
               = BatchRegistryEntry.createdAt after)
         (TimeSeriesDB.listBatches db limit offset)
         (TimeSeriesDB.listBatches db' limit offset).
Proof.
  intros N db batchId txHash now batchId' dataHash limit offset. cbv zeta.
  unfold TimeSeriesDB.updateBatchTx.
  destruct (JsMap.get (TimeSeriesDB.batches db) batchId) as [entry|] eqn:Hget.
  - assert (Hvalues :
              Forall2
                (fun before after =>
                   BatchRegistryEntry.batchId before
                   = BatchRegistryEntry.batchId after
                   /\ BatchRegistryEntry.merkleRoot before
                      = BatchRegistryEntry.merkleRoot after
                   /\ BatchRegistryEntry.dataCount before
                      = BatchRegistryEntry.dataCount after
                   /\ BatchRegistryEntry.createdAt before
                      = BatchRegistryEntry.createdAt after)
                (JsMap.values (TimeSeriesDB.batches db))
                (JsMap.values
                   (JsMap.set (TimeSeriesDB.batches db) batchId
                      (BatchRegistryEntry.mk
                         (BatchRegistryEntry.batchId entry)
                         (BatchRegistryEntry.merkleRoot entry) txHash
                         (BatchRegistryEntry.dataCount entry)
                         (BatchRegistryEntry.createdAt entry) now)))).
    { apply (FrameFacts.values_set_related _ _ _ _ entry).
      - intros x. repeat split.
      - exact Hget.
      - repeat split. }
    repeat split.
    + unfold TimeSeriesDB.getBatchCount, JsMap.size.
      cbn [TimeSeriesDB.batches].
      pose proof (Forall2_length Hvalues) as Hl. unfold JsMap.values in Hl.
      rewrite !length_map in Hl. rewrite <- Hl. reflexivity.
    + unfold TimeSeriesDB.listBatches. cbn [TimeSeriesDB.batches].
      apply FrameFacts.slice_related.
      apply (FrameFacts.sort_related BatchRegistryEntry.createdAt);
        [|exact Hvalues].
      intros a b Hab. apply Hab.
  - repeat split.
    assert (Hself : forall l : list BatchRegistryEntry.t,
               Forall2
                 (fun before after =>
                    BatchRegistryEntry.batchId before
                    = BatchRegistryEntry.batchId after
                    /\ BatchRegistryEntry.merkleRoot before
                       = BatchRegistryEntry.merkleRoot after
                    /\ BatchRegistryEntry.dataCount before
                       = BatchRegistryEntry.dataCount after
                    /\ BatchRegistryEntry.createdAt before
                       = BatchRegistryEntry.createdAt after) l l)
      by (induction l; constructor; auto).
    apply Hself.
Qed.

(** X13: a time range whose end lies before its start selects no
    reading. *)
Theorem queryByTimeRange_inverted :
  forall (N : Type) (db : TimeSeriesDB.t N) (startTime endTime : Z),
    endTime < startTime ->
    TimeSeriesDB.queryByTimeRange db startTime endTime = [].
Proof.
  intros N db startTime endTime Hinv.
  unfold TimeSeriesDB.queryByTimeRange, TimeSeriesDB.scan.
  replace (flat_map _ (JsMap.values (TimeSeriesDB.batchData db)))
    with (@nil (ProcessedSensorData.t N)); [reflexivity|].
  symmetry. induction (JsMap.values (TimeSeriesDB.batchData db))
    as [|data rest IH]; [reflexivity|].
  cbn [flat_map]. rewrite IH, app_nil_r.
  induction data as [|item data IHd]; [reflexivity|].
  cbn [filter].
  destruct (Z.leb_spec startTime (ProcessedSensorData.timestamp item));
    destruct (Z.leb_spec (ProcessedSensorData.timestamp item) endTime);
    cbn [andb]; try exact IHd; lia.
Qed.

(** The sample registry asked for an inverted range. *)
Lemma queryByTimeRange_inverted_witness :
  1706489614 < 1706489615
  /\ TimeSeriesDB.queryByTimeRange Samples.registryA 1706489615 1706489614
     = [].
Proof.
  split; [lia|].
  apply (queryByTimeRange_inverted Z Samples.registryA); lia.
Defined.

(** ** More on the queue *)

Module QueueRunFacts.
Section Facts.
Context {N : Type}.

Lemma flush_conserves : forall (q q' : MemoryQueue.t N) out,
  MemoryQueue.flush q = (q', out) ->
  map QueueItem.data (MemoryQueue.queue q)
  = (List.concat out ++ map QueueItem.data (MemoryQueue.queue q'))%list
  /\ MemoryQueue.batchSize q' = MemoryQueue.batchSize q.
Proof.
  intros q q' out Hf. unfold MemoryQueue.flush in Hf.
  destruct (MemoryQueue.queue q) as [|item items] eqn:Hq.
  - injection Hf as <- <-. rewrite Hq. split; reflexivity.
  - unfold Js.splice0 in Hf. injection Hf as <- <-.
    cbn [List.concat MemoryQueue.with_queue MemoryQueue.queue
         MemoryQueue.batchSize].
    rewrite app_nil_r, <- map_app, firstn_skipn. split; reflexivity.
Qed.

Lemma enqueue_conserves : forall (q q' : MemoryQueue.t N) data now out,
  MemoryQueue.enqueue q data now = (q', out) ->
  (map QueueItem.data (MemoryQueue.queue q) ++ [data])%list
  = (List.concat out ++ map QueueItem.data (MemoryQueue.queue q'))%list
  /\ MemoryQueue.batchSize q' = MemoryQueue.batchSize q.
Proof.
  intros q q' data now out He. unfold MemoryQueue.enqueue in He.
  cbn [MemoryQueue.with_queue MemoryQueue.queue MemoryQueue.batchSize] in He.
  destruct (MemoryQueue.batchSize q <=? _).
  - apply flush_conserves in He.
    cbn [MemoryQueue.with_queue MemoryQueue.queue MemoryQueue.batchSize] in He.
    rewrite map_app in He. exact He.
  - injection He as <- <-.
    cbn [MemoryQueue.with_queue MemoryQueue.queue MemoryQueue.batchSize
         List.concat app].
    rewrite map_app. split; reflexivity.
Qed.
End Facts.
End QueueRunFacts.

(** X14: whatever the capacity and the queue the run starts from, a run of
    [enqueue] calls loses and duplicates nothing: the readings queued
    before the run followed by the readings enqueued are the released
    batches, in order, followed by the readings still queued. *)
Theorem enqueue_conserves_readings :
  forall (N : Type) (calls : list (ProcessedSensorData.t N * Z))
         (q : MemoryQueue.t N),
    (map QueueItem.data (MemoryQueue.queue q) ++ map fst calls)%list
    = (List.concat (snd (MemoryQueue.enqueueAll q calls))
       ++ map QueueItem.data
            (MemoryQueue.queue (fst (MemoryQueue.enqueueAll q calls))))%list.
Proof.
  intros N calls. induction calls as [|[data now] calls IH]; intros q.
  - cbn [MemoryQueue.enqueueAll fst snd List.concat map app].
    rewrite app_nil_r. reflexivity.
  - cbn [MemoryQueue.enqueueAll].
    destruct (MemoryQueue.enqueue q data now) as [q1 out1] eqn:He.
    destruct (QueueRunFacts.enqueue_conserves _ _ _ _ _ He) as [Hcons _].
    specialize (IH q1).
    destruct (MemoryQueue.enqueueAll q1 calls) as [q2 out2].
    cbn [fst snd map] in *.
    rewrite concat_app, <- app_assoc, <- IH, app_assoc, <- Hcons.
    rewrite <- app_assoc. reflexivity.
Qed.

(** X15: with a capacity of at least one, a queue that holds fewer
    readings than its capacity still does after any run of [enqueue]
    calls, and every batch released during the run has exactly as many
    readings as the capacity. *)
Theorem enqueue_keeps_below_capacity :
  forall (N : Type) (calls : list (ProcessedSensorData.t N * Z))
         (q : MemoryQueue.t N),
    Z.of_nat (List.length (MemoryQueue.queue q)) < MemoryQueue.batchSize q ->
    Z.of_nat (List.length
                (MemoryQueue.queue (fst (MemoryQueue.enqueueAll q calls))))
    < MemoryQueue.batchSize q
    /\ Forall (fun batch =>
                 Z.of_nat (List.length batch) = MemoryQueue.batchSize q)
              (snd (MemoryQueue.enqueueAll q calls)).
Proof.
  intros N calls. induction calls as [|[data now] calls IH]; intros q Hq.
  - cbn [MemoryQueue.enqueueAll fst snd]. split; [exact Hq | constructor].
  - cbn [MemoryQueue.enqueueAll].
    destruct (Z_lt_le_dec
                (Z.of_nat (List.length (MemoryQueue.queue q)) + 1)
                (MemoryQueue.batchSize q)) as [Hbelow|Hfull].
    + rewrite QueueFacts.enqueue_below by exact Hbelow.
      specialize (IH (MemoryQueue.with_queue q
                        (MemoryQueue.queue q
                         ++ [QueueItem.mk N (ProcessedSensorData.id data)
                                          data now]))).
      cbn [MemoryQueue.with_queue MemoryQueue.queue MemoryQueue.batchSize]
        in IH.
      rewrite length_app in IH. cbn [List.length] in IH.
      destruct IH as [IH1 IH2]; [lia|].
      destruct (MemoryQueue.enqueueAll _ calls) as [q2 out2].
      cbn [fst snd app] in *. split; assumption.
    + rewrite QueueFacts.enqueue_reaches by lia.
      specialize (IH (MemoryQueue.with_queue q [])).
      cbn [MemoryQueue.with_queue MemoryQueue.queue MemoryQueue.batchSize
           List.length] in IH.
      destruct IH as [IH1 IH2]; [lia|].
      destruct (MemoryQueue.enqueueAll _ calls) as [q2 out2].
      cbn [fst snd app] in *. split; [exact IH1|].
      constructor; [|exact IH2].
      rewrite length_app, length_map. cbn [List.length]. lia.
Qed.

(** The empty queue of capacity two after three readings. *)
Lemma enqueue_keeps_below_capacity_witness :
  Z.of_nat (List.length (MemoryQueue.queue Samples.queue2))
  < MemoryQueue.batchSize Samples.queue2
  /\ Z.of_nat
       (List.length
          (MemoryQueue.queue
             (fst (MemoryQueue.enqueueAll Samples.queue2
                     [(Samples.reading1, 1706489615001);
                      (Samples.reading2, 1706489616001);
                      (Samples.reading1, 1706489617001)]))))
     < MemoryQueue.batchSize Samples.queue2.
Proof.
  assert (Hq : Z.of_nat (List.length (MemoryQueue.queue Samples.queue2))
               < MemoryQueue.batchSize Samples.queue2) by (simpl; lia).
  split; [exact Hq|].
  apply (enqueue_keeps_below_capacity Z
           [(Samples.reading1, 1706489615001);
            (Samples.reading2, 1706489616001);
            (Samples.reading1, 1706489617001)] Samples.queue2 Hq).
Defined.

(** X16: the timer callback does nothing on an empty queue and releases
    everything queued, as one batch in queue order, when the queue holds
    no more readings than its capacity. *)
Theorem timerTick_releases_queue :
  forall (N : Type) (q : MemoryQueue.t N),
    Z.of_nat (List.length (MemoryQueue.queue q)) <= MemoryQueue.batchSize q ->
    MemoryQueue.timerTick q
    = match MemoryQueue.queue q with
      | [] => (q, [])
      | _ :: _ =>
          (MemoryQueue.with_queue q [],
           [map QueueItem.data (MemoryQueue.queue q)])
      end.
Proof.
  intros N q Hq. unfold MemoryQueue.timerTick, MemoryQueue.flush.
  destruct (MemoryQueue.queue q) as [|item items] eqn:Hqueue;
    [reflexivity|].
  cbn [List.length]. 
  destruct (Z.ltb_spec 0 (Z.of_nat (S (List.length items)))); [|lia].
  unfold Js.splice0.
  replace (Z.to_nat (Z.min (Z.max (MemoryQueue.batchSize q) 0)
                           (Z.of_nat (List.length (item :: items)))))
    with (List.length (item :: items)) by (cbn [List.length] in *; lia).
  rewrite firstn_all, skipn_all. reflexivity.
Qed.

(** The queue of capacity two holding one reading. *)
Lemma timerTick_releases_queue_witness :
  Z.of_nat (List.length
              (MemoryQueue.queue
                 (MemoryQueue.with_queue Samples.queue2
                    [QueueItem.mk Z "7d8f1c1e-0001" Samples.reading1 5])))
  <= MemoryQueue.batchSize Samples.queue2
  /\ MemoryQueue.timerTick
       (MemoryQueue.with_queue Samples.queue2
          [QueueItem.mk Z "7d8f1c1e-0001" Samples.reading1 5])
     = (MemoryQueue.with_queue Samples.queue2 [], [[Samples.reading1]]).
Proof.
  split; [simpl; lia|].
  apply (timerTick_releases_queue Z
           (MemoryQueue.with_queue Samples.queue2
              [QueueItem.mk Z "7d8f1c1e-0001" Samples.reading1 5])).
  simpl. lia.
Defined.

(** X17: with a capacity of zero or less nothing ever leaves the queue:
    every [enqueue] keeps the reading queued and releases an empty batch,
    and so does every timer callback on a queue that is not empty. *)
Theorem no_release_without_capacity :
  forall (N : Type) (q : MemoryQueue.t N) (data : ProcessedSensorData.t N)
         (now : Z),
    MemoryQueue.batchSize q <= 0 ->
    MemoryQueue.enqueue q data now
    = (MemoryQueue.with_queue q
         (MemoryQueue.queue q
          ++ [QueueItem.mk N (ProcessedSensorData.id data) data now]),
       [[]])
    /\ (MemoryQueue.queue q <> [] -> MemoryQueue.timerTick q = (q, [[]])).
Proof.
  intros N q data now Hcap. split.
  - unfold MemoryQueue.enqueue.
    cbn [MemoryQueue.with_queue MemoryQueue.queue MemoryQueue.batchSize].
    destruct (Z.leb_spec (MemoryQueue.batchSize q)
                (Z.of_nat (List.length
                   (MemoryQueue.queue q
                    ++ [QueueItem.mk N (ProcessedSensorData.id data)
                                     data now])))); [|lia].
    unfold MemoryQueue.flush.
    cbn [MemoryQueue.with_queue MemoryQueue.queue MemoryQueue.batchSize].
    destruct (MemoryQueue.queue q
              ++ [QueueItem.mk N (ProcessedSensorData.id data) data now])
      as [|item items] eqn:Hq.
    + destruct (MemoryQueue.queue q); discriminate Hq.
    + unfold Js.splice0.
      replace (Z.to_nat (Z.min (Z.max (MemoryQueue.batchSize q) 0)
                               (Z.of_nat (List.length (item :: items)))))
        with 0%nat by lia.
      reflexivity.
  - intros Hne. unfold MemoryQueue.timerTick, MemoryQueue.flush.
    destruct (MemoryQueue.queue q) as [|item items] eqn:Hq;
      [contradiction|].
    cbn [List.length].
    destruct (Z.ltb_spec 0 (Z.of_nat (S (List.length items)))); [|lia].
    unfold Js.splice0.
    replace (Z.to_nat (Z.min (Z.max (MemoryQueue.batchSize q) 0)
                             (Z.of_nat (List.length (item :: items)))))
      with 0%nat by lia.
    cbn [firstn skipn map]. rewrite <- Hq, QueueFacts.with_queue_same.
    reflexivity.
Qed.

(** A queue of capacity zero. *)
Lemma no_release_without_capacity_witness :
  MemoryQueue.batchSize (MemoryQueue.mk (@nil (QueueItem.t Z)) 0 60000) <= 0
  /\ MemoryQueue.enqueue (MemoryQueue.mk [] 0 60000) Samples.reading1 5
     = (MemoryQueue.mk
          [QueueItem.mk Z (ProcessedSensorData.id Samples.reading1)
                        Samples.reading1 5] 0 60000,
        [[]]).
Proof.
  split; [simpl; lia|].
  apply (no_release_without_capacity Z (MemoryQueue.mk [] 0 60000)
           Samples.reading1 5).
  simpl. lia.
Defined.

(** ** The contract *)

Module ContractFacts.
Import AgriDataRegistryContract.

Lemma eq32_true : forall a b, eq32 a b = true <-> a = b.
Proof. intros a b. unfold eq32. apply BufferFacts.compare_eqb. Qed.

Lemma eq32_false : forall a b, eq32 a b = false <-> a <> b.
Proof.
  intros a b. split.
  - intros Hf Heq. apply eq32_true in Heq. congruence.
  - intros Hne. destruct (eq32 a b) eqn:He; [|reflexivity].
    apply eq32_true in He. contradiction.
Qed.

Lemma eq32_refl : forall a, eq32 a a = true.
Proof. intros a. apply eq32_true. reflexivity. Qed.

(** What a call that goes through leaves of the roots and timestamps. *)
Lemma call_roots : forall c tx c' b,
  call c tx = Js.Ret c' ->
  batchRoots c b <> zero32 ->
  batchRoots c' b = batchRoots c b
  /\ batchTimestamps c' b = batchTimestamps c b.
Proof.
  intros c tx c' b Hcall Hset.
  unfold call in Hcall.
  destruct (tx_call tx) as [batchId merkleRoot|relayer|relayer|newOwner].
  - unfold registerDataBatch in Hcall.
    destruct (negb (onlyAuthorized c (tx_sender tx))); [discriminate|].
    destruct (eq32 (batchRoots c batchId) zero32) eqn:Hfree;
      [|discriminate].
    cbn [negb] in Hcall.
    destruct (eq32 merkleRoot zero32); [discriminate|].
    injection Hcall as <-. cbn [batchRoots batchTimestamps].
    destruct (eq32 b batchId) eqn:Hb.
    + apply eq32_true in Hb. subst b.
      apply eq32_true in Hfree. contradiction.
    + split; reflexivity.
  - unfold authorizeRelayer in Hcall.
    destruct (negb (onlyOwner c (tx_sender tx))); [discriminate|].
    destruct (relayer =? 0); [discriminate|].
    injection Hcall as <-. split; reflexivity.
  - unfold revokeRelayer in Hcall.
    destruct (negb (onlyOwner c (tx_sender tx))); [discriminate|].
    injection Hcall as <-. split; reflexivity.
  - unfold transferOwnership in Hcall.
    destruct (negb (onlyOwner c (tx_sender tx))); [discriminate|].
    destruct (newOwner =? 0); [discriminate|].
    injection Hcall as <-. split; reflexivity.
Qed.

Lemma register_ok : forall c sender now batchId merkleRoot,
  onlyAuthorized c sender = true ->
  eq32 (batchRoots c batchId) zero32 = true ->
  eq32 merkleRoot zero32 = false ->
  registerDataBatch c sender now batchId merkleRoot
  = Js.Ret
      (mk (fun b => if eq32 b batchId then merkleRoot else batchRoots c b)
          (fun b => if eq32 b batchId then now else batchTimestamps c b)
          (owner c) (authorizedRelayers c)
          (events c ++ [BatchRegistered batchId merkleRoot now sender])).
Proof.
  intros c sender now batchId merkleRoot Ha Hf Hr.
  unfold registerDataBatch. rewrite Ha, Hf, Hr. reflexivity.
Qed.

Lemma exec_roots : forall c tx b,
  batchRoots c b <> zero32 ->
  batchRoots (exec c tx) b = batchRoots c b
  /\ batchTimestamps (exec c tx) b = batchTimestamps c b.
Proof.
  intros c tx b Hset. unfold exec.
  destruct (call c tx) as [c'|msg] eqn:Hcall.
  - apply (call_roots c tx c' b Hcall Hset).
  - split; reflexivity.
Qed.

Lemma stranger_call : forall c tx,
  tx_sender tx <> owner c /\ authorizedRelayers c (tx_sender tx) = false ->
  exists msg, call c tx = Js.Throw msg.
Proof.
  intros c tx [Hown Hauth].
  assert (Ho : (tx_sender tx =? owner c) = false)
    by (apply Z.eqb_neq; exact Hown).
  unfold call.
  destruct (tx_call tx) as [batchId merkleRoot|relayer|relayer|newOwner].
  - unfold registerDataBatch, onlyAuthorized. rewrite Ho, Hauth.
    cbn [orb negb]. eexists; reflexivity.
  - unfold authorizeRelayer, onlyOwner. rewrite Ho.
    cbn [negb]. eexists; reflexivity.
  - unfold revokeRelayer, onlyOwner. rewrite Ho.
    cbn [negb]. eexists; reflexivity.
  - unfold transferOwnership, onlyOwner. rewrite Ho.
    cbn [negb]. eexists; reflexivity.
Qed.

Lemma logged_constructor : forall sender,
  ContractLog.logged (constructor sender).
Proof.
  intros sender. split.
  - intros b Hset. cbn in Hset. contradiction Hset. reflexivity.
  - intros b r ts relayer Hin. cbn in Hin.
    destruct Hin as [Hin|[]]. discriminate Hin.
Qed.

Lemma logged_same : forall c c' e,
  batchRoots c' = batchRoots c ->
  batchTimestamps c' = batchTimestamps c ->
  events c' = (events c ++ [e])%list ->
  (forall b r ts relayer, e <> BatchRegistered b r ts relayer) ->
  ContractLog.logged c -> ContractLog.logged c'.
Proof.
  intros c c' e Hr Ht He Hne [Hl1 Hl2]. split.
  - intros b Hset. rewrite Hr in Hset |- *. rewrite Ht, He.
    destruct (Hl1 b Hset) as [relayer Hin].
    exists relayer. apply in_or_app. left. exact Hin.
  - intros b r ts relayer Hin. rewrite He in Hin.
    apply in_app_or in Hin. destruct Hin as [Hin|[Hin|[]]].
    + rewrite Hr, Ht. apply (Hl2 b r ts relayer Hin).
    + exfalso. apply (Hne b r ts relayer Hin).
Qed.

Lemma logged_exec : forall c tx,
  ContractLog.logged c -> ContractLog.logged (exec c tx).
Proof.
  intros c tx Hl. unfold exec.
  destruct (call c tx) as [c'|msg] eqn:Hcall; [|exact Hl].
  unfold call in Hcall.
  destruct (tx_call tx) as [batchId merkleRoot|relayer|relayer|newOwner].
  - unfold registerDataBatch in Hcall.
    destruct (negb (onlyAuthorized c (tx_sender tx))); [discriminate|].
    destruct (eq32 (batchRoots c batchId) zero32) eqn:Hfree;
      [|discriminate].
    cbn [negb] in Hcall.
    destruct (eq32 merkleRoot zero32) eqn:Hroot; [discriminate|].
    injection Hcall as <-.
    apply eq32_true in Hfree. apply eq32_false in Hroot.
    destruct Hl as [Hl1 Hl2]. split.
    + intros b Hset. cbn [batchRoots batchTimestamps events] in Hset |- *.
      destruct (eq32 b batchId) eqn:Hb.
      * apply eq32_true in Hb. subst b.
        exists (tx_sender tx). apply in_or_app. right. left. reflexivity.
      * destruct (Hl1 b Hset) as [relayer Hin].
        exists relayer. apply in_or_app. left. exact Hin.
    + intros b r ts relayer Hin.
      cbn [batchRoots batchTimestamps events] in Hin |- *.
      apply in_app_or in Hin. destruct Hin as [Hin|[Hin|[]]].
      * destruct (Hl2 b r ts relayer Hin) as (Hr & Ht & Hnz).
        destruct (eq32 b batchId) eqn:Hb.
        -- apply eq32_true in Hb. subst b.
           rewrite Hfree in Hr. subst r. contradiction Hnz. reflexivity.
        -- repeat split; assumption.
      * injection Hin as <- <- <- <-.
        rewrite eq32_refl. repeat split; [exact Hroot].
  - unfold authorizeRelayer in Hcall.
    destruct (negb (onlyOwner c (tx_sender tx))); [discriminate|].
    destruct (relayer =? 0); [discriminate|].
    injection Hcall as <-.
    apply (logged_same c _ (RelayerAuthorized relayer));
      try reflexivity; [discriminate | exact Hl].
  - unfold revokeRelayer in Hcall.
    destruct (negb (onlyOwner c (tx_sender tx))); [discriminate|].
    injection Hcall as <-.
    apply (logged_same c _ (RelayerRevoked relayer));
      try reflexivity; [discriminate | exact Hl].
  - unfold transferOwnership in Hcall.
    destruct (negb (onlyOwner c (tx_sender tx))); [discriminate|].
    destruct (newOwner =? 0); [discriminate|].
    injection Hcall as <-.
    destruct Hl as [Hl1 Hl2]. split; assumption.
Qed.

Lemma logged_run : forall txs c,
  ContractLog.logged c -> ContractLog.logged (run c txs).
Proof.
  induction txs as [|tx txs IH]; intros c Hl; [exact Hl|].
  apply IH. apply logged_exec. exact Hl.
Qed.

End ContractFacts.

(** X18: a batch that has a root keeps that root and its registration time
    under every later sequence of transactions, whoever sends them. *)
Theorem registered_root_is_final :
  forall (c : AgriDataRegistryContract.t)
         (txs : list AgriDataRegistryContract.Tx) (batchId : Js.Buffer),
    AgriDataRegistryContract.getBatchRoot c batchId
    <> AgriDataRegistryContract.zero32 ->
    AgriDataRegistryContract.getBatchRoot
      (AgriDataRegistryContract.run c txs) batchId
    = AgriDataRegistryContract.getBatchRoot c batchId
    /\ AgriDataRegistryContract.getBatchTimestamp
         (AgriDataRegistryContract.run c txs) batchId
       = AgriDataRegistryContract.getBatchTimestamp c batchId.
Proof.
  intros c txs batchId. revert c.
  unfold AgriDataRegistryContract.getBatchRoot,
         AgriDataRegistryContract.getBatchTimestamp.
  induction txs as [|tx txs IH]; intros c Hset; [split; reflexivity|].
  cbn [AgriDataRegistryContract.run fold_left].
  destruct (ContractFacts.exec_roots c tx batchId Hset) as [Hr Ht].
  assert (Hset' : AgriDataRegistryContract.batchRoots
                    (AgriDataRegistryContract.exec c tx) batchId
                  <> AgriDataRegistryContract.zero32)
    by (rewrite Hr; exact Hset).
  destruct (IH _ Hset') as [Hr' Ht'].
  unfold AgriDataRegistryContract.run in Hr', Ht'.
  rewrite Hr', Ht', Hr, Ht. split; reflexivity.
Qed.

(** X19: transactions sent by addresses that are neither the owner nor an
    authorized relayer all revert: the state after them, log included, is
    the state before. *)
Theorem strangers_change_nothing :
  forall (c : AgriDataRegistryContract.t)
         (txs : list AgriDataRegistryContract.Tx),
    Forall (fun tx =>
              AgriDataRegistryContract.tx_sender tx
              <> AgriDataRegistryContract.owner c
              /\ AgriDataRegistryContract.authorizedRelayers
                   c (AgriDataRegistryContract.tx_sender tx) = false) txs ->
    AgriDataRegistryContract.run c txs = c.
Proof.
  intros c txs Hall. induction Hall as [|tx txs Htx Hall IH];
    [reflexivity|].
  cbn [AgriDataRegistryContract.run fold_left].
  assert (He : AgriDataRegistryContract.exec c tx = c).
  { unfold AgriDataRegistryContract.exec.
    destruct (ContractFacts.stranger_call c tx Htx) as [msg Hmsg].
    rewrite Hmsg. reflexivity. }
  rewrite He. exact IH.
Qed.

(** X20: [transferOwnership] hands over the owner's rights but does not
    withdraw the authorization the constructor gave the deployer: after the
    transfer the deployer can no longer authorize relayers, and can still
    register a batch. *)
Theorem former_owner_still_registers :
  forall (deployer newOwner now : Z) (batchId merkleRoot : Js.Buffer),
    newOwner <> 0 ->
    newOwner <> deployer ->
    merkleRoot <> AgriDataRegistryContract.zero32 ->
    exists c c',
      AgriDataRegistryContract.transferOwnership
        (AgriDataRegistryContract.constructor deployer) deployer newOwner
      = Js.Ret c
      /\ AgriDataRegistryContract.owner c = newOwner
      /\ AgriDataRegistryContract.authorizeRelayer c deployer deployer
         = Js.Throw "Only owner can call this function"
      /\ AgriDataRegistryContract.registerDataBatch
           c deployer now batchId merkleRoot = Js.Ret c'
      /\ AgriDataRegistryContract.getBatchRoot c' batchId = merkleRoot.
Proof.
  intros deployer newOwner now batchId merkleRoot Hnz Hne Hroot.
  apply Z.eqb_neq in Hnz.
  assert (Hne' : (deployer =? newOwner) = false)
    by (apply Z.eqb_neq; congruence).
  apply ContractFacts.eq32_false in Hroot.
  unfold AgriDataRegistryContract.transferOwnership,
         AgriDataRegistryContract.onlyOwner.
  cbn [AgriDataRegistryContract.constructor AgriDataRegistryContract.owner].
  rewrite Z.eqb_refl, Hnz. cbn [negb].
  eexists. eexists. split; [reflexivity|].
  split; [reflexivity|].
  unfold AgriDataRegistryContract.authorizeRelayer,
         AgriDataRegistryContract.registerDataBatch,
         AgriDataRegistryContract.onlyOwner,
         AgriDataRegistryContract.onlyAuthorized,
         AgriDataRegistryContract.getBatchRoot.
  cbn [AgriDataRegistryContract.constructor
       AgriDataRegistryContract.owner
       AgriDataRegistryContract.authorizedRelayers
       AgriDataRegistryContract.batchRoots
       AgriDataRegistryContract.batchTimestamps
       AgriDataRegistryContract.events].
  rewrite Hne', Z.eqb_refl, Hroot, ContractFacts.eq32_refl.
  cbn [negb orb].
  split; [reflexivity|]. split; [reflexivity|].
  cbn [AgriDataRegistryContract.batchRoots].
  rewrite ContractFacts.eq32_refl. reflexivity.
Qed.

(** X21: after any sequence of transactions on a new contract the log and
    the mappings agree: every [BatchRegistered] event carries the root and
    the time the contract now returns for its batch, that root is not
    zero, and every batch with a root has such an event. *)
Theorem log_agrees_with_roots :
  forall (deployer : Z) (txs : list AgriDataRegistryContract.Tx),
    let c := AgriDataRegistryContract.run
               (AgriDataRegistryContract.constructor deployer) txs in
    (forall batchId merkleRoot timestamp relayer,
        In (AgriDataRegistryContract.BatchRegistered
              batchId merkleRoot timestamp relayer)
           (AgriDataRegistryContract.events c) ->
        AgriDataRegistryContract.getBatchRoot c batchId = merkleRoot
        /\ AgriDataRegistryContract.getBatchTimestamp c batchId = timestamp
        /\ merkleRoot <> AgriDataRegistryContract.zero32)
    /\ (forall batchId,
          AgriDataRegistryContract.getBatchRoot c batchId
          <> AgriDataRegistryContract.zero32 ->
          exists relayer,
            In (AgriDataRegistryContract.BatchRegistered
                  batchId
                  (AgriDataRegistryContract.getBatchRoot c batchId)
                  (AgriDataRegistryContract.getBatchTimestamp c batchId)
                  relayer)
               (AgriDataRegistryContract.events c)).
Proof.
  intros deployer txs c.
  destruct (ContractFacts.logged_run txs _
              (ContractFacts.logged_constructor deployer)) as [H1 H2].
  split.
  - intros batchId merkleRoot timestamp relayer Hin.
    apply (H2 batchId merkleRoot timestamp relayer Hin).
  - intros batchId Hset. apply (H1 batchId Hset).
Qed.
(** The batch registered on the sample contract keeps its root. *)
Lemma registered_root_is_final_witness :
  AgriDataRegistryContract.getBatchRoot
    ContractSamples.registered ContractSamples.batch1
  <> AgriDataRegistryContract.zero32
  /\ AgriDataRegistryContract.getBatchRoot
       (AgriDataRegistryContract.run ContractSamples.registered
                                     ContractSamples.overwrites)
       ContractSamples.batch1
     = ContractSamples.root1.
Proof.
  assert (Hset : AgriDataRegistryContract.getBatchRoot
                   ContractSamples.registered ContractSamples.batch1
                 <> AgriDataRegistryContract.zero32)
    by (vm_compute; discriminate).
  split; [exact Hset|].
  destruct (registered_root_is_final
              ContractSamples.registered ContractSamples.overwrites
              ContractSamples.batch1 Hset) as [Hr _].
  rewrite Hr. vm_compute. reflexivity.
Defined.

(** The outsider's four transactions leave the sample contract as it is. *)
Lemma strangers_change_nothing_witness :
  AgriDataRegistryContract.run ContractSamples.registered
                               ContractSamples.intrusions
  = ContractSamples.registered.
Proof.
  apply (strangers_change_nothing
           ContractSamples.registered ContractSamples.intrusions).
  repeat constructor; vm_compute; discriminate.
Defined.

(** The deployer hands the sample contract over and registers a batch. *)
Lemma former_owner_still_registers_witness :
  exists c c',
    AgriDataRegistryContract.transferOwnership
      (AgriDataRegistryContract.constructor ContractSamples.deployer)
      ContractSamples.deployer ContractSamples.outsider
    = Js.Ret c
    /\ AgriDataRegistryContract.owner c = ContractSamples.outsider
    /\ AgriDataRegistryContract.authorizeRelayer
         c ContractSamples.deployer ContractSamples.deployer
       = Js.Throw "Only owner can call this function"
    /\ AgriDataRegistryContract.registerDataBatch
         c ContractSamples.deployer 1706489700
         ContractSamples.batch1 ContractSamples.root1 = Js.Ret c'
    /\ AgriDataRegistryContract.getBatchRoot c' ContractSamples.batch1
       = ContractSamples.root1.
Proof.
  apply (former_owner_still_registers
           ContractSamples.deployer ContractSamples.outsider 1706489700
           ContractSamples.batch1 ContractSamples.root1).
  - vm_compute; discriminate.
  - vm_compute; discriminate.
  - vm_compute; discriminate.
Defined.

Module ChainFacts.
Section Chain.
Context {N : Type} `{Js.Number N}.

(** The contract's loop accepts the stored proof of every reading. *)
Lemma built_proof_accepted :
  forall (data : list (ProcessedSensorData.t N))
         (item : ProcessedSensorData.t N),
    In item data ->
    RoundTrip.onChain data
      (Js.or_else (ProcessedSensorData.dataHash item)
                  (MerkleTreeBuilder.hex0x (MerkleTreeBuilder.leafOf item)))
    = Js.Ret (Some true).
Proof.
  intros data item Hin.
  unfold RoundTrip.onChain, MerkleTreeBuilder.buildTree.
  cbn [Js.bind MerkleTreeBuilder.proofs MerkleTreeBuilder.root].
  rewrite MerkleFacts.proofs_get
    by (left; apply (in_map (fun it =>
                               Js.or_else (ProcessedSensorData.dataHash it)
                                 (MerkleTreeBuilder.hex0x
                                    (MerkleTreeBuilder.leafOf it)))
                            data item Hin)).
  cbn [option_map]. do 2 f_equal.
  rewrite MerkleFacts.bufferOf_key, MerkleFacts.bufferOf_hex0x.
  rewrite map_map.
  rewrite (map_ext _ MerkleTreeJs.data)
    by (intros p; apply MerkleFacts.bufferOf_hex0x).
  unfold AgriDataRegistry.verifyMerkleProof. apply BufferFacts.compare_eqb.
  unfold MerkleTreeJs.getProof, MerkleTreeJs.getRoot, MerkleTreeJs.new.
  cbn [MerkleTreeBuilder.build_options MerkleTreeJs.hashLeaves
       MerkleTreeJs.leaves MerkleTreeJs.layers].
  assert (Hleaf : In (MerkleTreeBuilder.leafOf item)
                     (map MerkleTreeBuilder.leafOf data))
    by (apply in_map; exact Hin).
  destruct (MerkleFacts.lastIndex_in _ _ 0%nat None Hleaf) as [j Hj].
  rewrite Hj.
  destruct (MerkleFacts.lastIndex_nth _ _ _ _ _ Hj) as [Hnone|[_ Hnth]];
    [discriminate Hnone|].
  rewrite Nat.sub_0_r in Hnth.
  apply (MerkleFacts.climb_to_root _ _ _ _ (Nat.le_refl _) Hnth).
Qed.

End Chain.
End ChainFacts.

(** X22: once the root [buildTree] computed for a batch is registered on
    the contract, [verifyDataInclusion] returns true for every reading of
    the batch, given the reading's fingerprint as leaf and the proof stored
    for it; before the registration the same call reverts with
    [Batch not found]. *)
Theorem registered_batch_verifies_on_chain :
  forall (N : Type) (num : Js.Number N)
         (data : list (ProcessedSensorData.t N))
         (item : ProcessedSensorData.t N)
         (built : MerkleTreeBuilder.BuildResult)
         (c c' : AgriDataRegistryContract.t)
         (sender now : Z) (batchId : Js.Buffer),
    In item data ->
    MerkleTreeBuilder.buildTree data = Js.Ret built ->
    AgriDataRegistryContract.registerDataBatch
      c sender now batchId
      (MerkleTreeBuilder.bufferOf (MerkleTreeBuilder.root built))
    = Js.Ret c' ->
    let dataHash :=
      Js.or_else (ProcessedSensorData.dataHash item)
                 (MerkleTreeBuilder.hex0x (MerkleTreeBuilder.leafOf item)) in
    exists proof,
      JsMap.get (MerkleTreeBuilder.proofs built) dataHash = Some proof
      /\ AgriDataRegistryContract.verifyDataInclusion
           c batchId (MerkleTreeBuilder.bufferOf dataHash)
           (map MerkleTreeBuilder.bufferOf proof)
         = Js.Throw "Batch not found"
      /\ AgriDataRegistryContract.verifyDataInclusion
           c' batchId (MerkleTreeBuilder.bufferOf dataHash)
           (map MerkleTreeBuilder.bufferOf proof)
         = Js.Ret true.
Proof.
  intros N num data item built c c' sender now batchId Hin Hbuild Hreg
         dataHash.
  pose proof (ChainFacts.built_proof_accepted data item Hin) as Hacc.
  unfold RoundTrip.onChain in Hacc. rewrite Hbuild in Hacc.
  cbn [Js.bind] in Hacc. fold dataHash in Hacc.
  destruct (JsMap.get (MerkleTreeBuilder.proofs built) dataHash)
    as [proof|]; [|discriminate Hacc].
  cbn [option_map] in Hacc. injection Hacc as Hacc.
  exists proof. split; [reflexivity|].
  unfold AgriDataRegistryContract.registerDataBatch in Hreg.
  destruct (negb (AgriDataRegistryContract.onlyAuthorized c sender));
    [discriminate|].
  destruct (AgriDataRegistryContract.eq32
              (AgriDataRegistryContract.batchRoots c batchId)
              AgriDataRegistryContract.zero32) eqn:Hfree; [|discriminate].
  cbn [negb] in Hreg.
  destruct (AgriDataRegistryContract.eq32
              (MerkleTreeBuilder.bufferOf (MerkleTreeBuilder.root built))
              AgriDataRegistryContract.zero32) eqn:Hroot; [discriminate|].
  injection Hreg as <-.
  unfold AgriDataRegistryContract.verifyDataInclusion.
  cbn [AgriDataRegistryContract.batchRoots].
  rewrite Hfree, ContractFacts.eq32_refl, Hroot, Hacc.
  split; reflexivity.
Qed.

(** The sample batch of two readings, registered by the deployer. *)
Lemma registered_batch_verifies_on_chain_witness :
  exists built c' proof,
    MerkleTreeBuilder.buildTree [Samples.reading1; Samples.reading2]
    = Js.Ret built
    /\ AgriDataRegistryContract.registerDataBatch
         (AgriDataRegistryContract.constructor ContractSamples.deployer)
         ContractSamples.deployer 1706489700 ContractSamples.batch1
         (MerkleTreeBuilder.bufferOf (MerkleTreeBuilder.root built))
       = Js.Ret c'
    /\ AgriDataRegistryContract.verifyDataInclusion
         c' ContractSamples.batch1
         (MerkleTreeBuilder.bufferOf
            (ProcessedSensorData.dataHash Samples.reading2))
         (map MerkleTreeBuilder.bufferOf proof)
       = Js.Ret true.
Proof.
  assert (Hin : In Samples.reading2 [Samples.reading1; Samples.reading2])
    by (right; left; reflexivity).
  eassert (Hbuild : MerkleTreeBuilder.buildTree
                      [Samples.reading1; Samples.reading2] = Js.Ret _)
    by reflexivity.
  match type of Hbuild with _ = Js.Ret ?b => set (built := b) in Hbuild end.
  eassert (Hreg : AgriDataRegistryContract.registerDataBatch
                    (AgriDataRegistryContract.constructor
                       ContractSamples.deployer)
                    ContractSamples.deployer 1706489700
                    ContractSamples.batch1
                    (MerkleTreeBuilder.bufferOf
                       (MerkleTreeBuilder.root built))
                  = Js.Ret _)
    by (apply ContractFacts.register_ok; vm_compute; reflexivity).
  destruct (registered_batch_verifies_on_chain
              Z Js.Number_Z [Samples.reading1; Samples.reading2]
              Samples.reading2 built _ _ _ _ _ Hin Hbuild Hreg)
    as (proof & _ & _ & Hver).
  exists built. eexists. exists proof.
  split; [exact Hbuild|]. split; [exact Hreg|].
  exact Hver.
Defined.

(** ** Retrying the backlog *)

Module RetryFacts.
Section Facts.
Context {N : Type} `{Js.Number N}.

Lemma retryLoop_busy :
  forall (batches : list (DataBatch.t N)) (w : RollupEngine.t N),
    RollupEngine.isSubmitting w = true ->
    exists w' added,
      RollupRetry.retryLoop w batches = (w', [])
      /\ RollupEngine.pendingBatches w'
         = (RollupEngine.pendingBatches w ++ added)%list
      /\ Forall2
           (fun batch batch' =>
              exists built,
                MerkleTreeBuilder.buildTree (DataBatch.data batch)
                = Js.Ret built
                /\ batch' = RollupEngine.attach batch built)
           batches added
      /\ RollupEngine.isSubmitting w' = true
      /\ RollupEngine.timers w' = RollupEngine.timers w
      /\ RollupEngine.relayerCalls w' = RollupEngine.relayerCalls w
      /\ TimeSeriesDB.getTotalDataPoints (RollupEngine.db w')
         = TimeSeriesDB.getTotalDataPoints (RollupEngine.db w)
           + Z.of_nat (List.length
                         (List.concat (map (@DataBatch.data N) batches))).
Proof.
  induction batches as [|batch rest IH]; intros w Hbusy.
  - exists w, []. cbn [RollupRetry.retryLoop map List.concat List.length].
    rewrite app_nil_r, Z.add_0_r.
    repeat split; try reflexivity; [constructor | exact Hbusy].
  - cbn [RollupRetry.retryLoop].
    destruct (MerkleTreeBuilder.buildTree (DataBatch.data batch))
      as [built|msg] eqn:Hb; [|discriminate Hb].
    rewrite (EngineFacts.processRollup_busy w batch built Hb Hbusy).
    cbn [RollupEngine.relayerCalls]. rewrite Nat.ltb_irrefl.
    edestruct IH as (w' & added & Hloop & Hp & Hf & Hs & Ht & Hc & Hn);
      [|rewrite Hloop].
    + reflexivity.
    + exists w', (RollupEngine.attach batch built :: added).
      cbn [RollupEngine.pendingBatches RollupEngine.timers
           RollupEngine.relayerCalls RollupEngine.db] in Hp, Ht, Hc, Hn.
      split; [reflexivity|].
      split; [rewrite Hp, <- app_assoc; reflexivity|].
      split; [constructor; [exists built; split; [exact Hb|reflexivity]
                           | exact Hf]|].
      split; [exact Hs|]. split; [exact Ht|]. split; [exact Hc|].
      rewrite Hn. cbn [map List.concat]. rewrite length_app.
      unfold RollupEngine.storeBatch, TimeSeriesDB.getTotalDataPoints,
             TimeSeriesDB.saveBatch.
      cbn [RollupEngine.db TimeSeriesDB.totalDataPoints
           RollupEngine.attach DataBatch.data].
      lia.
Qed.

End Facts.
End RetryFacts.

(** X23: [retryPendingBatches] called while a submission is in flight
    submits nothing: every batch of the backlog is stored again, which
    adds its readings to the data-point counter a second time, and goes
    back to the backlog, in the same order, with the root and proofs of
    its readings attached; no batch is left for the loop. *)
Theorem retry_while_submitting :
  forall (N : Type) (num : Js.Number N) (w : RollupEngine.t N),
    RollupEngine.isSubmitting w = true ->
    exists w',
      RollupRetry.retryPendingBatches w = (w', [])
      /\ Forall2
           (fun batch batch' =>
              exists built,
                MerkleTreeBuilder.buildTree (DataBatch.data batch)
                = Js.Ret built
                /\ batch' = RollupEngine.attach batch built)
           (RollupEngine.pendingBatches w) (RollupEngine.pendingBatches w')
      /\ RollupEngine.isSubmitting w' = true
      /\ RollupEngine.timers w' = RollupEngine.timers w
      /\ RollupEngine.relayerCalls w' = RollupEngine.relayerCalls w
      /\ TimeSeriesDB.getTotalDataPoints (RollupEngine.db w')
         = TimeSeriesDB.getTotalDataPoints (RollupEngine.db w)
           + Z.of_nat
               (List.length
                  (List.concat (map (@DataBatch.data N)
                                    (RollupEngine.pendingBatches w)))).
Proof.
  intros N num w Hbusy. unfold RollupRetry.retryPendingBatches.
  destruct (RetryFacts.retryLoop_busy
              (RollupEngine.pendingBatches w)
              (RollupEngine.mk [] (RollupEngine.isSubmitting w)
                               (RollupEngine.db w) (RollupEngine.timers w)
                               (RollupEngine.relayerCalls w)) Hbusy)
    as (w' & added & Hloop & Hp & Hf & Hs & Ht & Hc & Hn).
  exists w'. cbn [RollupEngine.pendingBatches app] in Hp. subst added.
  repeat split; assumption.
Qed.

(** X24: [retryPendingBatches] called on an idle engine takes the whole
    backlog out, stores the first batch again and submits it; the other
    batches wait in the loop for that submission.  When the relayer
    returns a transaction hash for the first batch, the hash is recorded
    in the registry entry of the batch. *)
Theorem retry_when_idle :
  forall (N : Type) (num : Js.Number N) (w : RollupEngine.t N)
         (batch : DataBatch.t N) (rest : list (DataBatch.t N))
         (txHash : string) (now : Z),
    RollupEngine.isSubmitting w = false ->
    RollupEngine.pendingBatches w = batch :: rest ->
    exists w' call,
      RollupRetry.retryPendingBatches w = (w', rest)
      /\ RollupEngine.pendingBatches w' = []
      /\ RollupEngine.isSubmitting w' = true
      /\ RollupEngine.relayerCalls w'
         = (RollupEngine.relayerCalls w ++ [call])%list
      /\ DataBatch.batchId (RollupEngine.call_batch call)
         = DataBatch.batchId batch
      /\ RollupEngine.call_then call = RollupEngine.InProcessRollup
      /\ option_map BatchRegistryEntry.txHash
           (TimeSeriesDB.getBatch
              (RollupEngine.db
                 (RollupEngine.relayerSettles
                    w' (List.length (RollupEngine.relayerCalls w))
                    (Js.Ret txHash) now))
              (DataBatch.batchId batch))
         = Some txHash.
Proof.
  intros N num w batch rest txHash now Hidle Hpending.
  unfold RollupRetry.retryPendingBatches. rewrite Hpending.
  cbn [RollupRetry.retryLoop].
  destruct (MerkleTreeBuilder.buildTree (DataBatch.data batch))
    as [built|msg] eqn:Hb; [|discriminate Hb].
  rewrite (EngineFacts.processRollup_idle
             (RollupEngine.mk [] (RollupEngine.isSubmitting w)
                              (RollupEngine.db w) (RollupEngine.timers w)
                              (RollupEngine.relayerCalls w))
             batch built Hb Hidle).
  cbn [RollupEngine.relayerCalls RollupEngine.pendingBatches
       RollupEngine.timers RollupEngine.db].
  rewrite length_app. cbn [List.length].
  replace (List.length (RollupEngine.relayerCalls w)
           <? List.length (RollupEngine.relayerCalls w) + 1)%nat
    with true by (symmetry; apply Nat.ltb_lt; lia).
  eexists. eexists. split; [reflexivity|].
  cbn [RollupEngine.relayerCalls RollupEngine.pendingBatches
       RollupEngine.isSubmitting RollupEngine.call_batch
       RollupEngine.call_then RollupEngine.attach DataBatch.batchId].
  repeat (split; [reflexivity|]).
  unfold RollupEngine.relayerSettles.
  cbn [RollupEngine.relayerCalls].
  rewrite nth_error_app2 by lia. rewrite Nat.sub_diag.
  cbn [nth_error RollupEngine.call_then RollupEngine.call_batch
       RollupEngine.submitFinally RollupEngine.pendingBatches
       RollupEngine.isSubmitting RollupEngine.db RollupEngine.timers
       RollupEngine.relayerCalls RollupEngine.attach DataBatch.batchId].
  rewrite RegistryFacts.getBatch_updateBatchTx, String.eqb_refl.
  unfold RollupEngine.storeBatch. cbn [RollupEngine.db].
  rewrite RegistryFacts.getBatch_saveBatch.
  cbn [BatchRegistryEntry.batchId RollupEngine.attach DataBatch.batchId].
  rewrite String.eqb_refl. reflexivity.
Qed.

(** The backlog of the sample engine is put back while it submits. *)
Lemma retry_while_submitting_witness :
  RollupEngine.isSubmitting EngineSamples.submitting = true
  /\ exists w',
       RollupRetry.retryPendingBatches EngineSamples.submitting = (w', [])
       /\ TimeSeriesDB.getTotalDataPoints (RollupEngine.db w')
          = TimeSeriesDB.getTotalDataPoints
              (RollupEngine.db EngineSamples.submitting)
            + Z.of_nat
                (List.length
                   (List.concat
                      (map (@DataBatch.data Z)
                           (RollupEngine.pendingBatches
                              EngineSamples.submitting)))).
Proof.
  assert (Hbusy : RollupEngine.isSubmitting EngineSamples.submitting = true)
    by (vm_compute; reflexivity).
  split; [exact Hbusy|].
  destruct (retry_while_submitting Z Js.Number_Z EngineSamples.submitting
                                   Hbusy)
    as (w' & Hretry & _ & _ & _ & _ & Hn).
  exists w'. split; [exact Hretry | exact Hn].
Defined.

(** The idle sample engine submits the batch of its backlog again. *)
Lemma retry_when_idle_witness :
  RollupEngine.isSubmitting EngineSamples.idle = false
  /\ exists w',
       fst (RollupRetry.retryPendingBatches EngineSamples.idle) = w'
       /\ RollupEngine.pendingBatches w' = []
       /\ RollupEngine.isSubmitting w' = true.
Proof.
  assert (Hidle : RollupEngine.isSubmitting EngineSamples.idle = false)
    by (vm_compute; reflexivity).
  assert (Hpending :
            RollupEngine.pendingBatches EngineSamples.idle
            = hd Samples.batchA
                 (RollupEngine.pendingBatches EngineSamples.idle)
              :: tl (RollupEngine.pendingBatches EngineSamples.idle))
    by (vm_compute; reflexivity).
  split; [exact Hidle|].
  destruct (retry_when_idle Z Js.Number_Z EngineSamples.idle _ _
                            "0xfeed"%string 1706489650000 Hidle Hpending)
    as (w' & call & Hretry & Hp & Hs & _).
  exists w'. rewrite Hretry. split; [reflexivity|].
  split; [exact Hp | exact Hs].
Defined.

(** ** The processor in front of the engine *)

Module ProcessorFacts.
Section Facts.
Context {N : Type} `{Js.Number N} `{DataProcessor.Clamp N}.

Lemma consistent_init : ProcessorState.consistent (@DataProcessor.init N).
Proof.
  split; [reflexivity|]. split; [reflexivity|].
  left. repeat split; reflexivity.
Qed.

Lemma consistent_processBatch : forall (p : DataProcessor.t N) data uuid now,
  ProcessorState.consistent p ->
  ProcessorState.consistent (DataProcessor.processBatch p data uuid now).
Proof.
  intros p data uuid now (Hp & Ht & Hcases).
  unfold DataProcessor.processBatch.
  destruct Hcases as [(Hproc & Hsub & Hcalls)|(Hproc & Hsub & Hcalls)];
    rewrite Hproc.
  - destruct (MerkleTreeBuilder.buildTree
                (DataProcessor.enrichData (DataProcessor.normalizeData data)))
      as [built|msg] eqn:Hb; [|discriminate Hb].
    rewrite (EngineFacts.processRollup_idle
               (DataProcessor.engine p)
               (DataBatch.mk N uuid
                  (DataProcessor.enrichData (DataProcessor.normalizeData data))
                  now None None)
               built Hb Hsub).
    unfold ProcessorState.consistent.
    cbn [DataProcessor.engine DataProcessor.isProcessing
         RollupEngine.pendingBatches RollupEngine.timers
         RollupEngine.isSubmitting RollupEngine.relayerCalls].
    rewrite Hcalls, Hp, Ht. cbn [app List.length Nat.ltb Nat.leb].
    split; [reflexivity|]. split; [reflexivity|]. right.
    split; [reflexivity|]. split; [reflexivity|].
    eexists. split; reflexivity.
  - split; [exact Hp|]. split; [exact Ht|]. right.
    repeat split; assumption.
Qed.

Lemma consistent_deliver : forall released (p : DataProcessor.t N) uuid now,
  ProcessorState.consistent p ->
  ProcessorState.consistent (Pipeline.deliver p released uuid now).
Proof.
  induction released as [|batch released IH]; intros p uuid now Hc;
    [exact Hc|].
  unfold Pipeline.deliver in IH |- *. cbn [fold_left]. apply IH.
  apply consistent_processBatch. exact Hc.
Qed.

Lemma consistent_relayerSettles :
  forall (p : DataProcessor.t N) n outcome now,
    ProcessorState.consistent p ->
    ProcessorState.consistent (DataProcessor.relayerSettles p n outcome now).
Proof.
  intros p n outcome now (Hp & Ht & Hcases).
  unfold DataProcessor.relayerSettles.
  destruct Hcases as [(Hproc & Hsub & Hcalls)|(Hproc & Hsub & call & Hcalls
                                               & Hthen)].
  - rewrite Hcalls. destruct n; cbn [nth_error];
      (split; [exact Hp|]; split; [exact Ht|]; left;
       repeat split; assumption).
  - rewrite Hcalls. destruct n as [|n]; cbn [nth_error].
    + rewrite Hthen. unfold RollupEngine.relayerSettles.
      rewrite Hcalls. cbn [nth_error]. rewrite Hthen.
      unfold RollupEngine.submitFinally.
      cbn [RollupEngine.pendingBatches RollupEngine.remove_nth].
      rewrite Hp, Ht.
      destruct outcome as [txHash|msg];
        (split; [reflexivity|]; split; [reflexivity|]; left;
         repeat split; reflexivity).
    + destruct n; cbn [nth_error];
        (split; [exact Hp|]; split; [exact Ht|]; right;
         split; [exact Hproc|]; split; [exact Hsub|];
         exists call; split; assumption).
Qed.

Lemma consistent_timerFires : forall p : DataProcessor.t N,
  ProcessorState.consistent p ->
  ProcessorState.consistent (DataProcessor.timerFires p).
Proof.
  intros p (Hp & Ht & Hcases).
  unfold DataProcessor.timerFires, RollupEngine.timerFires.
  rewrite Ht. unfold ProcessorState.consistent.
  cbn [DataProcessor.engine DataProcessor.isProcessing].
  split; [exact Hp|]. split; [exact Ht|]. exact Hcases.
Qed.

Lemma consistent_step : forall (s : Pipeline.t N) e,
  ProcessorState.consistent (Pipeline.processor s) ->
  ProcessorState.consistent (Pipeline.processor (Pipeline.step s e)).
Proof.
  intros s e Hc. destruct e as [data now uuid|now uuid|n outcome now|];
    cbn [Pipeline.step].
  - destruct (MemoryQueue.enqueue (Pipeline.queue s) data now)
      as [q released].
    cbn [Pipeline.processor]. apply consistent_deliver. exact Hc.
  - destruct (MemoryQueue.timerTick (Pipeline.queue s)) as [q released].
    cbn [Pipeline.processor]. apply consistent_deliver. exact Hc.
  - cbn [Pipeline.processor]. apply consistent_relayerSettles. exact Hc.
  - cbn [Pipeline.processor]. apply consistent_timerFires. exact Hc.
Qed.

Lemma consistent_run : forall events (s : Pipeline.t N),
  ProcessorState.consistent (Pipeline.processor s) ->
  ProcessorState.consistent (Pipeline.processor (Pipeline.run s events)).
Proof.
  induction events as [|e events IH]; intros s Hc; [exact Hc|].
  cbn [Pipeline.run fold_left]. apply IH. apply consistent_step. exact Hc.
Qed.

(** A batch handed over while the processor is busy is skipped. *)
Lemma deliver_busy : forall released (p : DataProcessor.t N) uuid now,
  DataProcessor.isProcessing p = true ->
  Pipeline.deliver p released uuid now = p.
Proof.
  induction released as [|batch released IH]; intros p uuid now Hbusy;
    [reflexivity|].
  assert (Hskip : DataProcessor.processBatch p batch uuid now = p)
    by (unfold DataProcessor.processBatch; rewrite Hbusy; reflexivity).
  unfold Pipeline.deliver in IH |- *. cbn [fold_left].
  rewrite Hskip. apply IH. exact Hbusy.
Qed.

End Facts.
End ProcessorFacts.

(** X25: when batches reach the engine through the processor, as they do
    when the queue feeds it, the backlog of the engine is never used:
    after any sequence of enqueue calls, flush-timer callbacks, relayer
    outcomes and timer callbacks on a new pipeline no batch waits in the
    backlog or for a timer, the engine submits exactly when the processor
    is processing, and at most one relayer call is pending, made for
    [processRollup]. *)
Theorem processor_keeps_backlog_empty :
  forall (N : Type) (num : Js.Number N) (cl : DataProcessor.Clamp N)
         (batchSize flushIntervalMs : Z)
         (events : list (@Pipeline.Event N)),
    let p := Pipeline.processor
               (Pipeline.run (Pipeline.init batchSize flushIntervalMs)
                             events) in
    let e := DataProcessor.engine p in
    RollupEngine.pendingBatches e = []
    /\ RollupEngine.timers e = []
    /\ RollupEngine.isSubmitting e = DataProcessor.isProcessing p
    /\ (List.length (RollupEngine.relayerCalls e) <= 1)%nat
    /\ Forall (fun call =>
                 RollupEngine.call_then call = RollupEngine.InProcessRollup)
              (RollupEngine.relayerCalls e).
Proof.
  intros N num cl batchSize flushIntervalMs events p e.
  destruct (ProcessorFacts.consistent_run
              events (Pipeline.init batchSize flushIntervalMs)
              ProcessorFacts.consistent_init) as (Hp & Ht & Hcases).
  fold p in Hp, Ht, Hcases. fold e in Hp, Ht, Hcases.
  split; [exact Hp|]. split; [exact Ht|].
  destruct Hcases as [(Hproc & Hsub & Hcalls)|(Hproc & Hsub & call & Hcalls
                                               & Hthen)].
  - rewrite Hproc, Hsub, Hcalls. cbn [List.length].
    repeat split; [lia | constructor].
  - rewrite Hproc, Hsub, Hcalls. cbn [List.length].
    repeat split; [lia | constructor; [exact Hthen | constructor]].
Qed.

(** X26: while the processor awaits the relayer, whatever the queue
    releases is discarded: enqueue calls and flush-timer callbacks leave
    the processor, the engine and the registry as they were, whether or
    not they take readings out of the queue. *)
Theorem releases_while_processing_are_discarded :
  forall (N : Type) (num : Js.Number N) (cl : DataProcessor.Clamp N)
         (s : Pipeline.t N) (events : list (@Pipeline.Event N)),
    DataProcessor.isProcessing (Pipeline.processor s) = true ->
    Forall (fun e =>
              match e with
              | Pipeline.Enqueue _ _ _ | Pipeline.FlushTimer _ _ => True
              | _ => False
              end) events ->
    Pipeline.processor (Pipeline.run s events) = Pipeline.processor s.
Proof.
  intros N num cl s events Hbusy Hall. revert s Hbusy.
  induction Hall as [|e events He Hall IH]; intros s Hbusy; [reflexivity|].
  cbn [Pipeline.run fold_left].
  assert (Hstep : Pipeline.processor (Pipeline.step s e)
                  = Pipeline.processor s).
  { destruct e as [data now uuid|now uuid|n outcome now|];
      try contradiction; cbn [Pipeline.step].
    - destruct (MemoryQueue.enqueue (Pipeline.queue s) data now)
        as [q released].
      cbn [Pipeline.processor].
      apply ProcessorFacts.deliver_busy. exact Hbusy.
    - destruct (MemoryQueue.timerTick (Pipeline.queue s)) as [q released].
      cbn [Pipeline.processor].
      apply ProcessorFacts.deliver_busy. exact Hbusy. }
  unfold Pipeline.run in IH. rewrite IH; rewrite Hstep; [reflexivity|].
  exact Hbusy.
Qed.

(** The second sample reading is taken out of the queue and reaches
    neither the engine nor the registry. *)
Lemma releases_while_processing_are_discarded_witness :
  DataProcessor.isProcessing
    (Pipeline.processor PipelineSamples.processing) = true
  /\ Pipeline.processor
       (Pipeline.run PipelineSamples.processing PipelineSamples.arrivals)
     = Pipeline.processor PipelineSamples.processing
  /\ MemoryQueue.size
       (Pipeline.queue
          (Pipeline.run PipelineSamples.processing PipelineSamples.arrivals))
     = 0.
Proof.
  assert (Hbusy : DataProcessor.isProcessing
                    (Pipeline.processor PipelineSamples.processing) = true)
    by (vm_compute; reflexivity).
  split; [exact Hbusy|].
  split.
  - apply (releases_while_processing_are_discarded
             Z Js.Number_Z DataProcessor.Clamp_Z
             PipelineSamples.processing PipelineSamples.arrivals Hbusy).
    repeat constructor.
  - vm_compute. reflexivity.
Defined.

Module NormalizeFacts.
Section Facts.
Context {N : Type} `{Js.Number N} `{DataProcessor.Clamp N}.

Lemma dataHash_processed : forall data : list (ProcessedSensorData.t N),
  map (@ProcessedSensorData.dataHash N)
      (DataProcessor.enrichData (DataProcessor.normalizeData data))
  = map (@ProcessedSensorData.dataHash N) data.
Proof.
  intros data. unfold DataProcessor.enrichData, DataProcessor.normalizeData.
  rewrite !map_map. apply map_ext. intros item. reflexivity.
Qed.

(** A leaf is read off the fingerprint when there is one. *)
Lemma leafOf_dataHash : forall item : ProcessedSensorData.t N,
  Js.truthy (ProcessedSensorData.dataHash item) = true ->
  MerkleTreeBuilder.leafOf item
  = MerkleTreeBuilder.bufferOf (ProcessedSensorData.dataHash item).
Proof.
  intros item Ht. unfold MerkleTreeBuilder.leafOf, Js.or_else.
  rewrite Ht. reflexivity.
Qed.

Lemma leaves_by_dataHash : forall data data' : list (ProcessedSensorData.t N),
  map (@ProcessedSensorData.dataHash N) data'
  = map (@ProcessedSensorData.dataHash N) data ->
  Forall (fun item => Js.truthy (ProcessedSensorData.dataHash item) = true)
         data ->
  map MerkleTreeBuilder.leafOf data' = map MerkleTreeBuilder.leafOf data.
Proof.
  induction data as [|item data IH]; intros data' Hmap Hall.
  - destruct data'; [reflexivity | discriminate Hmap].
  - destruct data' as [|item' data']; [discriminate Hmap|].
    cbn [map] in Hmap |- *. injection Hmap as Hh Hmap.
    inversion Hall as [|? ? Ht Hall']; subst.
    rewrite (leafOf_dataHash item Ht).
    rewrite (leafOf_dataHash item') by (rewrite Hh; exact Ht).
    rewrite Hh. f_equal. apply IH; assumption.
Qed.

Lemma proofs_by_dataHash :
  forall tr (data data' : list (ProcessedSensorData.t N)) lvs acc,
    map (@ProcessedSensorData.dataHash N) data'
    = map (@ProcessedSensorData.dataHash N) data ->
    fold_left (MerkleTreeBuilder.addProof tr) (combine data' lvs) acc
    = fold_left (MerkleTreeBuilder.addProof tr) (combine data lvs) acc.
Proof.
  intros tr. induction data as [|item data IH]; intros data' lvs acc Hmap.
  - destruct data'; [reflexivity | discriminate Hmap].
  - destruct data' as [|item' data']; [discriminate Hmap|].
    cbn [map] in Hmap. injection Hmap as Hh Hmap.
    destruct lvs as [|leaf lvs]; [reflexivity|].
    cbn [combine fold_left]. unfold MerkleTreeBuilder.addProof at 2 4.
    rewrite Hh. apply IH. exact Hmap.
Qed.

End Facts.
End NormalizeFacts.

(** X27: for readings that carry a fingerprint, as all readings coming
    from the webhook route do, the tree of the normalized batch is the
    tree of the batch as received: root, leaves and proofs are computed
    from the fingerprints taken on arrival, not from the clamped
    values. *)
Theorem normalization_keeps_tree :
  forall (N : Type) (num : Js.Number N) (cl : DataProcessor.Clamp N)
         (data : list (ProcessedSensorData.t N)),
    Forall (fun item => Js.truthy (ProcessedSensorData.dataHash item) = true)
           data ->
    MerkleTreeBuilder.buildTree
      (DataProcessor.enrichData (DataProcessor.normalizeData data))
    = MerkleTreeBuilder.buildTree data.
Proof.
  intros N num cl data Hall. unfold MerkleTreeBuilder.buildTree.
  rewrite (NormalizeFacts.leaves_by_dataHash
             data _ (NormalizeFacts.dataHash_processed data) Hall).
  rewrite (NormalizeFacts.proofs_by_dataHash
             _ data _ _ _ (NormalizeFacts.dataHash_processed data)).
  reflexivity.
Qed.

(** The two sample readings carry the fingerprints of their payloads. *)
Lemma normalization_keeps_tree_witness :
  MerkleTreeBuilder.buildTree
    (DataProcessor.enrichData
       (DataProcessor.normalizeData [Samples.reading1; Samples.reading2]))
  = MerkleTreeBuilder.buildTree [Samples.reading1; Samples.reading2].
Proof.
  apply (normalization_keeps_tree Z Js.Number_Z DataProcessor.Clamp_Z
           [Samples.reading1; Samples.reading2]).
  repeat constructor.
Defined.

(** X28: on integral values, readings inside the bounds of the payload
    schema (humidity and soil moisture from 0 to 100, soil pH from 0 to
    14) come out of [normalizeData] and [enrichData] unchanged. *)
Theorem validated_readings_unchanged :
  forall data : list (ProcessedSensorData.t Z),
    Forall
      (fun item =>
         Forall
           (fun entry : string * Z =>
              (fst entry = "humidity"%string -> 0 <= snd entry <= 100)
              /\ (fst entry = "soilMoisture"%string
                  -> 0 <= snd entry <= 100)
              /\ (fst entry = "soilPH"%string -> 0 <= snd entry <= 14))
           (ProcessedSensorData.readings item))
      data ->
    DataProcessor.enrichData (DataProcessor.normalizeData data) = data.
Proof.
  intros data Hall.
  unfold DataProcessor.enrichData, DataProcessor.normalizeData.
  rewrite map_map. cbn [ProcessedSensorData.id
    ProcessedSensorData.serialNumber ProcessedSensorData.sensorId
    ProcessedSensorData.timestamp ProcessedSensorData.readings
    ProcessedSensorData.receivedAt ProcessedSensorData.dataHash].
  induction Hall as [|item data Hitem Hall IH]; [reflexivity|].
  cbn [map]. rewrite IH. f_equal.
  destruct item as [id sn sid ts readings rcv dh].
  cbn [ProcessedSensorData.id
    ProcessedSensorData.serialNumber ProcessedSensorData.sensorId
    ProcessedSensorData.timestamp ProcessedSensorData.readings
    ProcessedSensorData.receivedAt ProcessedSensorData.dataHash] in *.
  f_equal.
  induction Hitem as [|[key value] readings (Hh & Hm & Hp) Hrest IHr];
    [reflexivity|].
  cbn [map fst snd] in *. rewrite IHr. f_equal.
  unfold DataProcessor.normalizeReading, DataProcessor.clamp,
         DataProcessor.Clamp_Z.
  destruct (String.eqb_spec key "humidity") as [Hk|_];
    [f_equal; specialize (Hh Hk); lia|].
  destruct (String.eqb_spec key "soilMoisture") as [Hk|_];
    [f_equal; specialize (Hm Hk); lia|].
  destruct (String.eqb_spec key "soilPH") as [Hk|_];
    [f_equal; specialize (Hp Hk); lia|].
  reflexivity.
Qed.

(** A sample reading with a humidity of 55 and a soil pH of 7. *)
Lemma validated_readings_unchanged_witness :
  DataProcessor.enrichData
    (DataProcessor.normalizeData [ReadingSamples.reading5; Samples.reading1])
  = [ReadingSamples.reading5; Samples.reading1].
Proof.
  apply (validated_readings_unchanged
           [ReadingSamples.reading5; Samples.reading1]).
  repeat (apply Forall_cons || apply Forall_nil || split);
    intros; cbv beta iota delta [fst snd] in *;
    first [discriminate | lia].
Defined.

(** ** Verification through the route *)

Module RouteFacts.
Section Facts.
Context {N : Type} `{Js.Number N} `{DataProcessor.Clamp N}.

(** The registry after [processBatch] on a processor at rest answers for
    the new batch and for the fingerprint of each of its readings. *)
Lemma stored_by_processBatch :
  forall (p : DataProcessor.t N) (data : list (ProcessedSensorData.t N))
         (uuid : string) (now : Z) (item : ProcessedSensorData.t N),
    DataProcessor.isProcessing p = false ->
    In item data ->
    Js.truthy (ProcessedSensorData.dataHash item) = true ->
    exists built proof,
      MerkleTreeBuilder.buildTree
        (DataProcessor.enrichData (DataProcessor.normalizeData data))
      = Js.Ret built
      /\ RollupEngine.db
           (DataProcessor.engine (DataProcessor.processBatch p data uuid now))
         = RollupEngine.db
             (RollupEngine.storeBatch
                (DataProcessor.engine p)
                (RollupEngine.attach
                   (DataBatch.mk N uuid
                      (DataProcessor.enrichData
                         (DataProcessor.normalizeData data))
                      now None None)
                   built))
      /\ JsMap.get (MerkleTreeBuilder.proofs built)
                   (ProcessedSensorData.dataHash item) = Some proof
      /\ AgriDataRegistry.verifyMerkleProof
           (map MerkleTreeBuilder.bufferOf proof)
           (MerkleTreeBuilder.bufferOf (MerkleTreeBuilder.root built))
           (MerkleTreeBuilder.bufferOf (ProcessedSensorData.dataHash item))
         = true.
Proof.
  intros p data uuid now item Hrest Hin Htruthy.
  unfold DataProcessor.processBatch. rewrite Hrest.
  cbn [DataProcessor.engine].
  set (data' := DataProcessor.enrichData (DataProcessor.normalizeData data)).
  unfold RollupEngine.processRollup. cbn [DataBatch.data].
  destruct (MerkleTreeBuilder.buildTree data') as [built|msg] eqn:Hb;
    [|discriminate Hb].
  rewrite EngineFacts.db_submitToBlockchain.
  pose (f := fun it : ProcessedSensorData.t N =>
               ProcessedSensorData.mk N
                 (ProcessedSensorData.id it)
                 (ProcessedSensorData.serialNumber it)
                 (ProcessedSensorData.sensorId it)
                 (ProcessedSensorData.timestamp it)
                 (map DataProcessor.normalizeReading
                      (ProcessedSensorData.readings it))
                 (ProcessedSensorData.receivedAt it)
                 (ProcessedSensorData.dataHash it)).
  assert (Hin' : In (f item) data').
  { unfold data', DataProcessor.enrichData, DataProcessor.normalizeData.
    rewrite map_map. apply (in_map f data item Hin). }
  pose proof (ChainFacts.built_proof_accepted data' (f item) Hin') as Hacc.
  unfold RoundTrip.onChain in Hacc. rewrite Hb in Hacc.
  cbn [Js.bind] in Hacc.
  unfold Js.or_else in Hacc.
  cbn [f ProcessedSensorData.dataHash] in Hacc. rewrite Htruthy in Hacc.
  destruct (JsMap.get (MerkleTreeBuilder.proofs built)
                      (ProcessedSensorData.dataHash item))
    as [proof|] eqn:Hget; [|discriminate Hacc].
  cbn [option_map] in Hacc. injection Hacc as Hacc.
  exists built, proof.
  split; [reflexivity|]. split; [reflexivity|].
  split; [exact Hget | exact Hacc].
Qed.

End Facts.
End RouteFacts.


(** X29: a batch handed to a processor at rest is stored under its new
    id, and for every reading of the batch that carries a fingerprint the
    registry then returns, for the batch id and the fingerprint, a proof
    that the contract's check accepts against the root stored in the
    entry of the batch. *)
Theorem processed_reading_is_provable :
  forall (N : Type) (num : Js.Number N) (cl : DataProcessor.Clamp N)
         (p : DataProcessor.t N) (data : list (ProcessedSensorData.t N))
         (uuid : string) (now : Z) (item : ProcessedSensorData.t N),
    DataProcessor.isProcessing p = false ->
    In item data ->
    Js.truthy (ProcessedSensorData.dataHash item) = true ->
    let db := RollupEngine.db
                (DataProcessor.engine
                   (DataProcessor.processBatch p data uuid now)) in
    exists entry proof,
      TimeSeriesDB.getBatch db uuid = Some entry
      /\ BatchRegistryEntry.dataCount entry = Z.of_nat (List.length data)
      /\ TimeSeriesDB.getProof db uuid (ProcessedSensorData.dataHash item)
         = Some proof
      /\ AgriDataRegistry.verifyMerkleProof
           (map MerkleTreeBuilder.bufferOf proof)
           (MerkleTreeBuilder.bufferOf (BatchRegistryEntry.merkleRoot entry))
           (MerkleTreeBuilder.bufferOf (ProcessedSensorData.dataHash item))
         = true.
Proof.
  intros N num cl p data uuid now item Hrest Hin Htruthy db. subst db.
  destruct (RouteFacts.stored_by_processBatch
              p data uuid now item Hrest Hin Htruthy)
    as (built & proof & Hb & Hdb & Hget & Hacc).
  destruct (EngineFacts.buildTree_root _ _ Hb) as [r Hr].
  rewrite Hdb.
  unfold RollupEngine.storeBatch, TimeSeriesDB.getBatch,
         TimeSeriesDB.getProof, TimeSeriesDB.saveBatch.
  cbn [RollupEngine.db RollupEngine.attach DataBatch.batchId DataBatch.data
       DataBatch.merkleRoot DataBatch.merkleProofs DataBatch.createdAt
       TimeSeriesDB.batches TimeSeriesDB.proofs BatchRegistryEntry.batchId].
  rewrite !JsMapFacts.get_set_same.
  eexists. exists proof. split; [reflexivity|].
  cbn [BatchRegistryEntry.dataCount BatchRegistryEntry.merkleRoot].
  split.
  { unfold DataProcessor.enrichData, DataProcessor.normalizeData.
    rewrite !length_map. reflexivity. }
  split; [exact Hget|].
  rewrite Hr. cbn [Js.or_else Js.truthy]. rewrite <- Hr. exact Hacc.
Qed.

(** The sample reading with a humidity, handed over with another one. *)
Lemma processed_reading_is_provable_witness :
  exists entry proof,
    TimeSeriesDB.getBatch
      (RollupEngine.db
         (DataProcessor.engine
            (DataProcessor.processBatch
               DataProcessor.init
               [ReadingSamples.reading5; Samples.reading1]
               "batch-5" 1706489802000)))
      "batch-5"
    = Some entry
    /\ BatchRegistryEntry.dataCount entry = 2
    /\ TimeSeriesDB.getProof
         (RollupEngine.db
            (DataProcessor.engine
               (DataProcessor.processBatch
                  DataProcessor.init
                  [ReadingSamples.reading5; Samples.reading1]
                  "batch-5" 1706489802000)))
         "batch-5" (ProcessedSensorData.dataHash ReadingSamples.reading5)
       = Some proof.
Proof.
  assert (Hin : In ReadingSamples.reading5
                   [ReadingSamples.reading5; Samples.reading1])
    by (left; reflexivity).
  destruct (processed_reading_is_provable
              Z Js.Number_Z DataProcessor.Clamp_Z DataProcessor.init
              [ReadingSamples.reading5; Samples.reading1]
              "batch-5"%string 1706489802000 ReadingSamples.reading5
              eq_refl Hin eq_refl)
    as (entry & proof & Hentry & Hcount & Hproof & _).
  exists entry, proof.
  split; [exact Hentry|]. split; [exact Hcount | exact Hproof].
Defined.

(** X30: what the verify route answers for a reading that went through a
    processor at rest with an idle engine, when no contract is
    configured.  The relayer simulates the submission, and the reference
    recorded for the batch has the format of a transaction hash; the
    route then answers 200 with [isValid] false and an empty root for the
    reading.  Had the relayer thrown instead, the route would answer 200
    with [isValid] true and the root of the registry entry. *)
Theorem verify_route_follows_relayer :
  forall (N : Type) (num : Js.Number N) (cl : DataProcessor.Clamp N)
         (p : DataProcessor.t N) (data : list (ProcessedSensorData.t N))
         (uuid : string) (item : ProcessedSensorData.t N)
         (created submitted settled asked : Z) (msg : string),
    DataProcessor.isProcessing p = false ->
    RollupEngine.isSubmitting (DataProcessor.engine p) = false ->
    In item data ->
    Js.truthy (ProcessedSensorData.dataHash item) = true ->
    Js.truthy uuid = true ->
    let n := List.length (RollupEngine.relayerCalls (DataProcessor.engine p)) in
    let p1 := DataProcessor.processBatch p data uuid created in
    exists call entry,
      nth_error (RollupEngine.relayerCalls (DataProcessor.engine p1)) n
      = Some call
      /\ let reference :=
           SepoliaRelayer.simulateTransaction
             (RollupEngine.call_merkleRoot call)
             (DataBatch.batchId (RollupEngine.call_batch call))
             submitted in
         let p2 :=
           DataProcessor.relayerSettles
             p1 n
             (SepoliaRelayer.submitMerkleRoot
                None (RollupEngine.call_merkleRoot call)
                (DataBatch.batchId (RollupEngine.call_batch call))
                submitted)
             settled in
         let db := RollupEngine.db (DataProcessor.engine p2) in
         TimeSeriesDB.getBatch db uuid = Some entry
         /\ BatchRegistryEntry.txHash entry = reference
         /\ Validation.dataHashFormat reference = true
         /\ QueryRoutes.verify
              db (SepoliaRelayer.verifyData None)
              uuid (ProcessedSensorData.dataHash item) asked
            = (200,
               QueryRoutes.Success
                 (QueryRoutes.mkResult
                    false uuid (ProcessedSensorData.dataHash item)
                    EmptyString false)
                 asked)
         /\ QueryRoutes.verify
              db (SepoliaRelayer.verifyData (Some (Js.Throw msg)))
              uuid (ProcessedSensorData.dataHash item) asked
            = (200,
               QueryRoutes.Success
                 (QueryRoutes.mkResult
                    true uuid (ProcessedSensorData.dataHash item)
                    (BatchRegistryEntry.merkleRoot entry) true)
                 asked).
Proof.
  intros N num cl p data uuid item created submitted settled asked msg
         Hrest Hidle Hin Htruthy Huuid n p1.
  destruct (RouteFacts.stored_by_processBatch
              p data uuid created item Hrest Hin Htruthy)
    as (built & proof & Hb & Hdb & Hget & _).
  destruct (EngineFacts.buildTree_root _ _ Hb) as [r Hr].
  pose proof (EngineFacts.processRollup_idle
                (DataProcessor.engine p)
                (DataBatch.mk N uuid
                   (DataProcessor.enrichData
                      (DataProcessor.normalizeData data))
                   created None None)
                built Hb Hidle) as Hpr.
  assert (Hp1 : p1 = DataProcessor.mk true
                       (RollupEngine.processRollup
                          (DataProcessor.engine p)
                          (DataBatch.mk N uuid
                             (DataProcessor.enrichData
                                (DataProcessor.normalizeData data))
                             created None None))).
  { unfold p1, DataProcessor.processBatch. rewrite Hrest. cbv zeta.
    f_equal. rewrite Hpr.
    cbn [RollupEngine.relayerCalls]. rewrite length_app.
    cbn [List.length]. apply Nat.ltb_lt. lia. }
  fold p1 in Hdb.
  rewrite Hpr in Hp1.
  assert (Hcall : nth_error
                    (RollupEngine.relayerCalls (DataProcessor.engine p1)) n
                  = Some (RollupEngine.mkCall
                            (RollupEngine.attach
                               (DataBatch.mk N uuid
                                  (DataProcessor.enrichData
                                     (DataProcessor.normalizeData data))
                                  created None None)
                               built)
                            (MerkleTreeBuilder.root built)
                            RollupEngine.InProcessRollup)).
  { rewrite Hp1. cbn [DataProcessor.engine RollupEngine.relayerCalls].
    unfold n. rewrite nth_error_app2 by lia. rewrite Nat.sub_diag.
    reflexivity. }
  set (reference := SepoliaRelayer.simulateTransaction
                      (MerkleTreeBuilder.root built) uuid submitted).
  assert (Hfmt : Validation.dataHashFormat reference = true).
  { unfold reference, SepoliaRelayer.simulateTransaction,
           SepoliaRelayer.ethers_id.
    apply DigestFacts.format_hex0x. apply DigestFacts.length_keccak256. }
  (* the registry after the simulated submission *)
  assert (Hdb2 :
            RollupEngine.db
              (DataProcessor.engine
                 (DataProcessor.relayerSettles
                    p1 n
                    (SepoliaRelayer.submitMerkleRoot
                       None (MerkleTreeBuilder.root built) uuid submitted)
                    settled))
            = TimeSeriesDB.updateBatchTx
                (RollupEngine.db (DataProcessor.engine p1)) uuid reference
                settled).
  { unfold DataProcessor.relayerSettles. rewrite Hcall.
    cbn [RollupEngine.call_then DataProcessor.engine].
    unfold RollupEngine.relayerSettles. rewrite Hcall.
    cbn [RollupEngine.call_then RollupEngine.call_batch
         SepoliaRelayer.submitMerkleRoot RollupEngine.attach
         DataBatch.batchId RollupEngine.db].
    rewrite EngineFacts.db_submitFinally. reflexivity. }
  set (entry := BatchRegistryEntry.mk
                  uuid (MerkleTreeBuilder.root built) reference
                  (Z.of_nat
                     (List.length
                        (DataProcessor.enrichData
                           (DataProcessor.normalizeData data))))
                  created settled).
  exists (RollupEngine.mkCall
            (RollupEngine.attach
               (DataBatch.mk N uuid
                  (DataProcessor.enrichData
                     (DataProcessor.normalizeData data))
                  created None None)
               built)
            (MerkleTreeBuilder.root built)
            RollupEngine.InProcessRollup), entry.
  split; [exact Hcall|].
  cbn [RollupEngine.call_merkleRoot RollupEngine.call_batch
       RollupEngine.attach DataBatch.batchId].
  cbv zeta. fold reference. rewrite Hdb2, Hdb.
  assert (Hentry : TimeSeriesDB.getBatch
                     (TimeSeriesDB.updateBatchTx
                        (RollupEngine.db
                           (RollupEngine.storeBatch
                              (DataProcessor.engine p)
                              (RollupEngine.attach
                                 (DataBatch.mk N uuid
                                    (DataProcessor.enrichData
                                       (DataProcessor.normalizeData data))
                                    created None None)
                                 built)))
                        uuid reference settled)
                     uuid
                   = Some entry).
  { rewrite RegistryFacts.getBatch_updateBatchTx, String.eqb_refl.
    unfold RollupEngine.storeBatch. cbn [RollupEngine.db].
    rewrite RegistryFacts.getBatch_saveBatch.
    cbn [BatchRegistryEntry.batchId RollupEngine.attach DataBatch.batchId
         DataBatch.data DataBatch.merkleRoot DataBatch.createdAt].
    rewrite String.eqb_refl. cbn [option_map].
    cbn [BatchRegistryEntry.batchId BatchRegistryEntry.merkleRoot
         BatchRegistryEntry.dataCount BatchRegistryEntry.createdAt].
    unfold entry. rewrite Hr. reflexivity. }
  assert (Hproof : TimeSeriesDB.getProof
                     (TimeSeriesDB.updateBatchTx
                        (RollupEngine.db
                           (RollupEngine.storeBatch
                              (DataProcessor.engine p)
                              (RollupEngine.attach
                                 (DataBatch.mk N uuid
                                    (DataProcessor.enrichData
                                       (DataProcessor.normalizeData data))
                                    created None None)
                                 built)))
                        uuid reference settled)
                     uuid (ProcessedSensorData.dataHash item)
                   = Some proof).
  { unfold TimeSeriesDB.getProof, TimeSeriesDB.updateBatchTx,
           RollupEngine.storeBatch, TimeSeriesDB.saveBatch.
    cbn [RollupEngine.db TimeSeriesDB.batches TimeSeriesDB.proofs
         BatchRegistryEntry.batchId RollupEngine.attach DataBatch.batchId
         DataBatch.merkleProofs].
    rewrite JsMapFacts.get_set_same. cbn [TimeSeriesDB.proofs].
    rewrite JsMapFacts.get_set_same. exact Hget. }
  split; [exact Hentry|]. split; [reflexivity|]. split; [exact Hfmt|].
  unfold QueryRoutes.verify. rewrite Huuid, Htruthy, Hentry, Hproof.
  cbn [negb orb SepoliaRelayer.verifyData entry
       BatchRegistryEntry.merkleRoot].
  unfold entry. cbn [BatchRegistryEntry.merkleRoot].
  rewrite Hr. cbn [Js.truthy Js.or_else].
  split; reflexivity.
Qed.

(** The sample reading with a humidity, processed without a contract. *)
Lemma verify_route_follows_relayer_witness :
  exists call,
    nth_error
      (RollupEngine.relayerCalls
         (DataProcessor.engine
            (DataProcessor.processBatch
               DataProcessor.init
               [ReadingSamples.reading5; Samples.reading1]
               "batch-5" 1706489802000)))
      0
    = Some call
    /\ QueryRoutes.verify
         (RollupEngine.db
            (DataProcessor.engine
               (DataProcessor.relayerSettles
                  (DataProcessor.processBatch
                     DataProcessor.init
                     [ReadingSamples.reading5; Samples.reading1]
                     "batch-5" 1706489802000)
                  0
                  (SepoliaRelayer.submitMerkleRoot
                     None (RollupEngine.call_merkleRoot call)
                     (DataBatch.batchId (RollupEngine.call_batch call))
                     1706489802100)
                  1706489802200)))
         (SepoliaRelayer.verifyData None)
         "batch-5" (ProcessedSensorData.dataHash ReadingSamples.reading5)
         1706489900000
       = (200,
          QueryRoutes.Success
            (QueryRoutes.mkResult
               false "batch-5"
               (ProcessedSensorData.dataHash ReadingSamples.reading5)
               EmptyString false)
            1706489900000).
Proof.
  assert (Hin : In ReadingSamples.reading5
                   [ReadingSamples.reading5; Samples.reading1])
    by (left; reflexivity).
  destruct (verify_route_follows_relayer
              Z Js.Number_Z DataProcessor.Clamp_Z DataProcessor.init
              [ReadingSamples.reading5; Samples.reading1]
              "batch-5"%string ReadingSamples.reading5
              1706489802000 1706489802100 1706489802200 1706489900000
              "unreachable"%string eq_refl eq_refl Hin eq_refl eq_refl)
    as (call & entry & Hcall & _ & _ & _ & Hverify & _).
  exists call. split; [exact Hcall | exact Hverify].
Defined.
